(** * Weigh-in API: serializers and views

    A shallow embedding of [src/serializers.py] and [src/api_views.py]:
    the weigh-in serializers (intake, video verification, upload signing,
    unverified intake with its delta report, update) and the views that
    drive them, together with the Python built-ins they call
    ([str.strip], [os.path.splitext], [str.encode('utf-8')],
    [base64.b64encode], [base64.encodestring]).

    Conventions.
    - A Python [str] is a list of Unicode code points, a [bytes] object a
      list of octets; both are [list Z].
    - Model floats (weights, [time.time()]) are exact rationals [Q].
    - A raised exception is a value of [exc]; a view turns it into an HTTP
      status the way the framework's exception handler does.
    - What the two files import from the rest of the repository
      ([validate_weight], [convert_weight_to_kgs_and_lbs], the [existing]
      manager, settings, ...) and the library functions used as black
      boxes are members of the classes of [Env]; every definition and
      theorem is parametric in them. *)

From Stdlib Require Import ZArith QArith Qabs Qround List Bool Lia String Ascii.
From Stdlib Require Import Permutation Sorted DecimalString.
Import ListNotations.
Local Open Scope Z_scope.

Set Implicit Arguments.

(** ** Python strings and bytes *)

Module PyStr.

Definition pystr := list Z.
Definition pybytes := list Z.

(** A string literal of the source, as code points. *)
Definition py (s : string) : pystr :=
  map (fun a => Z.of_N (N_of_ascii a)) (list_ascii_of_string s).

Definition str_eqb (a b : pystr) : bool :=
  if list_eq_dec Z.eq_dec a b then true else false.

(** [x in [l1, l2, ...]] on strings. *)
Definition str_in (x : pystr) (l : list pystr) : bool :=
  existsb (str_eqb x) l.

(** Truth value of a string: non-empty. *)
Definition truthy (s : pystr) : bool :=
  match s with [] => false | _ :: _ => true end.

(** Truth value of [d.get(k, None)] for a string entry. *)
Definition opt_truthy (o : option pystr) : bool :=
  match o with Some s => truthy s | None => false end.

(** [str.isspace] on one code point (CPython's [_PyUnicode_IsWhitespace]). *)
Definition is_space (c : Z) : bool :=
  ((9 <=? c) && (c <=? 13)) || ((28 <=? c) && (c <=? 32))
  || (c =? 133) || (c =? 160) || (c =? 5760)
  || ((8192 <=? c) && (c <=? 8202))
  || (c =? 8232) || (c =? 8233) || (c =? 8239) || (c =? 8287)
  || (c =? 12288).

(** [bytes.isspace] on one octet: space, \t, \n, \v, \f, \r. *)
Definition is_space_byte (c : Z) : bool :=
  ((9 <=? c) && (c <=? 13)) || (c =? 32).

Section Strip.
Variable sp : Z -> bool.

Fixpoint lstrip_with (s : list Z) : list Z :=
  match s with
  | [] => []
  | c :: r => if sp c then lstrip_with r else s
  end.

Definition strip_with (s : list Z) : list Z :=
  rev (lstrip_with (rev (lstrip_with s))).
End Strip.

(** [s.strip()] for [str] and for [bytes]. *)
Definition strip : pystr -> pystr := strip_with is_space.
Definition bytes_strip : pybytes -> pybytes := strip_with is_space_byte.

(** [p.rfind(c)]: index of the last occurrence, [-1] when there is none. *)
Fixpoint rfind_from (i : Z) (c : Z) (p : pystr) (acc : Z) : Z :=
  match p with
  | [] => acc
  | x :: r => rfind_from (i + 1) c r (if x =? c then i else acc)
  end.

Definition rfind (c : Z) (p : pystr) : Z := rfind_from 0 c p (-1).

Definition slash : Z := 47.
Definition dot : Z := 46.
Definition dash : Z := 45.

(** [p[i:j]] for [0 <= i]. *)
Definition slice (p : pystr) (i j : Z) : pystr :=
  firstn (Z.to_nat (j - i)) (skipn (Z.to_nat i) p).

(** [os.path.splitext] (posixpath): the extension starts at the last dot
    of the last path component, unless that component has only leading
    dots before it. *)
Definition splitext (p : pystr) : pystr * pystr :=
  let sepIndex := rfind slash p in
  let dotIndex := rfind dot p in
  if (sepIndex <? dotIndex)
     && existsb (fun x => negb (x =? dot)) (slice p (sepIndex + 1) dotIndex)
  then (firstn (Z.to_nat dotIndex) p, skipn (Z.to_nat dotIndex) p)
  else (p, []).

(** [str.encode('utf-8')] on one code point; [None] is UnicodeEncodeError
    (a surrogate). *)
Definition utf8_char (c : Z) : option pybytes :=
  if c <? 0 then None
  else if c <? 128 then Some [c]
  else if c <? 2048 then Some [192 + c / 64; 128 + c mod 64]
  else if c <? 55296 then
    Some [224 + c / 4096; 128 + (c / 64) mod 64; 128 + c mod 64]
  else if c <? 57344 then None
  else if c <? 65536 then
    Some [224 + c / 4096; 128 + (c / 64) mod 64; 128 + c mod 64]
  else if c <? 1114112 then
    Some [240 + c / 262144; 128 + (c / 4096) mod 64;
          128 + (c / 64) mod 64; 128 + c mod 64]
  else None.

Fixpoint utf8_encode (s : pystr) : option pybytes :=
  match s with
  | [] => Some []
  | c :: r =>
      match utf8_char c, utf8_encode r with
      | Some a, Some b => Some (a ++ b)
      | _, _ => None
      end
  end.

(** The base64 alphabet: A-Z, a-z, 0-9, +, /. *)
Definition b64_char (n : Z) : Z :=
  if n <? 26 then 65 + n
  else if n <? 52 then 71 + n
  else if n <? 62 then n - 4
  else if n =? 62 then 43
  else 47.

Definition pad : Z := 61.

(** [base64.b64encode]: three octets give four characters, the last group
    is padded with [=]. *)
Fixpoint b64encode (bs : pybytes) : pybytes :=
  match bs with
  | [] => []
  | [a] => [b64_char (a / 4); b64_char ((a mod 4) * 16); pad; pad]
  | [a; b] =>
      [b64_char (a / 4); b64_char ((a mod 4) * 16 + b / 16);
       b64_char ((b mod 16) * 4); pad]
  | a :: b :: c :: r =>
      [b64_char (a / 4); b64_char ((a mod 4) * 16 + b / 16);
       b64_char ((b mod 16) * 4 + c / 64); b64_char (c mod 64)]
      ++ b64encode r
  end.

(** [base64.encodestring] (alias of [encodebytes]): each chunk of 57
    octets is encoded on a line of its own, ended by a newline. *)
Fixpoint encodebytes_chunks (fuel : nat) (s : pybytes) : pybytes :=
  match fuel with
  | O => []
  | S f =>
      match s with
      | [] => []
      | _ :: _ =>
          b64encode (firstn 57 s) ++ [10] ++ encodebytes_chunks f (skipn 57 s)
      end
  end.

Definition encodestring (s : pybytes) : pybytes :=
  encodebytes_chunks (List.length s) s.

(** [str(n)] for an integer. *)
Definition str_of_int (n : Z) : pystr :=
  py (DecimalString.NilZero.string_of_int (Z.to_int n)).

Definition is_byte (b : Z) : Prop := 0 <= b < 256.

(** Code points that [encode('utf-8')] accepts. *)
Definition encodable_char (c : Z) : Prop :=
  0 <= c < 55296 \/ 57344 <= c < 1114112.

Definition encodable (s : pystr) : Prop := Forall encodable_char s.

Definition b64_alphabet (c : Z) : Prop :=
  65 <= c <= 90 \/ 97 <= c <= 122 \/ 48 <= c <= 57 \/ c = 43 \/ c = 47.

End PyStr.
Import PyStr.

(** ** Exceptions and responses *)

Module Http.

(** What a handler can raise. [ValidationError] is
    [serializers.ValidationError]; [Uncaught] is any other Python
    exception (TypeError, KeyError, ...), which the framework does not
    handle. *)
Inductive exc : Type :=
| ValidationError (detail : pystr)
| PermissionDenied
| Http404
| Uncaught (name : string).

Inductive result (A : Type) : Type :=
| Ok (a : A)
| Raise (e : exc).
Arguments Ok {A} a.
Arguments Raise {A} e.

Definition bind {A B : Type} (r : result A) (k : A -> result B) : result B :=
  match r with
  | Ok a => k a
  | Raise e => Raise e
  end.

(** Status code the exception handler answers with. *)
Definition status_of_exc (e : exc) : Z :=
  match e with
  | ValidationError _ => 400
  | PermissionDenied => 403
  | Http404 => 404
  | Uncaught _ => 500
  end.

Definition client_error (status : Z) : bool :=
  (400 <=? status) && (status <? 500).

(** A computation whose only way to fail is a [ValidationError]. *)
Definition raises_only_validation {A : Type} (r : result A) : Prop :=
  forall e, r = Raise e -> exists detail, e = ValidationError detail.

End Http.
Import Http.

Declare Scope result_scope.
Delimit Scope result_scope with result.
Notation "x <- e ;; k" := (bind e (fun x => k))
  (at level 61, e at next level, right associativity) : result_scope.
Notation "e ;;; k" := (bind e (fun _ => k))
  (at level 61, right associativity) : result_scope.
Local Open Scope result_scope.

(** ** Data model *)

Module Models.

(** The requesting user: primary key, preferred unit, per-user code. *)
Record User : Type := {
  user_id : Z;
  weight_unit : pystr;
  special_code : pystr
}.

(** A competitor reference; [team_challenge_id] is
    [teammate.team.challenge.id]. *)
Record Competitor : Type := {
  competitor_id : Z;
  team_challenge_id : Z
}.

(** A row of the [Weight] table. Dates are day numbers, timestamps are
    clock readings. *)
Record Weight : Type := {
  pk : Z;
  participant : Z;
  verified : bool;
  method : pystr;
  date_of_measurement : Z;
  weight_kilograms : Q;
  weight_in_pounds : Q;
  verifier_file : option pystr;
  video_link : option pystr;
  competitors : list Z;
  created : Z;
  modified : Z
}.

(** The relational store, the task queue and the clock the store stamps
    rows with. A handler reads the clock; time moves on between
    requests, outside the handlers. *)
Record Store : Type := {
  weights : list Weight;
  next_pk : Z;
  celery_queue : list Z;
  clock : Z
}.

(** An uploaded file as the request carries it. *)
Record UploadedFile : Type := {
  file_name : pystr;
  file_size : Z
}.

(** Truth value of an uploaded file: that of its name. *)
Definition file_truthy (o : option UploadedFile) : bool :=
  match o with Some f => truthy (file_name f) | None => false end.

(** [Weight.objects.create(...)]: the row gets the next primary key and
    the current clock reading. *)
Definition objects_create (st : Store) (user : Z) (v : bool) (m : pystr)
    (d : Z) (kg lb : Q) (file : option pystr) : Weight :=
  {| pk := next_pk st; participant := user; verified := v; method := m;
     date_of_measurement := d; weight_kilograms := kg;
     weight_in_pounds := lb; verifier_file := file; video_link := None;
     competitors := []; created := clock st; modified := clock st |}.

(** The store once a new row is written. *)
Definition insert_row (st : Store) (w : Weight) : Store :=
  {| weights := weights st ++ [w]; next_pk := next_pk st + 1;
     celery_queue := celery_queue st; clock := clock st |}.

(** [instance.save()] on a stored row: the row with that key is replaced. *)
Definition save_row (st : Store) (w : Weight) : Store :=
  {| weights := map (fun r => if pk r =? pk w then w else r) (weights st);
     next_pk := next_pk st; celery_queue := celery_queue st;
     clock := clock st |}.

(** [instance.delete()]. *)
Definition delete_row (st : Store) (w : Weight) : Store :=
  {| weights := filter (fun r => negb (pk r =? pk w)) (weights st);
     next_pk := next_pk st; celery_queue := celery_queue st;
     clock := clock st |}.

(** [task.delay(measurement_id)]. *)
Definition enqueue (st : Store) (measurement_id : Z) : Store :=
  {| weights := weights st; next_pk := next_pk st;
     celery_queue := celery_queue st ++ [measurement_id];
     clock := clock st |}.

(** [queryset.get(pk=...)] behind [get_object_or_404]. *)
Definition get_object_or_404 (rows : list Weight) (key : Z) : result Weight :=
  match find (fun r => pk r =? key) rows with
  | Some r => Ok r
  | None => Raise Http404
  end.

Section OrderBy.
Variable leb : Weight -> Weight -> bool.

Fixpoint insert_sorted (w : Weight) (l : list Weight) : list Weight :=
  match l with
  | [] => [w]
  | x :: r => if leb w x then w :: l else x :: insert_sorted w r
  end.

(** [queryset.order_by(...)]: a stable sort on the given order. *)
Fixpoint order_by (l : list Weight) : list Weight :=
  match l with
  | [] => []
  | x :: r => insert_sorted x (order_by r)
  end.
End OrderBy.

(** ['-created']. *)
Definition by_created_desc (a b : Weight) : bool :=
  created b <=? created a.

(** ['date_of_measurement']. *)
Definition by_date_asc (a b : Weight) : bool :=
  date_of_measurement a <=? date_of_measurement b.

(** ['-date_of_measurement', '-modified']. *)
Definition by_date_modified_desc (a b : Weight) : bool :=
  (date_of_measurement b <? date_of_measurement a)
  || ((date_of_measurement b =? date_of_measurement a)
      && (modified b <=? modified a)).

End Models.
Import Models.

(** ** Upload policy and signing result *)

Module Policy.

(** One entry of the policy's ["conditions"]: a one-key dict or a list of
    strings. *)
Inductive Condition : Type :=
| CondDict (key value : pystr)
| CondList (items : list pystr).

Record PolicyDocument : Type := {
  expiration : pystr;
  conditions : list Condition
}.

(** The dict that signing returns. *)
Record SignContext : Type := {
  bucket_url : pystr;
  s3_file_url : pystr;
  key : pystr;
  policy : pybytes;
  signature : pybytes;
  AWSAccessKeyId : pystr;
  acl : pystr;
  success_action_status : Z;
  content_type : pystr
}.

(** [timedelta(days=n)] in microseconds, the resolution of a datetime. *)
Definition timedelta_days (n : Z) : Z := n * 86400000000.

(** [int(x)] on a float: truncation towards zero. *)
Definition py_int (x : Q) : Z := Z.quot (Qnum x) (Zpos (Qden x)).

End Policy.
Import Policy.

(** ** What the two files import *)

Module Env.

(** [.conf.settings] and [.settings.base]. *)
Class Settings : Type := {
  S3_BUCKET_NAME : pystr;
  S3_SECRET_KEY : pystr;
  S3_ACCESS_KEY : pystr;
  MAIN_COMPETITION : Z
}.

(** [.utils]: the conversion helper and the validators. A validator reads
    the store and either returns a value or raises. *)
Class Utils : Type := {
  convert_weight_to_kgs_and_lbs : pystr -> Q -> Q * Q;
  validate_competitor : Store -> option pystr -> result (option (list Competitor));
  validate_weight : Store -> User -> Q -> option Z -> bool -> result Q;
  validate_date : Store -> Z -> result Z;
  validate_height : Store -> Z -> Z -> User -> result unit
}.

(** Modelled from the spec: the validators of [.utils] are not among the
    sources. The spec says that every validation failure (invalid date,
    invalid weight, invalid height pairing, unknown competitor) surfaces
    as a client-visible 4xx response with a descriptive message: a
    validator that fails raises a [ValidationError]. *)
Class UtilsLaws (U : Utils) : Prop := {
  validate_competitor_raises :
    forall st ids, raises_only_validation (validate_competitor st ids);
  validate_weight_raises :
    forall st user w d update,
      raises_only_validation (validate_weight st user w d update);
  validate_date_raises :
    forall st d, raises_only_validation (validate_date st d);
  validate_height_raises :
    forall st big small user,
      raises_only_validation (validate_height st big small user)
}.

(** The [Weight.existing] manager of [.models]: its rows, and its
    [before_date(user, date)] query. *)
Class Managers : Type := {
  existing : list Weight -> list Weight;
  before_date : list Weight -> User -> Z -> list Weight
}.

(** Library functions that are used as black boxes: [hashlib.sha1(..)
    .hexdigest()], [hmac.new(key, msg, hashlib.sha1).digest()],
    [json.dumps(.., indent=2)], [strftime('%Y-%m-%dT%H:%M:%SZ')] and
    [str.lower]. *)
Class PyLib : Type := {
  sha1_hexdigest : pybytes -> pystr;
  hmac_sha1_digest : pybytes -> pybytes -> pybytes;
  json_dumps : PolicyDocument -> pystr;
  strftime : Z -> pystr;
  lower : pystr -> pystr
}.

(** What is known of those black boxes: a SHA-1 hex digest is forty
    hexadecimal digits, and [json.dumps] escapes everything outside
    ASCII. *)
Definition is_hexdigit (c : Z) : Prop := 48 <= c <= 57 \/ 97 <= c <= 102.

Class PyLibLaws (L : PyLib) : Prop := {
  sha1_hexdigest_shape :
    forall m, List.length (sha1_hexdigest m) = 40%nat
              /\ Forall is_hexdigit (sha1_hexdigest m);
  json_dumps_ascii :
    forall d, Forall (fun c => 0 <= c < 128) (json_dumps d)
}.

(** Modelled from the spec: [core.permissions.BelongsToUser] is not among
    the sources. The spec calls it the reusable ownership permission check
    that restricts update and deletion to the owning participant: object
    permission is granted exactly when the measurement's participant is
    the requesting user. *)
Definition BelongsToUser (request_user : User) (obj : Weight) : bool :=
  participant obj =? user_id request_user.

End Env.
Import Env.

(** ** The framework's field layer and dispatch *)

Module Rest.

(** Result of a handler: a response with its payload, or the error
    response the exception handler builds. *)
Inductive Reply (A : Type) : Type :=
| Response (status : Z) (data : A)
| ErrorResponse (status : Z) (e : exc).
Arguments Response {A} status data.
Arguments ErrorResponse {A} status e.

Definition status_code {A : Type} (r : Reply A) : Z :=
  match r with
  | Response s _ => s
  | ErrorResponse s _ => s
  end.

(** A handler that raises leaves the store as it found it and answers with
    the status of the exception. *)
Definition dispatch {A : Type} (st : Store) (h : result (Reply A * Store))
  : Reply A * Store :=
  match h with
  | Ok rs => rs
  | Raise e => (ErrorResponse (status_of_exc e) e, st)
  end.

(** A field declared [required=True]. *)
Definition required {A : Type} (partial : bool) (o : option A)
  : result (option A) :=
  match o with
  | Some a => Ok (Some a)
  | None => if partial then Ok None
            else Raise (ValidationError (py "This field is required."))
  end.

(** A field that must be there. *)
Definition present {A : Type} (o : option A) : result A :=
  match o with
  | Some a => Ok a
  | None => Raise (ValidationError (py "This field is required."))
  end.

(** [CharField(max_length=n, required=False)]: an absent value is
    skipped, a present one is trimmed, must not be blank and must fit. *)
Definition CharField (max_length : option Z) (o : option pystr)
  : result (option pystr) :=
  match o with
  | None => Ok None
  | Some s =>
      let v := strip s in
      if truthy v then
        match max_length with
        | Some n =>
            if n <? Z.of_nat (List.length v)
            then Raise (ValidationError
                          (py "Ensure this field has no more than "
                           ++ str_of_int n ++ py " characters."))
            else Ok (Some v)
        | None => Ok (Some v)
        end
      else Raise (ValidationError (py "This field may not be blank."))
  end.

(** [FileField(required=False)]: a present file needs a name and a
    content. *)
Definition FileField (o : option UploadedFile) : result (option UploadedFile) :=
  match o with
  | None => Ok None
  | Some f =>
      if negb (truthy (file_name f))
      then Raise (ValidationError (py "No filename could be determined."))
      else if file_size f =? 0
      then Raise (ValidationError (py "The submitted file is empty."))
      else Ok (Some f)
  end.

(** [float(x)]: [None] (a missing or non-numeric value) raises. *)
Definition py_float (o : option Q) : result Q :=
  match o with
  | Some q => Ok q
  | None => Raise (Uncaught "TypeError")
  end.

(** [s.encode('utf-8')]. *)
Definition encode_utf8 (s : pystr) : result pybytes :=
  match utf8_encode s with
  | Some b => Ok b
  | None => Raise (Uncaught "UnicodeEncodeError")
  end.

End Rest.
Import Rest.

(** ** serializers.py *)

Module WeightSerializer.

(** The request body: [date_of_measurement] is a declared field,
    [weight] is read from [initial_data]. *)
Record Data : Type := {
  in_date_of_measurement : option Z;
  in_weight : option Q
}.

(** [validated_data], with the keyword arguments of [save] merged in. *)
Record Validated : Type := {
  vd_date_of_measurement : option Z;
  vd_user : User;
  vd_weight_unit : pystr;
  vd_weight : Q;
  vd_verified : option bool;
  vd_method : option pystr;
  vd_participant_id : option Z
}.

(** The keyword arguments of [serializer.save(...)]. *)
Record Kwargs : Type := {
  kw_verified : option bool;
  kw_method : option pystr;
  kw_participant_id : option Z;
  kw_date_of_measurement : option Z
}.

Definition or_else {A : Type} (o d : option A) : option A :=
  match o with Some a => Some a | None => d end.

(** The dict [validated_data] updated with [kwargs]. *)
Definition merge (vd : Validated) (kw : Kwargs) : Validated :=
  {| vd_date_of_measurement :=
       or_else (kw_date_of_measurement kw) (vd_date_of_measurement vd);
     vd_user := vd_user vd;
     vd_weight_unit := vd_weight_unit vd;
     vd_weight := vd_weight vd;
     vd_verified := or_else (kw_verified kw) (vd_verified vd);
     vd_method := or_else (kw_method kw) (vd_method vd);
     vd_participant_id := or_else (kw_participant_id kw) (vd_participant_id vd) |}.

Section Methods.
Context {U : Utils}.

Definition create (st : Store) (context_user : User) (validated_data : Validated)
  : result (Weight * Store) :=
  let '(weight_kilograms, weight_in_pounds) :=
    convert_weight_to_kgs_and_lbs
      (vd_weight_unit validated_data) (vd_weight validated_data) in
  match vd_date_of_measurement validated_data with
  | None => Raise (Uncaught "KeyError")
  | Some d =>
      let w := objects_create st (user_id context_user) false (py "mobile")
                 d weight_kilograms weight_in_pounds None in
      Ok (w, insert_row st w)
  end.

Definition validate (st : Store) (context_user : User) (initial_data : Data)
    (data_date_of_measurement : option Z) : result Validated :=
  let user := context_user in
  weight <- py_float (in_weight initial_data) ;;
  let date := data_date_of_measurement in
  w <- validate_weight st user weight date false ;;
  Ok {| vd_date_of_measurement := date;
        vd_user := user;
        vd_weight_unit := weight_unit user;
        vd_weight := w;
        vd_verified := None; vd_method := None;
        vd_participant_id := None |}.

(** The declared field, under [partial=True]:
    [DateField(validators=[validate_date])]. *)
Definition to_internal_value (st : Store) (initial_data : Data)
  : result (option Z) :=
  match in_date_of_measurement initial_data with
  | None => Ok None
  | Some d => validate_date st d ;;; Ok (Some d)
  end.

(** [is_valid(raise_exception=True)]. *)
Definition is_valid (st : Store) (context_user : User) (initial_data : Data)
  : result Validated :=
  d <- to_internal_value st initial_data ;;
  validate st context_user initial_data d.

(** The framework's [save] with keyword arguments: [create] on the merged data. *)
Definition save (st : Store) (context_user : User) (vd : Validated)
    (kw : Kwargs) : result (Weight * Store) :=
  create st context_user (merge vd kw).
End Methods.

End WeightSerializer.

Module VideoVerificationSerializer.

Record Data : Type := {
  in_weight : option Q;
  in_date : option Z;
  in_s3_file_url : option pystr;
  in_video_url : option pystr;
  in_competitor_ids : option pystr;
  in_platform : option pystr
}.

(** The data once the declared fields have run. *)
Record Attrs : Type := {
  a_weight : Q;
  a_date_of_measurement : Z;
  a_s3_file_url : option pystr;
  a_video_url : option pystr;
  a_competitor_ids : option pystr;
  a_platform : pystr
}.

Record Validated : Type := {
  vd_weight : Q;
  vd_date_of_measurement : Z;
  vd_s3_file_url : option pystr;
  vd_video_url : option pystr;
  vd_competitors : option (list Competitor);
  vd_user : User;
  vd_weight_unit : pystr;
  vd_platform : pystr
}.

(** Truth value of [validated_data['competitors']]. *)
Definition competitors_truthy (o : option (list Competitor)) : bool :=
  match o with
  | Some (_ :: _) => true
  | _ => false
  end.

Definition competitors_list (o : option (list Competitor)) : list Competitor :=
  match o with Some l => l | None => [] end.

Definition set_proof (m : Weight) (file : option pystr) (link : option pystr)
  : Weight :=
  {| pk := pk m; participant := participant m; verified := verified m;
     method := method m; date_of_measurement := date_of_measurement m;
     weight_kilograms := weight_kilograms m;
     weight_in_pounds := weight_in_pounds m;
     verifier_file := file; video_link := link;
     competitors := competitors m; created := created m;
     modified := modified m |}.

(** [measurement.competitors.add] of the id list. *)
Definition competitors_add (m : Weight) (ids : list Z) : Weight :=
  {| pk := pk m; participant := participant m; verified := verified m;
     method := method m; date_of_measurement := date_of_measurement m;
     weight_kilograms := weight_kilograms m;
     weight_in_pounds := weight_in_pounds m;
     verifier_file := verifier_file m; video_link := video_link m;
     competitors := competitors m ++ ids; created := created m;
     modified := modified m |}.

Section Methods.
Context {C : Settings} {U : Utils}.

Definition create (st : Store) (validated_data : Validated) : Weight * Store :=
  let '(weight_kilograms, weight_in_pounds) :=
    convert_weight_to_kgs_and_lbs
      (vd_weight_unit validated_data) (vd_weight validated_data) in
  let measurement :=
    objects_create st (user_id (vd_user validated_data)) true
      (vd_platform validated_data) (vd_date_of_measurement validated_data)
      weight_kilograms weight_in_pounds None in
  let st := insert_row st measurement in
  let measurement :=
    if opt_truthy (vd_s3_file_url validated_data)
    then set_proof measurement (vd_s3_file_url validated_data)
           (video_link measurement)
    else set_proof measurement (verifier_file measurement)
           (vd_video_url validated_data) in
  let '(measurement, st) :=
    if competitors_truthy (vd_competitors validated_data) then
      let teammate_id_list :=
        map competitor_id (competitors_list (vd_competitors validated_data)) in
      let measurement := competitors_add measurement teammate_id_list in
      let challenges_id_list :=
        map team_challenge_id
          (competitors_list (vd_competitors validated_data)) in
      if existsb (Z.eqb MAIN_COMPETITION) challenges_id_list
      then (measurement, enqueue st (pk measurement))
      else (measurement, st)
    else (measurement, st) in
  (measurement, save_row st measurement).

Definition validate (st : Store) (request_user : User) (data : Attrs)
  : result Validated :=
  let user := request_user in
  let weight := a_weight data in
  let date := Some (a_date_of_measurement data) in
  let competitor_ids := a_competitor_ids data in
  competitors <- validate_competitor st competitor_ids ;;
  weight <- validate_weight st user weight date false ;;
  let s3_file_url := a_s3_file_url data in
  let video_url := a_video_url data in
  if negb (opt_truthy s3_file_url) && negb (opt_truthy video_url)
  then Raise (ValidationError
                (py "Please attach a video file or include a video link."))
  else Ok {| vd_weight := weight;
             vd_date_of_measurement := a_date_of_measurement data;
             vd_s3_file_url := s3_file_url;
             vd_video_url := video_url;
             vd_competitors := competitors;
             vd_user := user;
             vd_weight_unit := weight_unit user;
             vd_platform := a_platform data |}.

(** The declared fields. *)
Definition to_internal_value (st : Store) (data : Data) : result Attrs :=
  weight <- present (in_weight data) ;;
  date <- present (in_date data) ;;
  validate_date st date ;;;
  s3_file_url <- CharField (Some 500) (in_s3_file_url data) ;;
  video_url <- CharField (Some 500) (in_video_url data) ;;
  competitor_ids <- CharField (Some 100) (in_competitor_ids data) ;;
  platform <- match in_platform data with
              | None => Ok (py "mobile")
              | Some p => p' <- CharField None (Some p) ;;
                          present p'
              end ;;
  Ok {| a_weight := weight; a_date_of_measurement := date;
        a_s3_file_url := s3_file_url; a_video_url := video_url;
        a_competitor_ids := competitor_ids; a_platform := platform |}.

Definition is_valid (st : Store) (request_user : User) (data : Data)
  : result Validated :=
  attrs <- to_internal_value st data ;;
  validate st request_user attrs.
End Methods.

End VideoVerificationSerializer.

Module ApiSignS3PutRequestViewSerializer.

(** The query string. *)
Record Data : Type := {
  in_weight : option Q;
  in_height_big : option Z;
  in_height_small : option Z;
  in_date : option Z;
  in_video_filename : option pystr;
  in_competitor_ids : option pystr
}.

Record Attrs : Type := {
  a_weight : Q;
  a_height_big : Z;
  a_height_small : Z;
  a_date : Z;
  a_video_filename : pystr;
  a_competitor_ids : option pystr
}.

Record Validated : Type := {
  vd_weight : Q;
  vd_height_big : Z;
  vd_height_small : Z;
  vd_date : Z;
  vd_video_filename : pystr;
  vd_competitor_ids : option (list Competitor);
  vd_user : User
}.

Section Methods.
Context {C : Settings} {U : Utils} {L : PyLib}.

(** The file name sent to storage: base64 of the stem, then the
    extension. *)
Definition encoded_file_name (video_filename : pystr) : result pystr :=
  let '(file_name, file_extension) := splitext video_filename in
  stem <- encode_utf8 file_name ;;
  let file_name := b64encode stem in
  Ok (file_name ++ file_extension).

(** [int(time.time() + 1000)]. *)
Definition expires_of (time_time : Q) : Z := py_int (time_time + 1000)%Q.

Definition object_name_of (time_time : Q) (user : User) (file_name : pystr)
  : result pystr :=
  let expires := expires_of time_time in
  seed <- encode_utf8 (str_of_int expires) ;;
  Ok (sha1_hexdigest seed
      ++ [dash] ++ special_code user ++ [dash] ++ file_name).

Definition conditions_of (object_name : pystr) : list Condition :=
  [ CondDict (py "bucket") S3_BUCKET_NAME;
    CondList [py "starts-with"; py "$key"; object_name];
    CondDict (py "acl") (py "public-read");
    CondDict (py "success_action_status") (py "201");
    CondList [py "starts-with"; py "$Content-Type"; []] ].

Definition policy_document_of (timezone_now : Z) (object_name : pystr)
  : PolicyDocument :=
  {| expiration := strftime (timezone_now + timedelta_days 30);
     conditions := conditions_of object_name |}.

(** [create]; the two clock readings are [time.time()] and
    [timezone.now()]. *)
Definition create (time_time : Q) (timezone_now : Z)
    (validated_data : Validated) : result SignContext :=
  let file_name := vd_video_filename validated_data in
  let user := vd_user validated_data in
  file_name <- encoded_file_name file_name ;;
  object_name <- object_name_of time_time user file_name ;;
  let policy_document := policy_document_of timezone_now object_name in
  let policy_document := json_dumps policy_document in
  policy_bytes <- encode_utf8 policy_document ;;
  let policy := b64encode policy_bytes in
  secret <- encode_utf8 S3_SECRET_KEY ;;
  let signature := encodestring (hmac_sha1_digest secret policy) in
  let bucket_url := py "https://" ++ S3_BUCKET_NAME ++ py ".s3.amazonaws.com/" in
  let file_url :=
    py "https://" ++ S3_BUCKET_NAME ++ py ".s3.amazonaws.com/" ++ object_name in
  Ok {| bucket_url := bucket_url;
        s3_file_url := file_url;
        key := strip object_name;
        policy := bytes_strip policy;
        signature := bytes_strip signature;
        AWSAccessKeyId := S3_ACCESS_KEY;
        acl := py "public-read";
        success_action_status := 201;
        content_type := [] |}.

Definition validate (st : Store) (context_user : User) (data : Attrs)
  : result Validated :=
  let user := context_user in
  let date := a_date data in
  let competitor_ids := a_competitor_ids data in
  let height_big := a_height_big data in
  let height_small := a_height_small data in
  validate_height st height_big height_small user ;;;
  competitors <- validate_competitor st competitor_ids ;;
  date <- validate_date st date ;;
  Ok {| vd_weight := a_weight data;
        vd_height_big := height_big;
        vd_height_small := height_small;
        vd_date := date;
        vd_video_filename := a_video_filename data;
        vd_competitor_ids := competitors;
        vd_user := user |}.

(** The declared fields, all required but [competitor_ids]. *)
Definition to_internal_value (data : Data) : result Attrs :=
  weight <- present (in_weight data) ;;
  height_big <- present (in_height_big data) ;;
  height_small <- present (in_height_small data) ;;
  date <- present (in_date data) ;;
  raw_name <- present (in_video_filename data) ;;
  video_filename <- CharField (Some 1000) (Some raw_name) ;;
  video_filename <- present video_filename ;;
  competitor_ids <- CharField (Some 100) (in_competitor_ids data) ;;
  Ok {| a_weight := weight; a_height_big := height_big;
        a_height_small := height_small; a_date := date;
        a_video_filename := video_filename;
        a_competitor_ids := competitor_ids |}.

Definition is_valid (st : Store) (context_user : User) (data : Data)
  : result Validated :=
  attrs <- to_internal_value data ;;
  validate st context_user attrs.
End Methods.

End ApiSignS3PutRequestViewSerializer.

Module UnverifiedWeightSerializer.

Record Data : Type := {
  in_date_of_measurement : option Z;
  in_weight : option Q;
  in_weight_image : option UploadedFile
}.

Record Validated : Type := {
  vd_date_of_measurement : Z;
  vd_weight : Q;
  vd_weight_unit : pystr
}.

(** The dict of [to_representation]; [lost_weight] is ['lost'],
    ['gained'] or the integer [0]. *)
Record Delta : Type := {
  first_entry : bool;
  weight_difference : Q;
  lost_weight : pystr + Z;
  delta_weight_unit : pystr
}.

(** What [get_weight_image] answers: a thumbnail request (with its
    format option) or nothing. *)
Inductive Thumbnail : Type :=
| ThumbnailPNG (file : option pystr)
| ThumbnailDefault (file : option pystr).

Section Methods.
Context {U : Utils} {M : Managers} {L : PyLib}.

Definition to_representation (st : Store) (context_user : User)
    (instance_date_of_measurement : Z) : result Delta :=
  let queryset :=
    before_date (weights st) context_user instance_date_of_measurement in
  let weigh_ins := order_by by_date_asc queryset in
  if 1 <? Z.of_nat (List.length weigh_ins) then
    (* a second order_by on a queryset replaces the ordering of the first:
       the rows found are ordered by '-created' alone *)
    let weigh_ins := order_by by_created_desc queryset in
    let first_entry := false in
    match weigh_ins with
    | new_weigh_in :: old_weigh_in :: _ =>
        let weight_difference :=
          if str_eqb (weight_unit context_user) (py "kg")
          then (weight_kilograms old_weigh_in
                - weight_kilograms new_weigh_in)%Q
          else (weight_in_pounds old_weigh_in
                - weight_in_pounds new_weigh_in)%Q in
        let lost_weight :=
          if Qle_bool 0 weight_difference
          then inl (py "lost") else inl (py "gained") in
        Ok {| first_entry := first_entry;
              weight_difference := Qabs weight_difference;
              lost_weight := lost_weight;
              delta_weight_unit := weight_unit context_user |}
    | _ => Raise (Uncaught "IndexError")
    end
  else
    Ok {| first_entry := true;
          weight_difference := Qabs 0;
          lost_weight := inr 0;
          delta_weight_unit := weight_unit context_user |}.

Definition save (st : Store) (context_user : User) (initial_data : Data)
    (validated_data : Validated) : Weight * Store :=
  let '(weight_kilograms, weight_in_pounds) :=
    convert_weight_to_kgs_and_lbs
      (vd_weight_unit validated_data) (vd_weight validated_data) in
  let w :=
    objects_create st (user_id context_user) false (py "mobile")
      (vd_date_of_measurement validated_data)
      weight_kilograms weight_in_pounds
      (option_map file_name (in_weight_image initial_data)) in
  (w, insert_row st w).

Definition _validate_weigh_in_type (weigh_in_type : option pystr)
  : result unit :=
  if negb (opt_truthy weigh_in_type)
  then Raise (ValidationError (py "Weigh-in type is required"))
  else if negb (match weigh_in_type with
                | Some t => str_in t [py "self-reported"; py "verified"]
                | None => false
                end)
  then Raise (ValidationError (py "Invalid weigh-in type"))
  else Ok tt.

Definition validate (st : Store) (context_user : User)
    (context_weighin_type : option pystr) (initial_data : Data)
    (data_date_of_measurement : Z) : result Validated :=
  let user := context_user in
  weight <- py_float (in_weight initial_data) ;;
  let date_of_measurement := data_date_of_measurement in
  _validate_weigh_in_type context_weighin_type ;;;
  validate_weight st user weight (Some date_of_measurement) false ;;;
  Ok {| vd_date_of_measurement := date_of_measurement;
        vd_weight := weight;
        vd_weight_unit := weight_unit user |}.

(** [get_weight_image(weight)], the method behind the read-only field
    [weight_image]. Only the framework's own [to_representation] calls
    such a method, and the serializer replaces that one. *)
Definition get_weight_image (weight_image : option pystr)
    (weight_verifier_file : option pystr) : result (option Thumbnail) :=
  let image_name := weight_image in
  match image_name with
  | Some image_name =>
      if truthy image_name then
        let extension :=
          lower (strip (skipn 1 (snd (splitext image_name)))) in
        if str_in extension [py "jpg"; py "jpeg"; py "png"] then
          if existsb (fun i => str_eqb (slice image_name i (i + 4)) (py ".png"))
               (map Z.of_nat (seq 0 (List.length image_name)))
          then Ok (Some (ThumbnailPNG weight_verifier_file))
          else Ok (Some (ThumbnailDefault weight_verifier_file))
        else Raise (ValidationError
               (py "Images must be in PNG or JPG or JPEG format, and no larger than 10MB in size"))
      else Ok None
  | None => Ok None
  end.

(** The declared fields: both required, the date with its validator. *)
Definition to_internal_value (st : Store) (data : Data) : result (Z * Q) :=
  date <- present (in_date_of_measurement data) ;;
  validate_date st date ;;;
  weight <- present (in_weight data) ;;
  Ok (date, weight).

Definition is_valid (st : Store) (context_user : User)
    (context_weighin_type : option pystr) (initial_data : Data)
  : result Validated :=
  dw <- to_internal_value st initial_data ;;
  validate st context_user context_weighin_type initial_data (fst dw).
End Methods.

End UnverifiedWeightSerializer.


Module UpdateWeightSerializer.

(** The request body; [request.data.get('weight_image')] reads the same
    [in_weight_image]. *)
Record Data : Type := {
  in_date_of_measurement : option Z;
  in_weight : option Q;
  in_weight_image : option UploadedFile;
  in_remove_image : option bool
}.

Record Validated : Type := {
  vd_date_of_measurement : option Z;
  vd_weight : option Q;
  vd_verifier_file : option UploadedFile;
  vd_remove_image : option bool;
  vd_weight_unit : pystr
}.

Definition set_measurement (m : Weight) (d : Z) (kg lb : Q)
    (file : option pystr) : Weight :=
  {| pk := pk m; participant := participant m; verified := verified m;
     method := method m; date_of_measurement := d;
     weight_kilograms := kg; weight_in_pounds := lb;
     verifier_file := file; video_link := video_link m;
     competitors := competitors m; created := created m;
     modified := modified m |}.

Section Methods.
Context {U : Utils} {L : PyLib}.

Definition update (st : Store) (instance : Weight) (request_data : Data)
    (validated_data : Validated) : result (Weight * Store) :=
  weight <- match vd_weight validated_data with
            | Some w => Ok w
            | None => Raise (Uncaught "KeyError")
            end ;;
  let '(weight_kilograms, weight_in_pounds) :=
    convert_weight_to_kgs_and_lbs (vd_weight_unit validated_data) weight in
  date <- match vd_date_of_measurement validated_data with
          | Some d => Ok d
          | None => Raise (Uncaught "KeyError")
          end ;;
  let weight_image := in_weight_image request_data in
  let file :=
    if file_truthy weight_image
    then option_map file_name weight_image
    else match vd_remove_image validated_data with
         | Some true => None
         | _ => verifier_file instance
         end in
  let instance :=
    set_measurement instance date weight_kilograms weight_in_pounds file in
  Ok (instance, save_row st instance).

Definition _image_has_correct_format (image : option UploadedFile)
  : result unit :=
  match image with
  | Some f =>
      if truthy (file_name f) then
        let image_format :=
          lower (strip (skipn 1 (snd (splitext (file_name f))))) in
        if negb (str_in image_format [py "jpg"; py "jpeg"; py "png"])
        then Raise (ValidationError
                      (py "Images must be in PNG or JPG or JPEG format"))
        else Ok tt
      else Ok tt
  | None => Ok tt
  end.

Definition validate (st : Store) (request_user : User) (request_data : Data)
    (data : Validated) : result Validated :=
  let user := request_user in
  let date_of_measurement := vd_date_of_measurement data in
  weight <- py_float (vd_weight data) ;;
  _image_has_correct_format (in_weight_image request_data) ;;;
  validate_weight st user weight date_of_measurement true ;;;
  Ok {| vd_date_of_measurement := vd_date_of_measurement data;
        vd_weight := vd_weight data;
        vd_verifier_file := vd_verifier_file data;
        vd_remove_image := vd_remove_image data;
        vd_weight_unit := weight_unit user |}.

(** The declared fields; [partial] is the flag a PATCH sets. *)
Definition to_internal_value (st : Store) (partial : bool) (data : Data)
  : result Validated :=
  date <- required partial (in_date_of_measurement data) ;;
  match date with Some d => validate_date st d ;;; Ok tt | None => Ok tt end ;;;
  weight <- required partial (in_weight data) ;;
  image <- FileField (in_weight_image data) ;;
  Ok {| vd_date_of_measurement := date;
        vd_weight := weight;
        vd_verifier_file := image;
        vd_remove_image := in_remove_image data;
        vd_weight_unit := [] |}.

Definition is_valid (st : Store) (request_user : User) (partial : bool)
    (request_data : Data) : result Validated :=
  attrs <- to_internal_value st partial request_data ;;
  validate st request_user request_data attrs.
End Methods.

End UpdateWeightSerializer.

(** ** api_views.py *)

Module Views.

(** [get_object] of the generic views: look the row up, then run the
    object permission; only then does the caller go on. *)
Definition check_object_permissions (request_user : User) (obj : Weight)
  : result unit :=
  if BelongsToUser request_user obj then Ok tt else Raise PermissionDenied.

Definition get_object (queryset : list Weight) (request_user : User) (key : Z)
  : result Weight :=
  obj <- get_object_or_404 queryset key ;;
  check_object_permissions request_user obj ;;;
  Ok obj.

(** Whether the framework can render [serializer.data] from validated
    data that was never saved (it reads model attributes off a dict). *)
Class Rendering : Type := {
  renders_unsaved : WeightSerializer.Validated -> bool
}.

(** Payload of the weigh-in create view: the saved row, or the validated
    data when nothing was saved. *)
Inductive WeighinPayload : Type :=
| Saved (w : Weight)
| Unsaved (vd : WeightSerializer.Validated).

(** [request.GET.get('weighin_type', False) == literal]. *)
Definition type_is (weighin_type : option pystr) (literal : pystr) : bool :=
  match weighin_type with
  | Some t => str_eqb t literal
  | None => false
  end.

End Views.
Import Views.

Module CreateWeighinAPIView.
Section Handlers.
Context {U : Utils} {R : Rendering}.

(** [post]; [today] is [date.today()]. *)
Definition post (today : Z) (st : Store) (request_user : User)
    (GET_weighin_type : option pystr) (request_data : WeightSerializer.Data)
  : Reply WeighinPayload * Store :=
  dispatch st (
    let participant := request_user in
    let weighin_type := GET_weighin_type in
    vd <- WeightSerializer.is_valid st participant request_data ;;
    if type_is weighin_type (py "self-reported") then
      ws <- WeightSerializer.save st participant vd
              {| WeightSerializer.kw_verified := Some false;
                 WeightSerializer.kw_method := Some (py "web");
                 WeightSerializer.kw_participant_id := Some (user_id participant);
                 WeightSerializer.kw_date_of_measurement := Some today |} ;;
      Ok (Response 200 (Saved (fst ws)), snd ws)
    else if type_is weighin_type (py "verified") then
      ws <- WeightSerializer.save st participant vd
              {| WeightSerializer.kw_verified := Some true;
                 WeightSerializer.kw_method := Some (py "web");
                 WeightSerializer.kw_participant_id := Some (user_id participant);
                 WeightSerializer.kw_date_of_measurement := None |} ;;
      Ok (Response 200 (Saved (fst ws)), snd ws)
    else if renders_unsaved vd then Ok (Response 200 (Unsaved vd), st)
    else Raise (Uncaught "AttributeError")).
End Handlers.
End CreateWeighinAPIView.

Module DeleteWeightAPIView.

(** [delete]: [destroy] of the generic view. *)
Definition delete (st : Store) (request_user : User) (key : Z)
  : Reply unit * Store :=
  dispatch st (
    instance <- get_object (weights st) request_user key ;;
    Ok (Response 204 tt, delete_row st instance)).

End DeleteWeightAPIView.

Module RetrieveWeighinAPIView.
Section Handlers.
Context {M : Managers}.

Definition get_queryset (st : Store) (request_user : User) : list Weight :=
  let participant := request_user in
  order_by by_date_modified_desc
    (filter (fun w => Models.participant w =? user_id participant)
       (existing (weights st))).

(** [get]: [list] of the generic view. *)
Definition get (st : Store) (request_user : User)
  : Reply (list Weight) * Store :=
  (Response 200 (get_queryset st request_user), st).
End Handlers.
End RetrieveWeighinAPIView.

Module ApiVideoVerificationView.
Section Handlers.
Context {C : Settings} {U : Utils}.

(** [post]: [create] of the generic view. *)
Definition post (st : Store) (request_user : User)
    (request_data : VideoVerificationSerializer.Data)
  : Reply Weight * Store :=
  dispatch st (
    vd <- VideoVerificationSerializer.is_valid st request_user request_data ;;
    let ms := VideoVerificationSerializer.create st vd in
    Ok (Response 201 (fst ms), snd ms)).
End Handlers.
End ApiVideoVerificationView.

Module ApiSignS3PutRequestView.
Section Handlers.
Context {C : Settings} {U : Utils} {L : PyLib}.

Definition get (time_time : Q) (timezone_now : Z) (st : Store)
    (request_user : User) (request_GET : ApiSignS3PutRequestViewSerializer.Data)
  : Reply SignContext * Store :=
  dispatch st (
    vd <- ApiSignS3PutRequestViewSerializer.is_valid st request_user request_GET ;;
    context <- ApiSignS3PutRequestViewSerializer.create time_time timezone_now vd ;;
    Ok (Response 200 context, st)).
End Handlers.
End ApiSignS3PutRequestView.

Module CreateUnverifiedWeighinAPIView.
Section Handlers.
Context {U : Utils} {M : Managers} {L : PyLib}.

Definition post (st : Store) (request_user : User)
    (GET_weighin_type : option pystr)
    (request_data : UnverifiedWeightSerializer.Data)
  : Reply UnverifiedWeightSerializer.Delta * Store :=
  dispatch st (
    let weighin_type := GET_weighin_type in
    vd <- UnverifiedWeightSerializer.is_valid st request_user weighin_type
            request_data ;;
    let ws := UnverifiedWeightSerializer.save st request_user request_data vd in
    Ok (dispatch (snd ws) (
          data <- UnverifiedWeightSerializer.to_representation (snd ws)
                    request_user
                    (UnverifiedWeightSerializer.vd_date_of_measurement vd) ;;
          Ok (Response 200 data, snd ws)))).
End Handlers.
End CreateUnverifiedWeighinAPIView.

Module UpdateWeight.
Section Handlers.
Context {U : Utils} {L : PyLib}.

(** [put] ([partial = false]) and [patch] ([partial = true]): [update] of
    the generic view. *)
Definition update (partial : bool) (st : Store) (request_user : User)
    (key : Z) (request_data : UpdateWeightSerializer.Data)
  : Reply Weight * Store :=
  dispatch st (
    instance <- get_object (weights st) request_user key ;;
    vd <- UpdateWeightSerializer.is_valid st request_user partial request_data ;;
    ws <- UpdateWeightSerializer.update st instance request_data vd ;;
    Ok (Response 200 (fst ws), snd ws)).
End Handlers.
End UpdateWeight.

(** ** serializers.py: the device-data serializer *)

Module WeightDeviceDataSerializer.

Definition comma : Z := 44.
Definition minus : Z := 45.

(** The digits of a number, least significant first, with a separator
    after every third one that has a digit beyond it. *)
Fixpoint group_thousands (rev_digits : list Z) : list Z :=
  match rev_digits with
  | a :: b :: c :: ((_ :: _) as rest) =>
      a :: b :: c :: comma :: group_thousands rest
  | _ => rev_digits
  end.

(** [format(n, ',')] for an integer: the sign, then the digits in groups
    of three from the right. *)
Definition format_thousands (n : Z) : pystr :=
  match str_of_int n with
  | c :: digits =>
      if c =? minus
      then minus :: rev (group_thousands (rev digits))
      else rev (group_thousands (rev (c :: digits)))
  | [] => []
  end.

(** [get_value_format]: [format(int(instance.value), ',')]. *)
Definition get_value_format (instance_value : Q) : pystr :=
  format_thousands (py_int instance_value).

Definition is_digit (c : Z) : Prop := 48 <= c <= 57.

End WeightDeviceDataSerializer.

(** ** Primary keys *)

Module StoreInvariant.

(** What the store guarantees of an auto-incremented key: no two rows
    share one, and the next key is beyond them all. *)
Definition keys_fresh (st : Store) : Prop :=
  NoDup (map pk (weights st))
  /\ Forall (fun r => pk r < next_pk st) (weights st).

End StoreInvariant.
Import StoreInvariant.

(** ** A reference environment

    Concrete stand-ins for the imports, used to run the handlers on
    examples. The digests are placeholders of the right shape, not SHA-1. *)

Module Sample.

Definition settings : Settings :=
  {| S3_BUCKET_NAME := py "weighins";
     S3_SECRET_KEY := py "secret";
     S3_ACCESS_KEY := py "AKIAEXAMPLE";
     MAIN_COMPETITION := 7 |}.

Definition team : list Competitor :=
  [ {| competitor_id := 1; team_challenge_id := 7 |};
    {| competitor_id := 2; team_challenge_id := 3 |} ].

Definition utils : Utils :=
  {| convert_weight_to_kgs_and_lbs := fun unit w =>
       if str_eqb unit (py "kg")
       then (w, w * (220462 # 100000))%Q
       else (w * (100000 # 220462), w)%Q;
     validate_competitor := fun _ ids =>
       match ids with
       | None => Ok None
       | Some _ => Ok (Some team)
       end;
     validate_weight := fun _ _ w _ _ =>
       if Qle_bool w 0
       then Raise (ValidationError (py "Invalid weight"))
       else Ok w;
     validate_date := fun st d =>
       if clock st <? d
       then Raise (ValidationError (py "Invalid date"))
       else Ok d;
     validate_height := fun _ _ _ _ => Ok tt |}.

(** Modelled from the spec: the [existing] manager of [.models] is not
    among the sources. The spec says the delta report fetches all prior
    measurements for the participant up to a given date, and that the
    listing is filtered per user. *)
Definition managers : Managers :=
  {| existing := fun rows => rows;
     before_date := fun rows user d =>
       filter (fun w => (participant w =? user_id user)
                        && (date_of_measurement w <=? d)) rows |}.

Definition ascii_lower (c : Z) : Z :=
  if (65 <=? c) && (c <=? 90) then c + 32 else c.

Definition pylib : PyLib :=
  {| sha1_hexdigest := fun _ => repeat 48 40;
     hmac_sha1_digest := fun _ _ => repeat 0 20;
     json_dumps := fun d =>
       filter (fun c => (0 <=? c) && (c <? 128)) (expiration d);
     strftime := str_of_int;
     lower := map ascii_lower |}.

Definition rendering : Rendering :=
  {| renders_unsaved := fun _ => false |}.

Definition store0 : Store :=
  {| weights := []; next_pk := 1; celery_queue := []; clock := 19000 |}.

Definition alice : User :=
  {| user_id := 1; weight_unit := py "kg"; special_code := py "A1" |}.

Definition bob : User :=
  {| user_id := 2; weight_unit := py "lb"; special_code := py "B2" |}.

(** A row of [owner] weighing [kg] kilograms, created at [t]. *)
Definition row (key owner : Z) (kg : Q) (day t : Z) : Weight :=
  {| pk := key; participant := owner; verified := false;
     method := py "mobile"; date_of_measurement := day;
     weight_kilograms := kg; weight_in_pounds := (kg * (220462 # 100000))%Q;
     verifier_file := None; video_link := None; competitors := [];
     created := t; modified := t |}.

(** A store with one row of [alice] and one of [bob]. *)
Definition store2 : Store :=
  {| weights := [row 1 1 (80 # 1) 18990 100; row 2 2 (90 # 1) 18991 200];
     next_pk := 3; celery_queue := []; clock := 19000 |}.

(** [alice] at 100 kg, then at 95 kg; [bob] in between. *)
Definition store_delta : Store :=
  {| weights := [row 1 1 (100 # 1) 18990 100; row 2 2 (70 # 1) 18991 150;
                 row 3 1 (95 # 1) 18995 200];
     next_pk := 4; celery_queue := []; clock := 19000 |}.

Definition update_request : UpdateWeightSerializer.Data :=
  {| UpdateWeightSerializer.in_date_of_measurement := Some 18995;
     UpdateWeightSerializer.in_weight := Some (85 # 1);
     UpdateWeightSerializer.in_weight_image := None;
     UpdateWeightSerializer.in_remove_image := None |}.

(** A weigh-in of 80 dated the day before the clock's. *)
Definition weighin_request : WeightSerializer.Data :=
  {| WeightSerializer.in_date_of_measurement := Some 18999;
     WeightSerializer.in_weight := Some (80 # 1) |}.

(** An unverified weigh-in with a GIF as proof image. *)
Definition unverified_request_gif : UnverifiedWeightSerializer.Data :=
  {| UnverifiedWeightSerializer.in_date_of_measurement := Some 18999;
     UnverifiedWeightSerializer.in_weight := Some (80 # 1);
     UnverifiedWeightSerializer.in_weight_image :=
       Some {| file_name := py "proof.gif"; file_size := 2048 |} |}.

(** A video-verification submission with neither file nor link. *)
Definition video_request_no_proof : VideoVerificationSerializer.Data :=
  {| VideoVerificationSerializer.in_weight := Some (80 # 1);
     VideoVerificationSerializer.in_date := Some 18999;
     VideoVerificationSerializer.in_s3_file_url := None;
     VideoVerificationSerializer.in_video_url := Some [];
     VideoVerificationSerializer.in_competitor_ids := None;
     VideoVerificationSerializer.in_platform := None |}.

(** A submission with a file and competitors. *)
Definition video_request : VideoVerificationSerializer.Data :=
  {| VideoVerificationSerializer.in_weight := Some (80 # 1);
     VideoVerificationSerializer.in_date := Some 18999;
     VideoVerificationSerializer.in_s3_file_url := Some (py "https://weighins.s3.amazonaws.com/k");
     VideoVerificationSerializer.in_video_url := None;
     VideoVerificationSerializer.in_competitor_ids := Some (py "1,2");
     VideoVerificationSerializer.in_platform := None |}.

(** An upload-signing request of [alice] and what validation makes of it. *)
Definition sign_request : ApiSignS3PutRequestViewSerializer.Data :=
  {| ApiSignS3PutRequestViewSerializer.in_weight := Some 80%Q;
     ApiSignS3PutRequestViewSerializer.in_height_big := Some 5;
     ApiSignS3PutRequestViewSerializer.in_height_small := Some 9;
     ApiSignS3PutRequestViewSerializer.in_date := Some 19000;
     ApiSignS3PutRequestViewSerializer.in_video_filename := Some (py " run 1.mp4 ");
     ApiSignS3PutRequestViewSerializer.in_competitor_ids := None |}.

Definition sign_validated : ApiSignS3PutRequestViewSerializer.Validated :=
  {| ApiSignS3PutRequestViewSerializer.vd_weight := 80%Q;
     ApiSignS3PutRequestViewSerializer.vd_height_big := 5;
     ApiSignS3PutRequestViewSerializer.vd_height_small := 9;
     ApiSignS3PutRequestViewSerializer.vd_date := 19000;
     ApiSignS3PutRequestViewSerializer.vd_video_filename := py "run 1.mp4";
     ApiSignS3PutRequestViewSerializer.vd_competitor_ids := None;
     ApiSignS3PutRequestViewSerializer.vd_user := alice |}.

End Sample.

(** ** More requests for the reference environment *)

Module Examples.

(** A weigh-in body without a weight. *)
Definition weighin_no_weight : WeightSerializer.Data :=
  {| WeightSerializer.in_date_of_measurement := Some 18999;
     WeightSerializer.in_weight := None |}.

(** An update of the weight with a GIF as the new proof image. *)
Definition update_request_gif : UpdateWeightSerializer.Data :=
  {| UpdateWeightSerializer.in_date_of_measurement := Some 18995;
     UpdateWeightSerializer.in_weight := Some (85 # 1);
     UpdateWeightSerializer.in_weight_image :=
       Some {| file_name := py "proof.gif"; file_size := 2048 |};
     UpdateWeightSerializer.in_remove_image := Some true |}.

(** An update that replaces the proof image and asks to remove it too. *)
Definition update_request_png : UpdateWeightSerializer.Data :=
  {| UpdateWeightSerializer.in_date_of_measurement := Some 18995;
     UpdateWeightSerializer.in_weight := Some (85 # 1);
     UpdateWeightSerializer.in_weight_image :=
       Some {| file_name := py "scale.PNG"; file_size := 2048 |};
     UpdateWeightSerializer.in_remove_image := Some true |}.

(** The upload-signing request of the reference environment with its
    file name already trimmed. *)
Definition sign_request_trimmed : ApiSignS3PutRequestViewSerializer.Data :=
  {| ApiSignS3PutRequestViewSerializer.in_weight := Some 80%Q;
     ApiSignS3PutRequestViewSerializer.in_height_big := Some 5;
     ApiSignS3PutRequestViewSerializer.in_height_small := Some 9;
     ApiSignS3PutRequestViewSerializer.in_date := Some 19000;
     ApiSignS3PutRequestViewSerializer.in_video_filename :=
       Some (py "run 1.mp4");
     ApiSignS3PutRequestViewSerializer.in_competitor_ids := None |}.

(** A PATCH that sends only a new proof image. *)
Definition update_request_image_only : UpdateWeightSerializer.Data :=
  {| UpdateWeightSerializer.in_date_of_measurement := None;
     UpdateWeightSerializer.in_weight := None;
     UpdateWeightSerializer.in_weight_image :=
       Some {| file_name := py "proof.gif"; file_size := 2048 |};
     UpdateWeightSerializer.in_remove_image := None |}.

End Examples.

(** * Facts about the string functions *)

Unset Implicit Arguments.

Section StripFacts.
Variable sp : Z -> bool.

Lemma lstrip_with_suffix (s : list Z) :
  exists p, s = p ++ lstrip_with sp s.
Proof.
  induction s as [|c r [p Hp]]; simpl.
  - exists []. reflexivity.
  - destruct (sp c).
    + exists (c :: p). simpl. now rewrite <- Hp.
    + exists []. reflexivity.
Qed.

Lemma lstrip_with_length (s : list Z) :
  (List.length (lstrip_with sp s) <= List.length s)%nat.
Proof.
  destruct (lstrip_with_suffix s) as [p Hp].
  rewrite Hp at 2. rewrite length_app. lia.
Qed.

Lemma lstrip_with_full (s : list Z) :
  List.length (lstrip_with sp s) = List.length s -> lstrip_with sp s = s.
Proof.
  intros Hlen. destruct (lstrip_with_suffix s) as [p Hp].
  assert (p = []) as ->.
  { apply length_zero_iff_nil. rewrite Hp in Hlen at 2.
    rewrite length_app in Hlen. lia. }
  now rewrite Hp at 2.
Qed.

Lemma lstrip_with_head (c : Z) (r : list Z) :
  sp c = false -> lstrip_with sp (c :: r) = c :: r.
Proof. intros H. simpl. now rewrite H. Qed.

Lemma lstrip_with_fixed (s : list Z) :
  lstrip_with sp s = s -> s = [] \/ exists c r, s = c :: r /\ sp c = false.
Proof.
  destruct s as [|c r]; [now left|]. intros H. right. exists c, r.
  split; [reflexivity|]. simpl in H. destruct (sp c) eqn:E; [|reflexivity].
  exfalso. pose proof (lstrip_with_length r) as Hl. rewrite H in Hl.
  simpl in Hl. lia.
Qed.

(** A string that neither starts nor ends with white space is left alone. *)
Lemma strip_with_fixed (s : list Z) :
  lstrip_with sp s = s -> lstrip_with sp (rev s) = rev s ->
  strip_with sp s = s.
Proof.
  intros H1 H2. unfold strip_with. rewrite H1, H2. apply rev_involutive.
Qed.

(** Conversely a string that [strip] leaves alone has clean ends. *)
Lemma strip_with_fixed_inv (s : list Z) :
  strip_with sp s = s ->
  lstrip_with sp s = s /\ lstrip_with sp (rev s) = rev s.
Proof.
  unfold strip_with. intros H.
  assert (Hlen : List.length (lstrip_with sp (rev (lstrip_with sp s)))
                 = List.length s).
  { rewrite <- H at 2. now rewrite length_rev. }
  pose proof (lstrip_with_length (rev (lstrip_with sp s))) as H1.
  pose proof (lstrip_with_length s) as H2.
  rewrite length_rev in H1.
  assert (E : lstrip_with sp s = s) by (apply lstrip_with_full; lia).
  split; [exact E|]. rewrite E in Hlen. apply lstrip_with_full.
  now rewrite length_rev.
Qed.

Lemma lstrip_with_idem (s : list Z) :
  lstrip_with sp (lstrip_with sp s) = lstrip_with sp s.
Proof.
  induction s as [|c r IH]; simpl; [reflexivity|].
  destruct (sp c) eqn:E; [exact IH|]. simpl. now rewrite E.
Qed.

(** What [strip] returns is itself stripped. *)
Lemma strip_with_idem (s : list Z) :
  strip_with sp (strip_with sp s) = strip_with sp s.
Proof.
  apply strip_with_fixed.
  - unfold strip_with.
    set (u := lstrip_with sp s).
    assert (Hu : lstrip_with sp u = u) by apply lstrip_with_idem.
    destruct (lstrip_with_suffix (rev u)) as [p Hp].
    set (t := lstrip_with sp (rev u)) in *.
    assert (Eu : u = rev t ++ rev p).
    { rewrite <- rev_app_distr, <- Hp. symmetry. apply rev_involutive. }
    destruct (rev t) as [|c r] eqn:Et; [reflexivity|].
    destruct (lstrip_with_fixed _ Hu) as [Hn | (c' & r' & Hc & Hs)].
    + rewrite Hn in Eu. discriminate.
    + rewrite Hc in Eu. simpl in Eu. injection Eu as -> _.
      now apply lstrip_with_head.
  - unfold strip_with. rewrite rev_involutive. apply lstrip_with_idem.
Qed.
End StripFacts.

(** The last occurrence of a character splits a string around it. *)
Lemma last_occurrence (c : Z) (p : pystr) :
  In c p -> exists l e, p = l ++ c :: e /\ ~ In c e.
Proof.
  induction p as [|x r IH]; [intros []|].
  intros Hin. destruct (in_dec Z.eq_dec c r) as [Hr | Hr].
  - destruct (IH Hr) as (l & e & -> & He). exists (x :: l), e. now split.
  - destruct Hin as [-> | Hin]; [|contradiction].
    exists [], r. now split.
Qed.

Lemma rfind_from_absent (c : Z) (p : pystr) (i acc : Z) :
  ~ In c p -> rfind_from i c p acc = acc.
Proof.
  revert i acc. induction p as [|x r IH]; intros i acc Hn; simpl; [reflexivity|].
  destruct (Z.eqb_spec x c) as [-> | Hne].
  - exfalso. apply Hn. now left.
  - apply IH. intros H. apply Hn. now right.
Qed.

Lemma rfind_from_last (c : Z) (l e : pystr) (i acc : Z) :
  ~ In c e ->
  rfind_from i c (l ++ c :: e) acc = i + Z.of_nat (List.length l).
Proof.
  intros He. revert i acc. induction l as [|x l IH]; intros i acc; simpl.
  - rewrite Z.eqb_refl. rewrite rfind_from_absent by exact He. lia.
  - rewrite IH. lia.
Qed.

Lemma rfind_spec (c : Z) (p : pystr) :
  (rfind c p = -1 /\ ~ In c p)
  \/ exists l e, p = l ++ c :: e /\ ~ In c e
                 /\ rfind c p = Z.of_nat (List.length l).
Proof.
  destruct (in_dec Z.eq_dec c p) as [Hin | Hn].
  - right. destruct (last_occurrence _ _ Hin) as (l & e & -> & He).
    exists l, e. repeat split; [exact He|].
    unfold rfind. now rewrite rfind_from_last.
  - left. split; [|exact Hn]. unfold rfind. now apply rfind_from_absent.
Qed.

(** [splitext] cuts the name in two. *)
Lemma splitext_app (p : pystr) :
  fst (splitext p) ++ snd (splitext p) = p.
Proof.
  unfold splitext.
  destruct (_ && _); simpl; [apply firstn_skipn | apply app_nil_r].
Qed.

(** The extension is empty, or a dot followed by characters other than a
    dot. *)
Lemma splitext_ext (p : pystr) :
  snd (splitext p) = []
  \/ exists e, snd (splitext p) = dot :: e /\ ~ In dot e.
Proof.
  unfold splitext.
  destruct (_ && _) eqn:E; simpl; [|now left].
  right. apply andb_prop in E as [E _]. apply Z.ltb_lt in E.
  destruct (rfind_spec dot p) as [[Hm _] | (l & e & Hp & He & Hr)].
  - exfalso. rewrite Hm in E.
    destruct (rfind_spec slash p) as [[Hs _] | (l & e & _ & _ & Hs)]; lia.
  - exists e. split; [|exact He].
    rewrite Hr, Nat2Z.id. rewrite Hp at 1.
    rewrite skipn_app, skipn_all, Nat.sub_diag. reflexivity.
Qed.

(** ** UTF-8 *)

Ltac split_ltb :=
  repeat match goal with
  | H : context [?a <? ?b] |- _ => destruct (Z.ltb_spec a b)
  | |- context [?a <? ?b] => destruct (Z.ltb_spec a b)
  end.

Lemma cons_eq_inv (a b : Z) (l m : list Z) :
  a :: l = b :: m -> a = b /\ l = m.
Proof. intros H. now injection H. Qed.

(** Take an equation between two lists with known heads apart, without
    unfolding the arithmetic in the heads. *)
Ltac uncons E :=
  repeat match type of E with
  | _ :: _ = _ :: _ =>
      let Hh := fresh "Hhead" in
      apply cons_eq_inv in E as [Hh E]
  end.

Lemma some_eq_inv (A : Type) (x y : A) : Some x = Some y -> x = y.
Proof. intros H. now injection H. Qed.

Ltac some_inv H := apply some_eq_inv in H.

(** The encoding is a prefix code: the first octet tells how many follow,
    and the octets give the code point back. *)
Lemma utf8_char_prefix (c1 c2 : Z) (a1 a2 r1 r2 : pybytes) :
  utf8_char c1 = Some a1 -> utf8_char c2 = Some a2 ->
  a1 ++ r1 = a2 ++ r2 -> c1 = c2 /\ r1 = r2.
Proof.
  unfold utf8_char. intros H1 H2 E.
  split_ltb; try discriminate;
    some_inv H1; some_inv H2; subst a1 a2; cbn [app] in E; uncons E;
    solve [ split; [Z.div_mod_to_equations; lia | exact E]
          | exfalso; Z.div_mod_to_equations; lia ].
Qed.

Lemma utf8_encode_inj (s1 s2 : pystr) (b : pybytes) :
  utf8_encode s1 = Some b -> utf8_encode s2 = Some b -> s1 = s2.
Proof.
  revert s2 b. induction s1 as [|c1 r1 IH]; intros s2 b H1 H2.
  - simpl in H1. injection H1 as <-. destruct s2 as [|c2 r2]; [reflexivity|].
    simpl in H2. destruct (utf8_char c2) as [a|] eqn:Ec; [|discriminate].
    destruct (utf8_encode r2); [|discriminate]. injection H2 as H2.
    exfalso. unfold utf8_char in Ec.
    split_ltb; try discriminate; injection Ec as <-; discriminate.
  - simpl in H1. destruct (utf8_char c1) as [a1|] eqn:Ec1; [|discriminate].
    destruct (utf8_encode r1) as [b1|] eqn:Er1; [|discriminate].
    injection H1 as <-. destruct s2 as [|c2 r2].
    + simpl in H2. injection H2 as H2. exfalso. unfold utf8_char in Ec1.
      split_ltb; try discriminate; injection Ec1 as <-; discriminate.
    + simpl in H2. destruct (utf8_char c2) as [a2|] eqn:Ec2; [|discriminate].
      destruct (utf8_encode r2) as [b2|] eqn:Er2; [|discriminate].
      injection H2 as H2.
      destruct (utf8_char_prefix _ _ _ _ _ _ Ec2 Ec1 H2) as [-> ->].
      f_equal. eapply IH; eauto.
Qed.

Lemma utf8_char_encodable (c : Z) :
  encodable_char c -> exists a, utf8_char c = Some a.
Proof.
  unfold encodable_char, utf8_char. intros H.
  split_ltb; try lia; eexists; reflexivity.
Qed.

Lemma utf8_encode_encodable (s : pystr) :
  encodable s -> exists b, utf8_encode s = Some b.
Proof.
  induction 1 as [|c r Hc _ [b Hb]]; simpl.
  - now exists [].
  - destruct (utf8_char_encodable c Hc) as [a ->]. rewrite Hb.
    now exists (a ++ b).
Qed.

Lemma utf8_char_bytes (c : Z) (a : pybytes) :
  utf8_char c = Some a -> Forall is_byte a.
Proof.
  unfold utf8_char, is_byte. intros H.
  split_ltb; try discriminate; some_inv H; subst a;
    repeat (apply Forall_cons; [Z.div_mod_to_equations; lia|]);
    apply Forall_nil.
Qed.

Lemma utf8_encode_bytes (s : pystr) (b : pybytes) :
  utf8_encode s = Some b -> Forall is_byte b.
Proof.
  revert b. induction s as [|c r IH]; simpl; intros b H.
  - injection H as <-. constructor.
  - destruct (utf8_char c) as [a|] eqn:Ec; [|discriminate].
    destruct (utf8_encode r) as [b'|]; [|discriminate].
    injection H as <-. apply Forall_app. split.
    + eapply utf8_char_bytes; eauto.
    + now apply IH.
Qed.

(** A literal of the source has only code points below 256. *)
Lemma py_encodable (s : string) : encodable (py s).
Proof.
  unfold encodable, py. apply Forall_forall. intros c Hc.
  apply in_map_iff in Hc as (a & <- & _).
  pose proof (N_ascii_bounded a). unfold encodable_char. lia.
Qed.

Lemma ascii_encodable (s : pystr) :
  Forall (fun c => 0 <= c < 128) s -> encodable s.
Proof.
  apply Forall_impl. unfold encodable_char. intros. lia.
Qed.

(** ** Base64 *)

Lemma b64_char_alphabet (n : Z) : 0 <= n < 64 -> b64_alphabet (b64_char n).
Proof.
  unfold b64_char, b64_alphabet. intros H.
  split_ltb; try lia. destruct (Z.eqb_spec n 62); lia.
Qed.

Lemma b64_char_inj (n m : Z) :
  0 <= n < 64 -> 0 <= m < 64 -> b64_char n = b64_char m -> n = m.
Proof.
  unfold b64_char. intros Hn Hm.
  split_ltb; destruct (Z.eqb_spec n 62); destruct (Z.eqb_spec m 62); lia.
Qed.

Lemma b64_char_not_pad (n : Z) : 0 <= n < 64 -> b64_char n <> pad.
Proof.
  intros H E. pose proof (b64_char_alphabet n H) as A.
  rewrite E in A. unfold b64_alphabet, pad in A. lia.
Qed.

(** Induction over a byte string three octets at a time. *)
Lemma list_ind3 (P : list Z -> Prop) :
  P [] -> (forall a, P [a]) -> (forall a b, P [a; b]) ->
  (forall a b c r, P r -> P (a :: b :: c :: r)) ->
  forall l, P l.
Proof.
  intros H0 H1 H2 H3 l.
  enough (P l /\ (forall a, P (a :: l)) /\ (forall a b, P (a :: b :: l)))
    by tauto.
  induction l as [|x l (IH0 & IH1 & IH2)]; auto.
Qed.

Ltac sextets := unfold is_byte in *; Z.div_mod_to_equations; lia.

Ltac b64_same H :=
  apply b64_char_inj in H; [|sextets|sextets].

Ltac b64_clash :=
  match goal with
  | H : b64_char ?n = pad |- _ =>
      exfalso; apply (b64_char_not_pad n); [sextets | exact H]
  | H : pad = b64_char ?n |- _ =>
      exfalso; apply (b64_char_not_pad n); [sextets | symmetry; exact H]
  end.

Ltac bytes_of H :=
  repeat match type of H with
  | Forall is_byte (_ :: _) =>
      let Hb := fresh "Hbyte" in
      apply Forall_cons_iff in H as [Hb H]
  end.

(** Different byte strings have different encodings. *)
Lemma b64encode_inj (l1 : pybytes) :
  forall l2, Forall is_byte l1 -> Forall is_byte l2 ->
  b64encode l1 = b64encode l2 -> l1 = l2.
Proof.
  induction l1 as [|a|a b|a b c r IH] using list_ind3;
    intros [|a' [|b' [|c' r']]] F1 F2 E;
    try reflexivity; try discriminate;
    bytes_of F1; bytes_of F2; cbn [b64encode app] in E; uncons E;
    try b64_clash.
  - b64_same Hhead. b64_same Hhead0. f_equal. sextets.
  - b64_same Hhead. b64_same Hhead0. b64_same Hhead1.
    f_equal; [sextets|]. f_equal. sextets.
  - b64_same Hhead. b64_same Hhead0. b64_same Hhead1. b64_same Hhead2.
    f_equal; [sextets|]. f_equal; [sextets|]. f_equal; [sextets|].
    now apply IH.
Qed.

(** The encoding uses the alphabet and the padding character only. *)
Lemma b64encode_chars (l : pybytes) :
  Forall is_byte l ->
  Forall (fun c => b64_alphabet c \/ c = pad) (b64encode l).
Proof.
  induction l as [|a|a b|a b c r IH] using list_ind3; intros F;
    bytes_of F; cbn [b64encode app];
    repeat (apply Forall_cons;
            [first [ now right | left; apply b64_char_alphabet; sextets ]|]);
    auto.
Qed.

(** Printable ASCII other than the blank is not white space. *)
Lemma is_space_printable (c : Z) :
  33 <= c <= 126 -> is_space c = false /\ is_space_byte c = false.
Proof.
  intros H. unfold is_space, is_space_byte.
  repeat match goal with
  | |- context [?a <=? ?b] => destruct (Z.leb_spec a b); try lia
  | |- context [?a =? ?b] => destruct (Z.eqb_spec a b); try lia
  end; now split.
Qed.

Lemma b64_alphabet_or_pad_plain (c : Z) :
  b64_alphabet c \/ c = pad ->
  c <> dot /\ is_space c = false /\ is_space_byte c = false.
Proof.
  unfold b64_alphabet, pad, dot. intros H.
  split; [lia | apply is_space_printable; lia].
Qed.

(** ** The result monad *)

Lemma bind_Ok {A B : Type} (e : result A) (k : A -> result B) (b : B) :
  bind e k = Ok b -> exists a, e = Ok a /\ k a = Ok b.
Proof. destruct e as [a|x]; simpl; [eauto | discriminate]. Qed.

Ltac bind_inv H :=
  let a := fresh "a" in
  let Ha := fresh "Ha" in
  apply bind_Ok in H as (a & Ha & H).

Ltac bind_inv_as H x Hx := apply bind_Ok in H as (x & Hx & H).

Lemma Ok_eq_inv {A : Type} (a b : A) : Ok a = Ok b -> a = b.
Proof. intros H. now injection H. Qed.

(** Read the equations [Ok a = Ok b] off the context. *)
Ltac ok_inv :=
  repeat match goal with
  | H : Ok ?a = Ok ?b |- _ =>
      apply Ok_eq_inv in H; first [subst b | subst a | idtac]
  end.

Lemma encode_utf8_Ok (s : pystr) (b : pybytes) :
  encode_utf8 s = Ok b <-> utf8_encode s = Some b.
Proof.
  unfold encode_utf8. destruct (utf8_encode s); split; congruence.
Qed.

Lemma encode_utf8_encodable (s : pystr) :
  encodable s -> exists b, encode_utf8 s = Ok b /\ Forall is_byte b.
Proof.
  intros H. destruct (utf8_encode_encodable s H) as [b Hb].
  exists b. split; [now apply encode_utf8_Ok | eapply utf8_encode_bytes; eauto].
Qed.

(** ** Stripping what has clean ends *)

Lemma lstrip_with_all (sp : Z -> bool) (s : list Z) :
  Forall (fun c => sp c = false) s -> lstrip_with sp s = s.
Proof.
  destruct 1 as [|c r Hc _]; [reflexivity | now apply lstrip_with_head].
Qed.

Lemma strip_with_all (sp : Z -> bool) (s : list Z) :
  Forall (fun c => sp c = false) s -> strip_with sp s = s.
Proof.
  intros H. apply strip_with_fixed; apply lstrip_with_all;
    [exact H | now apply Forall_rev].
Qed.

Lemma lstrip_with_app (sp : Z -> bool) (a b : list Z) :
  a <> [] -> lstrip_with sp a = a -> lstrip_with sp (a ++ b) = a ++ b.
Proof.
  intros Hn Ha. destruct (lstrip_with_fixed sp a Ha) as [-> | (c & r & -> & Hc)];
    [contradiction | now apply lstrip_with_head].
Qed.

Lemma lstrip_with_prefix (sp : Z -> bool) (a b : list Z) :
  a <> [] -> lstrip_with sp (a ++ b) = a ++ b -> lstrip_with sp a = a.
Proof.
  intros Hn H. destruct a as [|c r]; [contradiction|].
  destruct (lstrip_with_fixed sp _ H) as [E | (c' & r' & E & Hc)];
    [discriminate|].
  injection E as <- _. now apply lstrip_with_head.
Qed.

Lemma b64encode_no_space (l : pybytes) :
  Forall is_byte l ->
  Forall (fun c => is_space c = false) (b64encode l)
  /\ Forall (fun c => is_space_byte c = false) (b64encode l)
  /\ ~ In dot (b64encode l).
Proof.
  intros F. pose proof (b64encode_chars l F) as H.
  repeat split.
  - eapply Forall_impl; [|exact H]. intros c Hc.
    now apply b64_alphabet_or_pad_plain.
  - eapply Forall_impl; [|exact H]. intros c Hc.
    now apply b64_alphabet_or_pad_plain.
  - intros Hin. rewrite Forall_forall in H.
    now apply (b64_alphabet_or_pad_plain dot (H _ Hin)).
Qed.

(** An encoded stem followed by an extension can be read back: the stem
    has no dot and the extension begins with one. *)
Lemma stem_ext_unique (b1 b2 e1 e2 : pystr) :
  ~ In dot b1 -> ~ In dot b2 ->
  (e1 = [] \/ exists x, e1 = dot :: x) ->
  (e2 = [] \/ exists x, e2 = dot :: x) ->
  b1 ++ e1 = b2 ++ e2 -> b1 = b2 /\ e1 = e2.
Proof.
  revert b2. induction b1 as [|x b1 IH]; intros [|y b2] N1 N2 E1 E2 H;
    simpl in *.
  - now split.
  - exfalso. destruct E1 as [-> | [z ->]]; [discriminate|].
    injection H as <- _. apply N2. now left.
  - exfalso. destruct E2 as [-> | [z ->]]; [discriminate|].
    injection H as -> _. apply N1. now left.
  - injection H as -> H.
    destruct (IH b2) as [-> ->]; auto.
Qed.

(** * Upload signing *)

Module SigningFacts.
Import ApiSignS3PutRequestViewSerializer.

Section Signing.
Context {C : Settings} {U : Utils} {L : PyLib} {Laws : PyLibLaws L}.

Lemma hexdigit_no_space (c : Z) : is_hexdigit c -> is_space c = false.
Proof.
  unfold is_hexdigit. intros H. apply is_space_printable. lia.
Qed.

Lemma sha1_hexdigest_head (m : pybytes) :
  sha1_hexdigest m <> []
  /\ lstrip_with is_space (sha1_hexdigest m) = sha1_hexdigest m.
Proof.
  destruct (sha1_hexdigest_shape m) as [Hlen Hhex].
  destruct (sha1_hexdigest m) as [|c r]; [discriminate|].
  split; [discriminate|]. apply lstrip_with_head, hexdigit_no_space.
  now apply Forall_inv in Hhex.
Qed.

Lemma encoded_file_name_Ok (f : pystr) :
  encodable f ->
  exists stem, utf8_encode (fst (splitext f)) = Some stem
    /\ Forall is_byte stem
    /\ encoded_file_name f = Ok (b64encode stem ++ snd (splitext f)).
Proof.
  intros Hf. unfold encoded_file_name.
  assert (Hs : encodable (fst (splitext f))).
  { unfold encodable in *. rewrite <- (splitext_app f) in Hf.
    now apply Forall_app in Hf. }
  destruct (encode_utf8_encodable _ Hs) as (stem & Hstem & Hb).
  exists stem. repeat split; [now apply encode_utf8_Ok | exact Hb |].
  destruct (splitext f) as [a b]; simpl in *. now rewrite Hstem.
Qed.

Lemma object_name_of_Ok (t : Q) (user : User) (name : pystr) :
  exists seed, utf8_encode (str_of_int (expires_of t)) = Some seed
    /\ object_name_of t user name
       = Ok (sha1_hexdigest seed ++ [dash] ++ special_code user
             ++ [dash] ++ name).
Proof.
  destruct (encode_utf8_encodable (str_of_int (expires_of t)))
    as (seed & Hseed & _); [apply py_encodable|].
  exists seed. split; [now apply encode_utf8_Ok|].
  unfold object_name_of. now rewrite Hseed.
Qed.

(** White space at the end of an object name could only come from the
    extension. *)
Lemma lstrip_rev_object_name (ext b64 front : pystr) :
  (ext = [] \/ lstrip_with is_space (rev ext) = rev ext) ->
  Forall (fun c => is_space c = false) b64 ->
  lstrip_with is_space (rev (front ++ [dash] ++ b64 ++ ext))
  = rev (front ++ [dash] ++ b64 ++ ext).
Proof.
  intros Hext Hb64. rewrite !rev_app_distr, <- !app_assoc.
  assert (Hnil : forall l : list Z, l <> [] -> rev l <> []).
  { intros l Hl E. apply Hl. apply (f_equal (@rev Z)) in E.
    now rewrite rev_involutive in E. }
  destruct ext as [|x e].
  - change (rev (@nil Z)) with (@nil Z). rewrite app_nil_l.
    destruct b64 as [|y b]; [reflexivity|].
    apply lstrip_with_app; [now apply Hnil|].
    apply lstrip_with_all. now apply Forall_rev.
  - destruct Hext as [E | Hext]; [discriminate|].
    apply lstrip_with_app; [now apply Hnil | exact Hext].
Qed.

(** The object name of a trimmed file name has no white space at either
    end, so [strip] returns it as it is. *)
Lemma strip_object_name (seed stem : pybytes) (code f : pystr) :
  Forall is_byte stem -> strip f = f ->
  strip (sha1_hexdigest seed ++ [dash] ++ code ++ [dash]
         ++ b64encode stem ++ snd (splitext f))
  = sha1_hexdigest seed ++ [dash] ++ code ++ [dash]
    ++ b64encode stem ++ snd (splitext f).
Proof.
  intros Hb Hf. apply strip_with_fixed.
  - destruct (sha1_hexdigest_head seed) as [Hn Hh].
    now apply lstrip_with_app.
  - apply strip_with_fixed_inv in Hf as [_ Hend].
    rewrite <- (splitext_app f), rev_app_distr in Hend.
    replace (sha1_hexdigest seed ++ [dash] ++ code ++ [dash]
             ++ b64encode stem ++ snd (splitext f))
      with ((sha1_hexdigest seed ++ [dash] ++ code) ++ [dash]
            ++ b64encode stem ++ snd (splitext f))
      by (now rewrite <- !app_assoc).
    apply lstrip_rev_object_name; [|now apply b64encode_no_space].
    destruct (snd (splitext f)) as [|x e]; [now left|]. right.
    eapply lstrip_with_prefix; [|exact Hend].
    intros E. apply (f_equal (@List.length Z)) in E.
    rewrite length_rev in E. discriminate.
Qed.

(** What [create] returns on a trimmed, encodable file name. *)
Lemma create_Ok (t : Q) (now : Z) (vd : Validated) :
  encodable S3_SECRET_KEY ->
  strip (vd_video_filename vd) = vd_video_filename vd ->
  encodable (vd_video_filename vd) ->
  exists r stem seed secret doc,
    create t now vd = Ok r
    /\ utf8_encode (fst (splitext (vd_video_filename vd))) = Some stem
    /\ Forall is_byte stem
    /\ utf8_encode (str_of_int (expires_of t)) = Some seed
    /\ utf8_encode S3_SECRET_KEY = Some secret
    /\ utf8_encode (json_dumps (policy_document_of now (key r))) = Some doc
    /\ key r = sha1_hexdigest seed ++ [dash] ++ special_code (vd_user vd)
               ++ [dash] ++ b64encode stem
               ++ snd (splitext (vd_video_filename vd))
    /\ policy r = b64encode doc
    /\ signature r
       = bytes_strip (encodestring (hmac_sha1_digest secret (b64encode doc))).
Proof.
  intros Hsecret Htrim Hname.
  destruct (encoded_file_name_Ok _ Hname) as (stem & Hstem & Hbytes & Hfile).
  destruct (object_name_of_Ok t (vd_user vd)
              (b64encode stem ++ snd (splitext (vd_video_filename vd))))
    as (seed & Hseed & Hobj).
  set (object_name :=
         sha1_hexdigest seed ++ [dash] ++ special_code (vd_user vd)
         ++ [dash] ++ b64encode stem
         ++ snd (splitext (vd_video_filename vd))) in *.
  destruct (encode_utf8_encodable
              (json_dumps (policy_document_of now object_name)))
    as (doc & Hdoc & Hdocb); [apply ascii_encodable, json_dumps_ascii|].
  destruct (encode_utf8_encodable _ Hsecret) as (secret & Hsec & _).
  assert (Hkey : strip object_name = object_name)
    by (now apply strip_object_name).
  eexists _, stem, seed, secret, doc.
  split.
  { unfold create. rewrite Hfile. cbn [bind]. rewrite Hobj. cbn [bind].
    rewrite Hdoc. cbn [bind]. rewrite Hsec. cbn [bind]. reflexivity. }
  cbn [key policy signature]. rewrite Hkey.
  repeat split; try assumption; try (now apply encode_utf8_Ok);
    try reflexivity.
  apply strip_with_all. now apply b64encode_no_space.
Qed.
End Signing.
End SigningFacts.

(** * Ordering a queryset *)

Section OrderByFacts.
Variable leb : Weight -> Weight -> bool.

Lemma insert_sorted_perm (w : Weight) (l : list Weight) :
  Permutation (insert_sorted leb w l) (w :: l).
Proof.
  induction l as [|x r IH]; simpl; [reflexivity|].
  destruct (leb w x); [reflexivity|].
  rewrite IH. apply perm_swap.
Qed.

(** Ordering keeps the rows, each as often as before. *)
Lemma order_by_perm (l : list Weight) : Permutation (order_by leb l) l.
Proof.
  induction l as [|x r IH]; simpl; [reflexivity|].
  rewrite insert_sorted_perm. now constructor.
Qed.

Lemma order_by_In (w : Weight) (l : list Weight) :
  In w (order_by leb l) <-> In w l.
Proof.
  split; apply Permutation_in;
    [apply order_by_perm | symmetry; apply order_by_perm].
Qed.

Lemma order_by_length (l : list Weight) :
  List.length (order_by leb l) = List.length l.
Proof. apply Permutation_length, order_by_perm. Qed.

Hypothesis leb_total : forall a b, leb a b = true \/ leb b a = true.
Hypothesis leb_trans :
  forall a b c, leb a b = true -> leb b c = true -> leb a c = true.

Let le (a b : Weight) : Prop := leb a b = true.

Lemma insert_sorted_sorted (w : Weight) (l : list Weight) :
  StronglySorted le l -> StronglySorted le (insert_sorted leb w l).
Proof.
  induction 1 as [|x r Hs IH Hx]; simpl.
  - repeat constructor.
  - destruct (leb w x) eqn:E.
    + constructor; [now constructor|].
      constructor; [exact E|].
      eapply Forall_impl; [|exact Hx]. intros y Hy. now apply (leb_trans w x y).
    + constructor; [exact IH|].
      apply (Permutation_Forall (Permutation_sym (insert_sorted_perm w r))).
      constructor; [|exact Hx].
      destruct (leb_total w x) as [H | H]; [congruence | exact H].
Qed.

(** On a total, transitive order the result is sorted. *)
Lemma order_by_sorted (l : list Weight) : StronglySorted le (order_by leb l).
Proof.
  induction l as [|x r IH]; simpl; [constructor|].
  now apply insert_sorted_sorted.
Qed.
End OrderByFacts.

(** * Validation failures *)

Lemma raises_only_validation_bind {A B : Type} (e : result A)
    (k : A -> result B) :
  raises_only_validation e ->
  (forall a, e = Ok a -> raises_only_validation (k a)) ->
  raises_only_validation (bind e k).
Proof.
  intros He Hk. destruct e as [a|x]; cbn [bind].
  - now apply Hk.
  - intros e H. injection H as <-. now apply He.
Qed.

Lemma raises_only_validation_Ok {A : Type} (a : A) :
  raises_only_validation (Ok a).
Proof. intros e H. discriminate. Qed.

Lemma raises_only_validation_Raise {A : Type} (detail : pystr) :
  raises_only_validation (@Raise A (ValidationError detail)).
Proof. intros e H. injection H as <-. eauto. Qed.

Lemma present_raises {A : Type} (o : option A) :
  raises_only_validation (present o).
Proof.
  destruct o; [apply raises_only_validation_Ok
              | apply raises_only_validation_Raise].
Qed.

Lemma required_raises {A : Type} (partial : bool) (o : option A) :
  raises_only_validation (required partial o).
Proof.
  destruct o, partial; cbn;
    first [apply raises_only_validation_Ok
          | apply raises_only_validation_Raise].
Qed.

Lemma CharField_raises (max_length : option Z) (o : option pystr) :
  raises_only_validation (CharField max_length o).
Proof.
  unfold CharField. destruct o as [s|]; [|apply raises_only_validation_Ok].
  destruct (truthy (strip s)); [|apply raises_only_validation_Raise].
  destruct max_length as [n|]; [destruct (n <? _)|];
    first [apply raises_only_validation_Ok
          | apply raises_only_validation_Raise].
Qed.

Lemma FileField_raises (o : option UploadedFile) :
  raises_only_validation (FileField o).
Proof.
  unfold FileField. destruct o as [f|]; [|apply raises_only_validation_Ok].
  destruct (negb _); [apply raises_only_validation_Raise|].
  destruct (_ =? _);
    first [apply raises_only_validation_Ok
          | apply raises_only_validation_Raise].
Qed.

(** A value that is absent or empty does not get past a [CharField]. *)
Lemma CharField_falsy (max_length : option Z) (o v : option pystr) :
  opt_truthy o = false -> CharField max_length o = Ok v -> v = None.
Proof.
  unfold CharField. destruct o as [[|c s]|]; cbn; try discriminate.
  intros _ H. now injection H.
Qed.

Create HintDb validation.

#[local] Hint Resolve raises_only_validation_Ok raises_only_validation_Raise
  present_raises required_raises CharField_raises FileField_raises
  validate_competitor_raises validate_weight_raises validate_date_raises
  validate_height_raises : validation.

(** Walk down a chain of binds, one step at a time. *)
Ltac validation_chain :=
  repeat first
    [ apply raises_only_validation_bind; [|intros ? ?]
    | solve [auto with validation] ].

(** A computation that fails only by [ValidationError] and never succeeds
    raises one. *)
Lemma raises_validation_error {A : Type} (r : result A) :
  raises_only_validation r -> (forall a, r <> Ok a) ->
  exists detail, r = Raise (ValidationError detail).
Proof.
  intros Hr Hn. destruct r as [a|e]; [now destruct (Hn a)|].
  destruct (Hr e eq_refl) as [detail ->]. eauto.
Qed.

(** * Ownership *)

Section Ownership.
Context {U : Utils} {M : Managers} {L : PyLib}.

(** The listing holds rows of the requesting user only. *)
Lemma get_queryset_owner (st : Store) (user : User) (w : Weight) :
  In w (RetrieveWeighinAPIView.get_queryset st user) ->
  participant w = user_id user.
Proof.
  unfold RetrieveWeighinAPIView.get_queryset. intros H.
  apply order_by_In, filter_In in H as [_ H]. now apply Z.eqb_eq.
Qed.

(** [get_object] raises as soon as the row is someone else's. *)
Lemma get_object_denied (rows : list Weight) (user : User) (key : Z)
    (m : Weight) :
  get_object_or_404 rows key = Ok m ->
  participant m <> user_id user ->
  get_object rows user key = Raise PermissionDenied.
Proof.
  intros Hfound Hother. unfold get_object. rewrite Hfound. cbn [bind].
  unfold check_object_permissions, BelongsToUser.
  destruct (Z.eqb_spec (participant m) (user_id user)); [contradiction|].
  reflexivity.
Qed.

(** C1. For a participant and a measurement owned by someone else: the
    listing never contains the measurement; and when the measurement is
    the one a request addresses, update (PUT or PATCH, whatever the body)
    and delete are answered 403 by the object permission check raised in
    [get_object], with the store untouched. *)
Theorem foreign_measurement_protected (st : Store) (user : User) (m : Weight) :
  participant m <> user_id user ->
  (exists rows,
     RetrieveWeighinAPIView.get st user = (Response 200 rows, st)
     /\ ~ In m rows)
  /\ forall key,
       get_object_or_404 (weights st) key = Ok m ->
       get_object (weights st) user key = Raise PermissionDenied
       /\ (forall partial data,
             UpdateWeight.update partial st user key data
             = (ErrorResponse 403 PermissionDenied, st))
       /\ DeleteWeightAPIView.delete st user key
          = (ErrorResponse 403 PermissionDenied, st).
Proof.
  intros Hother. split.
  - eexists. split; [reflexivity|].
    intros Hin. now apply get_queryset_owner in Hin.
  - intros key Hfound.
    pose proof (get_object_denied _ _ _ _ Hfound Hother) as Hdenied.
    split; [exact Hdenied|]. split.
    + intros partial data. unfold UpdateWeight.update.
      now rewrite Hdenied.
    + unfold DeleteWeightAPIView.delete. now rewrite Hdenied.
Qed.
End Ownership.

(** * Delta report *)

Section DeltaReport.
Import UnverifiedWeightSerializer.
Context {U : Utils} {M : Managers} {L : PyLib}.

Lemma by_created_desc_total (a b : Weight) :
  by_created_desc a b = true \/ by_created_desc b a = true.
Proof.
  unfold by_created_desc.
  destruct (Z.leb_spec (created b) (created a)); [now left|].
  right. apply Z.leb_le. lia.
Qed.

Lemma by_created_desc_trans (a b c : Weight) :
  by_created_desc a b = true -> by_created_desc b c = true ->
  by_created_desc a c = true.
Proof.
  unfold by_created_desc. rewrite !Z.leb_le. lia.
Qed.

(** Of two rows the one created later comes first under ['-created']. *)
Lemma order_by_created_pair (l : list Weight) (m1 m2 : Weight) :
  Permutation l [m1; m2] -> created m1 < created m2 ->
  order_by by_created_desc l = [m2; m1].
Proof.
  intros Hp Hlt. symmetry in Hp.
  apply Permutation_length_2_inv in Hp as [-> | ->];
    cbn; unfold by_created_desc.
  - destruct (Z.leb_spec (created m2) (created m1)); [lia | reflexivity].
  - destruct (Z.leb_spec (created m1) (created m2)); [reflexivity | lia].
Qed.

(** The head of a queryset ordered by ['-created'] is a most recent row,
    the second a most recent one of the rest. *)
Lemma order_by_created_heads (l : list Weight) (new old : Weight)
    (rest : list Weight) :
  order_by by_created_desc l = new :: old :: rest ->
  Forall (fun x => created x <= created new) (old :: rest)
  /\ Forall (fun x => created x <= created old) rest.
Proof.
  intros E.
  pose proof (order_by_sorted by_created_desc by_created_desc_total
                by_created_desc_trans l) as Hs.
  rewrite E in Hs.
  apply StronglySorted_inv in Hs as [Hs Hnew].
  apply StronglySorted_inv in Hs as [_ Hold].
  split; (eapply Forall_impl; [|eassumption]); cbv beta;
    intros x Hx; now apply Z.leb_le in Hx.
Qed.

(** The report always comes back: the queryset that was counted has its
    two first rows. *)
Lemma to_representation_total (st : Store) (user : User) (d : Z) :
  exists r, to_representation st user d = Ok r.
Proof.
  unfold to_representation.
  destruct (1 <? _) eqn:E; [|eauto].
  apply Z.ltb_lt in E.
  destruct (order_by by_created_desc _) as [|new [|old rest]] eqn:Eo;
    [| |eauto];
    apply (f_equal (@List.length Weight)) in Eo;
    rewrite order_by_length in Eo; rewrite order_by_length in E;
    cbn in Eo; lia.
Qed.

(** C2. The delta report. (1) For a user whose unit is kg and whose
    measurements up to the date are exactly two, 100 kg created first and
    95 kg created second, it says first_entry false, 'lost', difference 5.
    (2) With exactly one measurement up to the date it says first_entry
    true and difference 0. (3) Whenever there is more than one, the rows
    compared are a most recently created one and a most recently created
    one among the others, and the difference is old minus new in
    kilograms for a kg user and in pounds otherwise, reported by absolute
    value with 'lost' when it is not negative and 'gained' when it is. *)
Theorem delta_report (st : Store) (user : User) (d : Z) :
  (forall m1 m2,
     weight_unit user = py "kg" ->
     Permutation (before_date (weights st) user d) [m1; m2] ->
     (weight_kilograms m1 == 100)%Q -> (weight_kilograms m2 == 95)%Q ->
     created m1 < created m2 ->
     exists r,
       to_representation st user d = Ok r
       /\ first_entry r = false
       /\ lost_weight r = inl (py "lost")
       /\ (weight_difference r == 5)%Q
       /\ delta_weight_unit r = py "kg")
  /\ (forall m,
        before_date (weights st) user d = [m] ->
        to_representation st user d
        = Ok {| first_entry := true; weight_difference := 0;
                lost_weight := inr 0;
                delta_weight_unit := weight_unit user |})
  /\ ((1 < List.length (before_date (weights st) user d))%nat ->
      exists new old rest r,
        to_representation st user d = Ok r
        /\ Permutation (new :: old :: rest) (before_date (weights st) user d)
        /\ Forall (fun x => created x <= created new) (old :: rest)
        /\ Forall (fun x => created x <= created old) rest
        /\ first_entry r = false
        /\ let difference :=
             if str_eqb (weight_unit user) (py "kg")
             then (weight_kilograms old - weight_kilograms new)%Q
             else (weight_in_pounds old - weight_in_pounds new)%Q in
           weight_difference r = Qabs difference
           /\ lost_weight r
              = if Qle_bool 0 difference
                then inl (py "lost") else inl (py "gained")).
Proof.
  split; [|split].
  - intros m1 m2 Hunit Hp H1 H2 Hlt.
    assert (Hl : order_by by_created_desc (before_date (weights st) user d)
                 = [m2; m1]).
    { apply order_by_created_pair; [exact Hp | exact Hlt]. }
    assert (Hdiff : (weight_kilograms m1 - weight_kilograms m2 == 5)%Q).
    { rewrite H1, H2. reflexivity. }
    unfold to_representation.
    rewrite order_by_length, (Permutation_length Hp), Hl, Hunit.
    cbn [List.length Z.of_nat Z.ltb Z.compare Pos.of_succ_nat Pos.succ
         Pos.compare Pos.compare_cont].
    change (str_eqb (py "kg") (py "kg")) with true. cbv iota.
    eexists. split; [reflexivity|]. cbn [first_entry lost_weight
      weight_difference delta_weight_unit].
    assert (Hle : Qle_bool 0 (weight_kilograms m1 - weight_kilograms m2)
                  = true).
    { apply Qle_bool_iff. rewrite Hdiff. discriminate. }
    rewrite Hle.
    split; [reflexivity|]. split; [reflexivity|]. split; [|reflexivity].
    rewrite Hdiff. reflexivity.
  - intros m Hm. unfold to_representation.
    rewrite order_by_length, Hm. reflexivity.
  - intros Hlen. unfold to_representation.
    rewrite order_by_length.
    destruct (Z.ltb_spec 1 (Z.of_nat (List.length
                (before_date (weights st) user d)))) as [_ | Hge]; [|lia].
    destruct (order_by by_created_desc _) as [|new [|old rest]] eqn:Eo.
    + apply (f_equal (@List.length Weight)) in Eo.
      rewrite order_by_length in Eo. cbn in Eo. lia.
    + apply (f_equal (@List.length Weight)) in Eo.
      rewrite order_by_length in Eo. cbn in Eo. lia.
    + exists new, old, rest. eexists. split; [reflexivity|].
      destruct (order_by_created_heads _ _ _ _ Eo) as [Hnew Hold].
      split.
      { rewrite <- Eo. apply order_by_perm. }
      repeat split; assumption.
Qed.
End DeltaReport.

(** * Video verification *)

Section VideoVerification.
Import VideoVerificationSerializer.
Context {C : Settings} {U : Utils} {UL : UtilsLaws U}.

Lemma video_is_valid_raises (st : Store) (user : User) (data : Data) :
  raises_only_validation (is_valid st user data).
Proof.
  unfold is_valid, to_internal_value, validate.
  validation_chain.
  - destruct (in_platform data); validation_chain.
  - destruct (_ && _); auto with validation.
Qed.

(** Validation that succeeds has found a file reference or a link. *)
Lemma video_is_valid_proof (st : Store) (user : User) (data : Data)
    (vd : Validated) :
  is_valid st user data = Ok vd ->
  opt_truthy (in_s3_file_url data) = true
  \/ opt_truthy (in_video_url data) = true.
Proof.
  unfold is_valid. intros H. bind_inv H.
  unfold to_internal_value in Ha. repeat bind_inv Ha.
  injection Ha as <-.
  unfold validate in H. repeat bind_inv H. cbn in H.
  destruct (opt_truthy (in_s3_file_url data)) eqn:E1; [now left|].
  destruct (opt_truthy (in_video_url data)) eqn:E2; [now right|].
  exfalso.
  repeat match goal with
  | Hc : CharField _ (?f data) = Ok ?v, Hf : opt_truthy (?f data) = false |- _ =>
      apply (CharField_falsy _ _ _ Hf) in Hc; subst v
  end.
  discriminate H.
Qed.

(** C3. A video-verification submission whose file reference and video
    link are both absent or empty is refused: validation raises a
    [ValidationError], the view answers 400 and the store is unchanged;
    and when the fields and the two validators let the data through, the
    error is the one [validate] raises for the missing proof. *)
Theorem video_without_proof_rejected (st : Store) (user : User)
    (data : Data) :
  opt_truthy (in_s3_file_url data) = false ->
  opt_truthy (in_video_url data) = false ->
  (exists detail,
     is_valid st user data = Raise (ValidationError detail)
     /\ ApiVideoVerificationView.post st user data
        = (ErrorResponse 400 (ValidationError detail), st))
  /\ forall attrs competitors w,
       to_internal_value st data = Ok attrs ->
       validate_competitor st (a_competitor_ids attrs) = Ok competitors ->
       validate_weight st user (a_weight attrs)
         (Some (a_date_of_measurement attrs)) false = Ok w ->
       is_valid st user data
       = Raise (ValidationError
                  (py "Please attach a video file or include a video link.")).
Proof.
  intros Hs3 Hvideo. split.
  - destruct (raises_validation_error (is_valid st user data))
      as [detail Hd].
    + apply video_is_valid_raises.
    + intros vd Hok. apply video_is_valid_proof in Hok as [H | H]; congruence.
    + exists detail. split; [exact Hd|].
      unfold ApiVideoVerificationView.post. now rewrite Hd.
  - intros attrs competitors w Hattrs Hc Hw.
    unfold is_valid. rewrite Hattrs. cbn [bind].
    unfold validate. rewrite Hc. cbn [bind]. rewrite Hw. cbn [bind].
    unfold to_internal_value in Hattrs. repeat bind_inv Hattrs.
    injection Hattrs as <-. cbn.
    repeat match goal with
    | Hc : CharField _ (?f data) = Ok ?v, Hf : opt_truthy (?f data) = false |- _ =>
        apply (CharField_falsy _ _ _ Hf) in Hc; subst v
    end.
    reflexivity.
Qed.
End VideoVerification.

Section Congratulations.
Import VideoVerificationSerializer.
Context {C : Settings} {U : Utils}.

Lemma app_one_neq (l : list Z) (x : Z) : l ++ [x] <> l.
Proof.
  intros E. apply (f_equal (@List.length Z)) in E.
  rewrite length_app in E. cbn in E. lia.
Qed.

(** The task queue after [create]: one more task exactly when there are
    competitors and one of them is in the main competition. *)
Lemma create_queue (st : Store) (vd : Validated) :
  celery_queue (snd (create st vd))
  = if competitors_truthy (vd_competitors vd)
       && existsb (Z.eqb MAIN_COMPETITION)
            (map team_challenge_id (competitors_list (vd_competitors vd)))
    then celery_queue st ++ [pk (fst (create st vd))]
    else celery_queue st.
Proof.
  unfold create.
  destruct (convert_weight_to_kgs_and_lbs _ _) as [kg lb].
  destruct (competitors_truthy (vd_competitors vd)); cbn [andb];
    [destruct (existsb _ _)|]; destruct (opt_truthy _); reflexivity.
Qed.

Lemma main_competition_among (cs : list Competitor) :
  existsb (Z.eqb MAIN_COMPETITION) (map team_challenge_id cs) = true
  <-> exists c, In c cs /\ team_challenge_id c = MAIN_COMPETITION.
Proof.
  rewrite existsb_exists. split.
  - intros (x & Hin & Hx). apply in_map_iff in Hin as (c & <- & Hc).
    exists c. split; [exact Hc|]. symmetry. now apply Z.eqb_eq.
  - intros (c & Hc & Hm). exists (team_challenge_id c).
    split; [now apply in_map | apply Z.eqb_eq; now symmetry].
Qed.

(** C9. For a valid video-verification submission the view answers 201
    with the new measurement. With a non-empty competitor list the
    congratulations task for that measurement is appended to the queue if
    and only if some attached competitor's team is in the main
    competition, and otherwise the queue is as before; with no
    competitors the queue is as before. *)
Theorem congratulations_iff_main_competition (st : Store) (user : User)
    (data : Data) (vd : Validated) :
  is_valid st user data = Ok vd ->
  exists m st',
    ApiVideoVerificationView.post st user data = (Response 201 m, st')
    /\ (competitors_truthy (vd_competitors vd) = true ->
        (celery_queue st' = celery_queue st ++ [pk m]
         <-> exists c, In c (competitors_list (vd_competitors vd))
                       /\ team_challenge_id c = MAIN_COMPETITION)
        /\ (celery_queue st' <> celery_queue st ++ [pk m] ->
            celery_queue st' = celery_queue st))
    /\ (competitors_truthy (vd_competitors vd) = false ->
        celery_queue st' = celery_queue st).
Proof.
  intros Hvalid.
  exists (fst (create st vd)), (snd (create st vd)).
  split.
  { unfold ApiVideoVerificationView.post. now rewrite Hvalid. }
  rewrite create_queue. split.
  - intros ->. cbn [andb]. rewrite <- main_competition_among.
    destruct (existsb _ _); split.
    + split; reflexivity.
    + intros H. now destruct H.
    + split; [|discriminate]. intros E. symmetry in E.
      now apply app_one_neq in E.
    + reflexivity.
  - now intros ->.
Qed.
End Congratulations.

(** * Unit conversion *)

Section Conversion.
Context {C : Settings} {U : Utils} {M : Managers} {L : PyLib} {R : Rendering}.

Lemma dispatch_Response {A : Type} (st st' : Store)
    (h : result (Reply A * Store)) (status : Z) (data : A) :
  dispatch st h = (Response status data, st') ->
  h = Ok (Response status data, st').
Proof.
  destruct h as [[r s]|e]; cbn; intros H; [now rewrite H | discriminate].
Qed.

Lemma save_row_In (st : Store) (old new : Weight) :
  In old (weights st) -> pk old = pk new ->
  In new (weights (save_row st new)).
Proof.
  intros Hin Hpk. cbn. apply in_map_iff. exists old.
  split; [|exact Hin]. now rewrite Hpk, Z.eqb_refl.
Qed.

Lemma get_object_or_404_In (rows : list Weight) (key : Z) (w : Weight) :
  get_object_or_404 rows key = Ok w -> In w rows.
Proof.
  unfold get_object_or_404. destruct (find _ rows) as [r|] eqn:E;
    [|discriminate].
  intros H. injection H as <-. now apply find_some in E.
Qed.

(** Intake: the row holds the conversion of what [validate_weight]
    returned for the submitted weight. *)
Lemma weighin_create_converts (today : Z) (st st' : Store) (user : User)
    (weighin_type : option pystr) (data : WeightSerializer.Data)
    (w : Weight) :
  CreateWeighinAPIView.post today st user weighin_type data
  = (Response 200 (Saved w), st') ->
  exists submitted validated,
    WeightSerializer.in_weight data = Some submitted
    /\ validate_weight st user submitted
         (WeightSerializer.in_date_of_measurement data) false = Ok validated
    /\ (weight_kilograms w, weight_in_pounds w)
       = convert_weight_to_kgs_and_lbs (weight_unit user) validated
    /\ In w (weights st').
Proof.
  unfold CreateWeighinAPIView.post. intros H.
  apply dispatch_Response in H. bind_inv H.
  unfold WeightSerializer.is_valid in Ha. bind_inv Ha.
  rename a0 into date.
  assert (Hdate : date = WeightSerializer.in_date_of_measurement data).
  { unfold WeightSerializer.to_internal_value in Ha0.
    destruct (WeightSerializer.in_date_of_measurement data);
      [bind_inv Ha0|]; congruence. }
  subst date. unfold WeightSerializer.validate in Ha.
  destruct (WeightSerializer.in_weight data) as [submitted|];
    [|discriminate]. cbn [py_float bind] in Ha.
  bind_inv Ha. rename a0 into validated. ok_inv.
  exists submitted, validated. split; [reflexivity|]. split; [assumption|].
  assert (Hsave : forall kw ws,
            WeightSerializer.save st user
              {| WeightSerializer.vd_date_of_measurement :=
                   WeightSerializer.in_date_of_measurement data;
                 WeightSerializer.vd_user := user;
                 WeightSerializer.vd_weight_unit := weight_unit user;
                 WeightSerializer.vd_weight := validated;
                 WeightSerializer.vd_verified := None;
                 WeightSerializer.vd_method := None;
                 WeightSerializer.vd_participant_id := None |} kw = Ok ws ->
            (weight_kilograms (fst ws), weight_in_pounds (fst ws))
            = convert_weight_to_kgs_and_lbs (weight_unit user) validated
            /\ In (fst ws) (weights (snd ws))).
  { intros kw ws. unfold WeightSerializer.save, WeightSerializer.create.
    cbn. destruct (convert_weight_to_kgs_and_lbs _ _) as [kg lb].
    destruct (WeightSerializer.or_else _ _); [|discriminate].
    intros E. injection E as <-. cbn. split; [reflexivity|].
    apply in_or_app. right. now left. }
  destruct (type_is weighin_type (py "self-reported")).
  - bind_inv H. injection H as <- <-. now apply Hsave in Ha.
  - destruct (type_is weighin_type (py "verified")).
    + bind_inv H. injection H as <- <-. now apply Hsave in Ha.
    + destruct (renders_unsaved _); discriminate.
Qed.

(** Video verification: likewise. *)
Lemma video_create_converts (st st' : Store) (user : User)
    (data : VideoVerificationSerializer.Data) (m : Weight) :
  ApiVideoVerificationView.post st user data = (Response 201 m, st') ->
  exists submitted date validated,
    VideoVerificationSerializer.in_weight data = Some submitted
    /\ VideoVerificationSerializer.in_date data = Some date
    /\ validate_weight st user submitted (Some date) false = Ok validated
    /\ (weight_kilograms m, weight_in_pounds m)
       = convert_weight_to_kgs_and_lbs (weight_unit user) validated
    /\ In m (weights st').
Proof.
  unfold ApiVideoVerificationView.post. intros H.
  apply dispatch_Response in H. bind_inv H. injection H as <- <-.
  unfold VideoVerificationSerializer.is_valid in Ha. bind_inv Ha.
  unfold VideoVerificationSerializer.to_internal_value in Ha0.
  repeat bind_inv Ha0. injection Ha0 as <-.
  destruct (VideoVerificationSerializer.in_weight data) as [submitted|];
    [|discriminate].
  destruct (VideoVerificationSerializer.in_date data) as [date|];
    [|discriminate].
  repeat match goal with
  | Hp : present (Some _) = Ok _ |- _ => injection Hp as <-
  end.
  unfold VideoVerificationSerializer.validate in Ha. cbn in Ha.
  repeat bind_inv Ha. destruct (_ && _); [discriminate|].
  injection Ha as <-.
  exists submitted, date. eexists.
  split; [reflexivity|]. split; [reflexivity|]. split; [eassumption|].
  unfold VideoVerificationSerializer.create. cbn.
  destruct (convert_weight_to_kgs_and_lbs _ _) as [kg lb].
  destruct (opt_truthy _);
    destruct (VideoVerificationSerializer.competitors_truthy _);
    try destruct (existsb _ _); cbn;
    (split; [reflexivity|]);
    rewrite map_app; apply in_or_app; right; cbn;
    rewrite Z.eqb_refl; now left.
Qed.

(** Unverified intake: the row holds the conversion of the submitted
    weight, which [validate_weight] let through. *)
Lemma unverified_create_converts (st st' : Store) (user : User)
    (weighin_type : option pystr) (data : UnverifiedWeightSerializer.Data)
    (delta : UnverifiedWeightSerializer.Delta) :
  CreateUnverifiedWeighinAPIView.post st user weighin_type data
  = (Response 200 delta, st') ->
  exists submitted date checked w,
    UnverifiedWeightSerializer.in_weight data = Some submitted
    /\ UnverifiedWeightSerializer.in_date_of_measurement data = Some date
    /\ validate_weight st user submitted (Some date) false = Ok checked
    /\ (weight_kilograms w, weight_in_pounds w)
       = convert_weight_to_kgs_and_lbs (weight_unit user) submitted
    /\ weights st' = weights st ++ [w].
Proof.
  unfold CreateUnverifiedWeighinAPIView.post. intros H.
  apply dispatch_Response in H. bind_inv H.
  unfold UnverifiedWeightSerializer.is_valid in Ha. bind_inv Ha.
  unfold UnverifiedWeightSerializer.to_internal_value in Ha0.
  repeat bind_inv Ha0.
  destruct (UnverifiedWeightSerializer.in_weight data) as [submitted|] eqn:Ew;
    [|discriminate].
  destruct (UnverifiedWeightSerializer.in_date_of_measurement data)
    as [date|]; [|discriminate].
  cbn [present] in *. ok_inv. cbn [fst] in Ha.
  unfold UnverifiedWeightSerializer.validate in Ha.
  rewrite Ew in Ha. cbn [py_float bind] in Ha.
  repeat bind_inv Ha. ok_inv.
  apply dispatch_Response in H. bind_inv H. ok_inv.
  injection H as _ <-.
  exists submitted, date, a1.
  exists (fst (UnverifiedWeightSerializer.save st user data
                 {| UnverifiedWeightSerializer.vd_date_of_measurement := date;
                    UnverifiedWeightSerializer.vd_weight := submitted;
                    UnverifiedWeightSerializer.vd_weight_unit :=
                      weight_unit user |})).
  split; [reflexivity|]. split; [reflexivity|]. split; [assumption|].
  unfold UnverifiedWeightSerializer.save. cbn.
  destruct (convert_weight_to_kgs_and_lbs _ _) as [kg lb]. cbn.
  split; reflexivity.
Qed.

(** Update: the row is rewritten with the conversion of the submitted
    weight. *)
Lemma update_converts (partial : bool) (st st' : Store) (user : User)
    (key : Z) (data : UpdateWeightSerializer.Data) (w : Weight) :
  UpdateWeight.update partial st user key data = (Response 200 w, st') ->
  exists submitted checked,
    UpdateWeightSerializer.in_weight data = Some submitted
    /\ validate_weight st user submitted
         (UpdateWeightSerializer.in_date_of_measurement data) true
       = Ok checked
    /\ (weight_kilograms w, weight_in_pounds w)
       = convert_weight_to_kgs_and_lbs (weight_unit user) submitted
    /\ pk w = key
    /\ In w (weights st').
Proof.
  unfold UpdateWeight.update. intros H.
  apply dispatch_Response in H.
  bind_inv_as H instance Hobj. bind_inv_as H vd Hvalid.
  bind_inv_as H ws Hupdate. apply Ok_eq_inv in H. injection H as <- <-.
  unfold get_object in Hobj. bind_inv_as Hobj obj Hfound.
  bind_inv_as Hobj granted Hgranted. ok_inv.
  pose proof (get_object_or_404_In _ _ _ Hfound) as Hin.
  assert (Hkey : pk obj = key).
  { unfold get_object_or_404 in Hfound.
    destruct (find _ _) as [r|] eqn:E; [|discriminate].
    ok_inv. apply find_some in E as [_ E]. now apply Z.eqb_eq. }
  unfold UpdateWeightSerializer.is_valid in Hvalid.
  bind_inv_as Hvalid attrs Hattrs.
  unfold UpdateWeightSerializer.to_internal_value in Hattrs.
  bind_inv_as Hattrs date Hdate. bind_inv_as Hattrs dated Hdated.
  bind_inv_as Hattrs weight Hweight. bind_inv_as Hattrs image Himage.
  ok_inv.
  unfold UpdateWeightSerializer.validate in Hvalid.
  cbn [UpdateWeightSerializer.vd_weight
       UpdateWeightSerializer.vd_date_of_measurement
       UpdateWeightSerializer.vd_verifier_file
       UpdateWeightSerializer.vd_remove_image] in Hvalid.
  bind_inv_as Hvalid number Hfloat. bind_inv_as Hvalid format Hformat.
  bind_inv_as Hvalid checked Hchecked. ok_inv.
  destruct weight as [submitted|]; [|discriminate Hfloat].
  cbn [py_float] in Hfloat. ok_inv.
  assert (Hw : UpdateWeightSerializer.in_weight data = Some submitted).
  { destruct (UpdateWeightSerializer.in_weight data), partial;
      cbn in Hweight; congruence. }
  assert (Hd : date = UpdateWeightSerializer.in_date_of_measurement data).
  { destruct (UpdateWeightSerializer.in_date_of_measurement data), partial;
      cbn in Hdate; congruence. }
  subst date.
  exists submitted, checked. split; [exact Hw|]. split; [exact Hchecked|].
  unfold UpdateWeightSerializer.update in Hupdate.
  cbn [UpdateWeightSerializer.vd_weight
       UpdateWeightSerializer.vd_date_of_measurement
       UpdateWeightSerializer.vd_weight_unit bind] in Hupdate.
  destruct (convert_weight_to_kgs_and_lbs _ _) as [kg lb].
  bind_inv_as Hupdate day Hday. ok_inv. cbn [fst snd].
  split; [reflexivity|]. split; [exact Hkey|].
  now apply save_row_In with (old := obj).
Qed.

(** C8. Whenever a create or update operation accepts its input, the
    kilograms and pounds of the stored row are the pair that one call of
    the conversion helper returns for the user's unit and the validated
    weight: what [validate_weight] returned (intake, video verification)
    or the submitted weight it let through (unverified intake, update). *)
Theorem stored_weights_are_one_conversion (st st' : Store) (user : User) :
  (forall today weighin_type data w,
     CreateWeighinAPIView.post today st user weighin_type data
     = (Response 200 (Saved w), st') ->
     exists submitted validated,
       WeightSerializer.in_weight data = Some submitted
       /\ validate_weight st user submitted
            (WeightSerializer.in_date_of_measurement data) false
          = Ok validated
       /\ (weight_kilograms w, weight_in_pounds w)
          = convert_weight_to_kgs_and_lbs (weight_unit user) validated
       /\ In w (weights st'))
  /\ (forall data m,
        ApiVideoVerificationView.post st user data = (Response 201 m, st') ->
        exists submitted date validated,
          VideoVerificationSerializer.in_weight data = Some submitted
          /\ VideoVerificationSerializer.in_date data = Some date
          /\ validate_weight st user submitted (Some date) false
             = Ok validated
          /\ (weight_kilograms m, weight_in_pounds m)
             = convert_weight_to_kgs_and_lbs (weight_unit user) validated
          /\ In m (weights st'))
  /\ (forall weighin_type data delta,
        CreateUnverifiedWeighinAPIView.post st user weighin_type data
        = (Response 200 delta, st') ->
        exists submitted date checked w,
          UnverifiedWeightSerializer.in_weight data = Some submitted
          /\ UnverifiedWeightSerializer.in_date_of_measurement data
             = Some date
          /\ validate_weight st user submitted (Some date) false
             = Ok checked
          /\ (weight_kilograms w, weight_in_pounds w)
             = convert_weight_to_kgs_and_lbs (weight_unit user) submitted
          /\ weights st' = weights st ++ [w])
  /\ (forall partial key data w,
        UpdateWeight.update partial st user key data
        = (Response 200 w, st') ->
        exists submitted checked,
          UpdateWeightSerializer.in_weight data = Some submitted
          /\ validate_weight st user submitted
               (UpdateWeightSerializer.in_date_of_measurement data) true
             = Ok checked
          /\ (weight_kilograms w, weight_in_pounds w)
             = convert_weight_to_kgs_and_lbs (weight_unit user) submitted
          /\ pk w = key
          /\ In w (weights st')).
Proof.
  split; [|split; [|split]].
  - intros. eapply weighin_create_converts; eauto.
  - intros. eapply video_create_converts; eauto.
  - intros. eapply unverified_create_converts; eauto.
  - intros. eapply update_converts; eauto.
Qed.
End Conversion.

(** * Date of a weigh-in *)

Section WeighinDate.
Context {U : Utils} {R : Rendering}.

Lemma type_is_self_reported :
  type_is (Some (py "self-reported")) (py "self-reported") = true
  /\ type_is (Some (py "verified")) (py "self-reported") = false
  /\ type_is (Some (py "verified")) (py "verified") = true.
Proof. repeat split; reflexivity. Qed.

(** Validated data keep the submitted date, which the validator let
    through. *)
Lemma weight_is_valid_date (st : Store) (user : User)
    (data : WeightSerializer.Data) (vd : WeightSerializer.Validated) :
  WeightSerializer.is_valid st user data = Ok vd ->
  WeightSerializer.vd_date_of_measurement vd
  = WeightSerializer.in_date_of_measurement data
  /\ forall d, WeightSerializer.in_date_of_measurement data = Some d ->
               exists checked, validate_date st d = Ok checked.
Proof.
  unfold WeightSerializer.is_valid. intros H.
  bind_inv_as H date Hdate.
  unfold WeightSerializer.validate in H.
  bind_inv_as H number Hnumber. bind_inv_as H validated Hvalidated. ok_inv.
  cbn [WeightSerializer.vd_date_of_measurement].
  unfold WeightSerializer.to_internal_value in Hdate.
  destruct (WeightSerializer.in_date_of_measurement data) as [d|].
  - bind_inv_as Hdate checked Hchecked. ok_inv. split; [reflexivity|].
    intros d' E. injection E as <-. eauto.
  - ok_inv. split; [reflexivity | discriminate].
Qed.

(** C10. On the weigh-in create endpoint a self-reported submission that
    passes validation adds one row to the stored measurements, the row
    answered, and that row carries the server's current date, whatever
    date the body carries; a verified one adds a row that carries the
    submitted date; and in both cases a submitted date that the date
    validator refuses makes the request fail with the store unchanged. *)
Theorem self_reported_date_is_today (today : Z) (st : Store) (user : User)
    (data : WeightSerializer.Data) :
  (forall vd,
     WeightSerializer.is_valid st user data = Ok vd ->
     exists w st',
       CreateWeighinAPIView.post today st user (Some (py "self-reported")) data
       = (Response 200 (Saved w), st')
       /\ weights st' = weights st ++ [w]
       /\ date_of_measurement w = today)
  /\ (forall vd d,
        WeightSerializer.is_valid st user data = Ok vd ->
        WeightSerializer.in_date_of_measurement data = Some d ->
        exists w st',
          CreateWeighinAPIView.post today st user (Some (py "verified")) data
          = (Response 200 (Saved w), st')
          /\ weights st' = weights st ++ [w]
          /\ date_of_measurement w = d)
  /\ (forall d e weighin_type,
        WeightSerializer.in_date_of_measurement data = Some d ->
        validate_date st d = Raise e ->
        CreateWeighinAPIView.post today st user weighin_type data
        = (ErrorResponse (status_of_exc e) e, st)).
Proof.
  destruct type_is_self_reported as (Hself & Hnot & Hverified).
  split; [|split].
  - intros vd Hvalid. unfold CreateWeighinAPIView.post.
    rewrite Hvalid. cbn [bind]. rewrite Hself.
    unfold WeightSerializer.save, WeightSerializer.create.
    cbn [WeightSerializer.merge WeightSerializer.vd_weight_unit
         WeightSerializer.vd_weight WeightSerializer.vd_date_of_measurement
         WeightSerializer.kw_date_of_measurement WeightSerializer.or_else].
    destruct (convert_weight_to_kgs_and_lbs _ _) as [kg lb].
    do 2 eexists. split; [reflexivity|]. split; reflexivity.
  - intros vd d Hvalid Hd. unfold CreateWeighinAPIView.post.
    destruct (weight_is_valid_date _ _ _ _ Hvalid) as [Hdate _].
    rewrite Hvalid. cbn [bind]. rewrite Hnot, Hverified.
    unfold WeightSerializer.save, WeightSerializer.create.
    cbn [WeightSerializer.merge WeightSerializer.vd_weight_unit
         WeightSerializer.vd_weight WeightSerializer.vd_date_of_measurement
         WeightSerializer.kw_date_of_measurement WeightSerializer.or_else].
    rewrite Hdate, Hd.
    destruct (convert_weight_to_kgs_and_lbs _ _) as [kg lb].
    do 2 eexists. split; [reflexivity|]. split; reflexivity.
  - intros d e weighin_type Hd He. unfold CreateWeighinAPIView.post.
    unfold WeightSerializer.is_valid, WeightSerializer.to_internal_value.
    rewrite Hd, He. reflexivity.
Qed.
End WeighinDate.

(** * Weigh-in type *)

Section WeighinType.
Context {U : Utils} {M : Managers} {L : PyLib} {R : Rendering}.

(** The unverified endpoint checks the type: once the declared fields
    pass, a missing or empty type and an unknown type are both refused
    with 400 and the message of [_validate_weigh_in_type]. *)
Lemma unverified_rejects_bad_type (st : Store) (user : User)
    (weighin_type : option pystr) (data : UnverifiedWeightSerializer.Data)
    (dw : Z * Q) :
  UnverifiedWeightSerializer.to_internal_value st data = Ok dw ->
  (opt_truthy weighin_type = false ->
   CreateUnverifiedWeighinAPIView.post st user weighin_type data
   = (ErrorResponse 400 (ValidationError (py "Weigh-in type is required")),
      st))
  /\ (forall t, weighin_type = Some t -> truthy t = true ->
        str_in t [py "self-reported"; py "verified"] = false ->
        CreateUnverifiedWeighinAPIView.post st user weighin_type data
        = (ErrorResponse 400 (ValidationError (py "Invalid weigh-in type")),
           st)).
Proof.
  intros Hfields.
  assert (Hw : exists w, UnverifiedWeightSerializer.in_weight data = Some w).
  { unfold UnverifiedWeightSerializer.to_internal_value in Hfields.
    repeat bind_inv Hfields.
    destruct (UnverifiedWeightSerializer.in_weight data);
      [eauto | discriminate]. }
  destruct Hw as [w Hw].
  unfold CreateUnverifiedWeighinAPIView.post,
    UnverifiedWeightSerializer.is_valid,
    UnverifiedWeightSerializer.validate,
    UnverifiedWeightSerializer._validate_weigh_in_type.
  rewrite Hfields, Hw. cbn [bind py_float]. split.
  - intros ->. reflexivity.
  - intros t -> Ht Hin. cbn [opt_truthy]. rewrite Ht, Hin. reflexivity.
Qed.

(** The weigh-in create view never looks at a type it does not know: with
    valid data it saves nothing and goes on to answer with the
    serializer's data. *)
Lemma weighin_create_unknown_type (today : Z) (st : Store) (user : User)
    (weighin_type : option pystr) (data : WeightSerializer.Data)
    (vd : WeightSerializer.Validated) :
  type_is weighin_type (py "self-reported") = false ->
  type_is weighin_type (py "verified") = false ->
  WeightSerializer.is_valid st user data = Ok vd ->
  CreateWeighinAPIView.post today st user weighin_type data
  = if renders_unsaved vd
    then (Response 200 (Unsaved vd), st)
    else (ErrorResponse 500 (Uncaught "AttributeError"), st).
Proof.
  intros H1 H2 Hvalid. unfold CreateWeighinAPIView.post.
  rewrite Hvalid. cbn [bind]. rewrite H1, H2.
  destruct (renders_unsaved vd); reflexivity.
Qed.
End WeighinType.

(** C4, on the code. The weigh-in create endpoint is sent a valid body
    with no weigh-in type, and with the unknown type ['weekly']: whatever
    the framework makes of the unsaved data, the answer is not a 4xx
    response, and nothing is stored. *)
Theorem weighin_create_accepts_bad_type (R : Rendering)
    (weighin_type : option pystr) :
  weighin_type = None \/ weighin_type = Some (py "weekly") ->
  exists reply,
    CreateWeighinAPIView.post (U := Sample.utils) 19000 Sample.store0
      Sample.alice weighin_type Sample.weighin_request
    = (reply, Sample.store0)
    /\ client_error (status_code reply) = false
    /\ (status_code reply = 200 \/ status_code reply = 500).
Proof.
  intros Htype.
  assert (Hpost := fun H1 H2 =>
    weighin_create_unknown_type (U := Sample.utils) 19000 Sample.store0
      Sample.alice weighin_type Sample.weighin_request _ H1 H2 eq_refl).
  rewrite Hpost by (destruct Htype as [-> | ->]; reflexivity).
  destruct (renders_unsaved _); eexists;
    (split; [reflexivity|]); split; (reflexivity || (now left) || (now right)).
Qed.

(** * Proof images *)

Section ProofImage.
Context {U : Utils} {M : Managers} {L : PyLib}.

(** Update checks the extension of a supplied image. *)
Lemma update_rejects_bad_extension (st : Store) (user : User)
    (data : UpdateWeightSerializer.Data)
    (attrs : UpdateWeightSerializer.Validated) (f : UploadedFile) (w : Q) :
  UpdateWeightSerializer.in_weight_image data = Some f ->
  truthy (file_name f) = true ->
  str_in (lower (strip (skipn 1 (snd (splitext (file_name f))))))
    [py "jpg"; py "jpeg"; py "png"] = false ->
  UpdateWeightSerializer.vd_weight attrs = Some w ->
  UpdateWeightSerializer.validate st user data attrs
  = Raise (ValidationError (py "Images must be in PNG or JPG or JPEG format")).
Proof.
  intros Hf Hname Hext Hw.
  unfold UpdateWeightSerializer.validate,
    UpdateWeightSerializer._image_has_correct_format.
  rewrite Hw, Hf. cbn [py_float bind]. rewrite Hname, Hext. reflexivity.
Qed.

(** The method written for the creation side has the same check. *)
Lemma get_weight_image_rejects_bad_extension (name : pystr)
    (file : option pystr) :
  truthy name = true ->
  str_in (lower (strip (skipn 1 (snd (splitext name)))))
    [py "jpg"; py "jpeg"; py "png"] = false ->
  UnverifiedWeightSerializer.get_weight_image (Some name) file
  = Raise (ValidationError
      (py "Images must be in PNG or JPG or JPEG format, and no larger than 10MB in size")).
Proof.
  intros Hname Hext. unfold UnverifiedWeightSerializer.get_weight_image.
  now rewrite Hname, Hext.
Qed.

(** But unverified intake never runs it: whatever image comes with data
    that pass validation is stored as the row's proof file. *)
Lemma unverified_stores_any_image (st : Store) (user : User)
    (weighin_type : option pystr) (data : UnverifiedWeightSerializer.Data)
    (vd : UnverifiedWeightSerializer.Validated) :
  UnverifiedWeightSerializer.is_valid st user weighin_type data = Ok vd ->
  exists delta w,
    CreateUnverifiedWeighinAPIView.post st user weighin_type data
    = (Response 200 delta, insert_row st w)
    /\ verifier_file w
       = option_map file_name
           (UnverifiedWeightSerializer.in_weight_image data).
Proof.
  intros Hvalid. unfold CreateUnverifiedWeighinAPIView.post.
  rewrite Hvalid. cbn [bind dispatch].
  unfold UnverifiedWeightSerializer.save.
  destruct (convert_weight_to_kgs_and_lbs _ _) as [kg lb]. cbn [fst snd].
  match goal with
  | |- context [UnverifiedWeightSerializer.to_representation ?s ?u ?d] =>
      destruct (to_representation_total s u d) as [delta ->]
  end.
  cbn [bind dispatch]. do 2 eexists. split; reflexivity.
Qed.
End ProofImage.

(** C5, on the code. An unverified weigh-in is created with the image
    [proof.gif]: the request is answered 200 and the new row carries the
    GIF as its proof file, although the extension is outside jpg, jpeg
    and png (the same file name is refused by the check of the update
    serializer and by [get_weight_image]). *)
Theorem unverified_create_stores_gif :
  (exists delta w,
     CreateUnverifiedWeighinAPIView.post (U := Sample.utils)
       (M := Sample.managers) Sample.store0 Sample.alice
       (Some (py "self-reported")) Sample.unverified_request_gif
     = (Response 200 delta, insert_row Sample.store0 w)
     /\ verifier_file w = Some (py "proof.gif"))
  /\ str_in
       (lower (PyLib := Sample.pylib)
          (strip (skipn 1 (snd (splitext (py "proof.gif"))))))
       [py "jpg"; py "jpeg"; py "png"] = false
  /\ UpdateWeightSerializer._image_has_correct_format (L := Sample.pylib)
       (UnverifiedWeightSerializer.in_weight_image
          Sample.unverified_request_gif)
     = Raise (ValidationError
                (py "Images must be in PNG or JPG or JPEG format")).
Proof.
  split; [|split; reflexivity].
  destruct (unverified_stores_any_image (U := Sample.utils)
              (M := Sample.managers) Sample.store0 Sample.alice
              (Some (py "self-reported")) Sample.unverified_request_gif
              _ eq_refl) as (delta & w & Hpost & Hfile).
  exists delta, w. split; [exact Hpost | exact Hfile].
Qed.

Section UploadSigning.
Import ApiSignS3PutRequestViewSerializer SigningFacts.
Context {C : Settings} {U : Utils} {L : PyLib} {Laws : PyLibLaws L}.

(** What a [CharField] lets through is trimmed and not blank. *)
Lemma CharField_trimmed (max_length : option Z) (o : option pystr)
    (v : pystr) :
  CharField max_length o = Ok (Some v) -> strip v = v /\ v <> [].
Proof.
  unfold CharField. destruct o as [s|]; [|discriminate].
  destruct (truthy (strip s)) eqn:Et; [|discriminate].
  intros H.
  assert (E : v = strip s).
  { destruct max_length as [n|]; [destruct (n <? _); [discriminate|]|];
      now injection H. }
  subst v. split; [apply strip_with_idem|].
  intros E. now rewrite E in Et.
Qed.

Lemma CharField_Some (max_length : option Z) (o : option pystr) (v : pystr) :
  CharField max_length o = Ok (Some v) ->
  exists s, o = Some s /\ v = strip s /\ v <> [].
Proof.
  intros H. pose proof (CharField_trimmed _ _ _ H) as [_ Hne].
  unfold CharField in H. destruct o as [s|]; [|discriminate].
  exists s. split; [reflexivity|]. split; [|exact Hne].
  destruct (truthy (strip s)); [|discriminate].
  destruct max_length as [n|]; [destruct (n <? _); [discriminate|]|];
    now injection H.
Qed.

Lemma CharField_None (max_length : option Z) (o : option pystr) :
  CharField max_length o = Ok None -> o = None.
Proof.
  unfold CharField. destruct o as [s|]; [|reflexivity].
  destruct (truthy (strip s)); [|discriminate].
  destruct max_length as [n|]; [destruct (n <? _)|]; discriminate.
Qed.

(** A request that passes validation carries the requesting user and a
    trimmed file name. *)
Lemma sign_is_valid_inv (st : Store) (user : User) (data : Data)
    (vd : Validated) :
  is_valid st user data = Ok vd ->
  vd_user vd = user
  /\ strip (vd_video_filename vd) = vd_video_filename vd.
Proof.
  unfold is_valid. intros H. bind_inv H.
  assert (Htrim : strip (a_video_filename a) = a_video_filename a).
  { unfold to_internal_value in Ha. repeat bind_inv Ha.
    injection Ha as <-. cbn.
    match goal with
    | Hc : CharField (Some 1000) _ = Ok ?o, Hp : present ?o = Ok _ |- _ =>
        destruct o as [name|]; [|discriminate Hp];
        injection Hp as <-; now apply CharField_trimmed in Hc
    end. }
  unfold validate in H. repeat bind_inv H. injection H as <-.
  now split.
Qed.

(** The file name that reaches [create] is the one of the request with
    its surrounding white space trimmed. *)
Lemma sign_is_valid_name (st : Store) (user : User) (data : Data)
    (vd : Validated) :
  is_valid st user data = Ok vd ->
  exists raw,
    in_video_filename data = Some raw /\ vd_video_filename vd = strip raw.
Proof.
  unfold is_valid. intros H. bind_inv H.
  assert (Hname : exists raw, in_video_filename data = Some raw
                              /\ a_video_filename a = strip raw).
  { unfold to_internal_value in Ha. repeat bind_inv Ha.
    injection Ha as <-. cbn.
    match goal with
    | Hc : CharField (Some 1000) _ = Ok ?o, Hp : present ?o = Ok _ |- _ =>
        destruct o as [name|]; [|discriminate Hp];
        injection Hp as <-;
        apply CharField_Some in Hc as (raw & Hraw & Hstrip & _);
        apply some_eq_inv in Hraw; subst raw
    end.
    match goal with
    | Hf : present (in_video_filename data) = Ok _ |- _ =>
        destruct (in_video_filename data) as [f|]; [|discriminate Hf];
        apply Ok_eq_inv in Hf; subst f
    end.
    eauto. }
  unfold validate in H. repeat bind_inv H. injection H as <-.
  exact Hname.
Qed.

(** C6. For every valid upload-signing request the view answers
    200 with an object key made of the SHA-1 hex digest of the expiry, a
    dash, the requesting user's code, a dash, the base64 encoding of the
    stem of the file name and then its extension, where the file name is
    the one of the request with its surrounding white space trimmed; the
    signature is the HMAC-SHA1 digest, keyed by the secret, of the
    returned base64 policy; and a second valid request of the same user
    at the same time gets the same key exactly when its file name is the
    same after trimming: names that differ after trimming get different
    keys, names that differ only in surrounding white space share one. *)
Theorem sign_key_and_signature (st : Store) (user : User) (t : Q) (now : Z)
    (data : Data) (vd : Validated) :
  encodable S3_SECRET_KEY ->
  is_valid st user data = Ok vd ->
  encodable (vd_video_filename vd) ->
  exists raw r stem seed secret doc,
    in_video_filename data = Some raw
    /\ vd_video_filename vd = strip raw
    /\ ApiSignS3PutRequestView.get t now st user data = (Response 200 r, st)
    /\ utf8_encode (fst (splitext (strip raw))) = Some stem
    /\ utf8_encode (str_of_int (expires_of t)) = Some seed
    /\ utf8_encode S3_SECRET_KEY = Some secret
    /\ utf8_encode (json_dumps (policy_document_of now (key r))) = Some doc
    /\ key r = sha1_hexdigest seed ++ [dash] ++ special_code user ++ [dash]
               ++ b64encode stem ++ snd (splitext (strip raw))
    /\ policy r = b64encode doc
    /\ signature r
       = bytes_strip (encodestring (hmac_sha1_digest secret (policy r)))
    /\ forall data' vd' raw' r',
         is_valid st user data' = Ok vd' ->
         in_video_filename data' = Some raw' ->
         encodable (strip raw') ->
         ApiSignS3PutRequestView.get t now st user data' = (Response 200 r', st) ->
         (key r' = key r <-> strip raw' = strip raw).
Proof.
  intros Hsecret Hvalid Hname.
  destruct (sign_is_valid_inv _ _ _ _ Hvalid) as [Huser Htrim].
  destruct (sign_is_valid_name _ _ _ _ Hvalid) as (raw & Hraw & Hstrip).
  destruct (create_Ok t now vd Hsecret Htrim Hname)
    as (r & stem & seed & secret & doc & Hcreate & Hstem & Hbytes & Hseed
        & Hsec & Hdoc & Hkey & Hpol & Hsig).
  rewrite Huser in Hkey. rewrite Hstrip in Hstem, Hkey.
  exists raw, r, stem, seed, secret, doc.
  split; [exact Hraw|]. split; [exact Hstrip|].
  split.
  { unfold ApiSignS3PutRequestView.get. rewrite Hvalid. cbn [bind].
    rewrite Hcreate. reflexivity. }
  split; [exact Hstem|]. split; [exact Hseed|]. split; [exact Hsec|].
  split; [exact Hdoc|]. split; [exact Hkey|]. split; [exact Hpol|].
  split; [now rewrite Hpol|].
  intros data' vd' raw' r' Hvalid' Hraw' Hname' Hget'.
  destruct (sign_is_valid_inv _ _ _ _ Hvalid') as [Huser' Htrim'].
  destruct (sign_is_valid_name _ _ _ _ Hvalid') as (raw2 & Hraw2 & Hstrip').
  rewrite Hraw' in Hraw2. apply some_eq_inv in Hraw2. subst raw2.
  rewrite <- Hstrip' in Hname'.
  destruct (create_Ok t now vd' Hsecret Htrim' Hname')
    as (r2 & stem' & seed' & _ & _ & Hcreate' & Hstem' & Hbytes' & Hseed'
        & _ & _ & Hkey' & _).
  unfold ApiSignS3PutRequestView.get in Hget'.
  rewrite Hvalid' in Hget'. cbn [bind] in Hget'.
  rewrite Hcreate' in Hget'. cbn in Hget'.
  injection Hget' as <-.
  rewrite Huser' in Hkey'. rewrite Hstrip' in Hstem', Hkey'.
  assert (seed' = seed) as -> by congruence.
  rewrite Hkey, Hkey'.
  split.
  - intros Heq.
    do 4 apply app_inv_head in Heq.
    assert (Hshape : forall f : pystr,
               snd (splitext f) = [] \/ exists x, snd (splitext f) = dot :: x).
    { intros f. destruct (splitext_ext f) as [E | (e & E & _)]; eauto. }
    apply stem_ext_unique in Heq as [Hb64 Hext];
      [| now apply b64encode_no_space | now apply b64encode_no_space
       | apply Hshape | apply Hshape].
    apply b64encode_inj in Hb64; [|assumption|assumption]. subst stem'.
    rewrite <- (splitext_app (strip raw')), <- (splitext_app (strip raw)).
    f_equal; [|exact Hext].
    eapply utf8_encode_inj; eauto.
  - intros Heq. rewrite Heq in Hstem', Hkey' |- *.
    assert (stem' = stem) as -> by congruence.
    reflexivity.
Qed.
End UploadSigning.

Section UploadPolicy.
Import ApiSignS3PutRequestViewSerializer SigningFacts.
Context {C : Settings} {U : Utils} {L : PyLib} {Laws : PyLibLaws L}.


End UploadPolicy.

(** * Device data: thousands separators *)

Section ValueFormat.
Import WeightDeviceDataSerializer.

Lemma py_String (a : ascii) (s : string) :
  py (String a s) = Z.of_N (N_of_ascii a) :: py s.
Proof. reflexivity. Qed.

Lemma string_of_uint_digits (d : Decimal.uint) :
  Forall is_digit (py (NilEmpty.string_of_uint d)).
Proof.
  induction d; cbn [NilEmpty.string_of_uint];
    [constructor | rewrite py_String; constructor; [unfold is_digit; cbn; lia | assumption] ..].
Qed.

(** The decimal form of an integer: an optional minus sign, then at least
    one digit. *)
Lemma str_of_int_shape (n : Z) :
  exists sign c digits,
    str_of_int n = sign ++ c :: digits
    /\ (sign = [] \/ sign = [minus])
    /\ Forall is_digit (c :: digits).
Proof.
  unfold str_of_int.
  assert (Hu : forall d, exists c digits,
             py (NilZero.string_of_uint d) = c :: digits
             /\ Forall is_digit (c :: digits)).
  { intros d. pose proof (string_of_uint_digits d) as Hd.
    destruct d; cbn [NilZero.string_of_uint NilEmpty.string_of_uint] in *;
      try rewrite py_String in *;
      [exists 48, []; split; [reflexivity | repeat constructor; unfold is_digit; lia]
      | eexists _, _; split; [reflexivity | exact Hd] ..]. }
  destruct (Z.to_int n) as [d | d]; cbn [NilZero.string_of_int];
    destruct (Hu d) as (c & digits & E & Hd).
  - exists [], c, digits. rewrite E. auto.
  - exists [minus], c, digits. rewrite py_String, E. cbn.
    split; [reflexivity | auto].
Qed.

(** Grouping keeps the digits in order, one to three in the leading
    group and three in each of the others. *)
Lemma group_thousands_groups (l : list Z) :
  l <> [] ->
  exists first rest,
    rev l = first ++ List.concat rest
    /\ rev (group_thousands l) = first ++ List.concat (map (cons comma) rest)
    /\ (1 <= List.length first <= 3)%nat
    /\ Forall (fun g => List.length g = 3%nat) rest.
Proof.
  induction l as [|a|a b|a b c r IH] using list_ind3; intros Hne.
  - contradiction.
  - exists [a], []. cbn. repeat split; auto.
  - exists [b; a], []. cbn. repeat split; auto.
  - destruct r as [|d r].
    + exists [c; b; a], []. cbn. repeat split; auto.
    + destruct IH as (first & rest & Hrev & Hgroup & Hfirst & Hrest);
        [discriminate|].
      exists first, (rest ++ [[c; b; a]]).
      change (group_thousands (a :: b :: c :: d :: r))
        with (a :: b :: c :: comma :: group_thousands (d :: r)).
      change (rev (a :: b :: c :: comma :: group_thousands (d :: r)))
        with ((((rev (group_thousands (d :: r)) ++ [comma]) ++ [c]) ++ [b])
              ++ [a]).
      change (rev (a :: b :: c :: d :: r))
        with (((rev (d :: r) ++ [c]) ++ [b]) ++ [a]).
      rewrite Hrev, Hgroup, map_app, !concat_app. cbn [map List.concat].
      rewrite <- !app_assoc. cbn [app].
      split; [reflexivity|]. split; [reflexivity|]. split; [exact Hfirst|].
      apply Forall_app. split; [exact Hrest | now repeat constructor].
Qed.

(** X1. [get_value_format] writes the integer part of the value as its
    decimal form with a comma before every group of three digits counted
    from the right: an optional minus sign, a leading group of one to
    three digits, then groups of exactly three digits, each after a
    comma; dropping the commas gives the plain decimal form back. *)
Theorem value_format_groups_of_three (v : Q) :
  exists sign first rest,
    str_of_int (py_int v) = sign ++ first ++ List.concat rest
    /\ get_value_format v = sign ++ first ++ List.concat (map (cons comma) rest)
    /\ (sign = [] \/ sign = [minus])
    /\ (1 <= List.length first <= 3)%nat
    /\ Forall (fun g => List.length g = 3%nat) rest
    /\ Forall is_digit (first ++ List.concat rest)
    /\ filter (fun c => negb (c =? comma)) (get_value_format v)
       = str_of_int (py_int v).
Proof.
  unfold get_value_format, format_thousands.
  destruct (str_of_int_shape (py_int v))
    as (sign & c & digits & E & Hsign & Hdigits).
  assert (Hc : (c =? minus) = false).
  { apply Forall_inv in Hdigits. unfold is_digit, minus in *. lia. }
  assert (Hplain : forall l, Forall is_digit l ->
                   filter (fun c => negb (c =? comma)) l = l).
  { intros l Hl. apply forallb_filter_id, forallb_forall.
    intros x Hx. rewrite Forall_forall in Hl. specialize (Hl x Hx).
    unfold is_digit, comma in *. lia. }
  assert (Hgroups : forall l, Forall is_digit l -> l <> [] ->
            exists first rest,
              l = first ++ List.concat rest
              /\ rev (group_thousands (rev l))
                 = first ++ List.concat (map (cons comma) rest)
              /\ (1 <= List.length first <= 3)%nat
              /\ Forall (fun g => List.length g = 3%nat) rest
              /\ filter (fun c => negb (c =? comma))
                   (rev (group_thousands (rev l))) = l).
  { intros l Hl Hne.
    destruct (group_thousands_groups (rev l))
      as (first & rest & Hrev & Hgroup & Hfirst & Hrest).
    { intros E'. apply Hne. apply (f_equal (@rev Z)) in E'.
      now rewrite rev_involutive in E'. }
    rewrite rev_involutive in Hrev.
    exists first, rest. repeat split; try assumption; try lia.
    rewrite Hgroup, filter_app.
    assert (Hf : Forall is_digit first /\ Forall is_digit (List.concat rest)).
    { apply Forall_app. now rewrite <- Hrev. }
    destruct Hf as [Hf Hr]. rewrite (Hplain _ Hf), Hrev. f_equal.
    clear - Hr Hplain. induction rest as [|g rest IH]; [reflexivity|].
    cbn [map List.concat] in *. apply Forall_app in Hr as [Hg Hr].
    cbn [app filter]. change (comma =? comma) with true. cbn [negb].
    rewrite filter_app, (Hplain _ Hg), IH; auto. }
  destruct (Hgroups (c :: digits) Hdigits ltac:(discriminate))
    as (first & rest & Hl & Hgroup & Hfirst & Hrest & Hfilter).
  exists sign, first, rest.
  assert (Hall : Forall is_digit (first ++ List.concat rest))
    by (now rewrite <- Hl).
  destruct Hsign as [-> | ->]; cbn [app] in E; rewrite E.
  - rewrite Hc. cbn [app].
    split; [exact Hl|]. split; [exact Hgroup|]. split; [now left|].
    split; [exact Hfirst|]. split; [exact Hrest|].
    split; [exact Hall | exact Hfilter].
  - change (minus =? minus) with true. cbv iota.
    split; [now rewrite <- Hl|].
    split; [cbn [app]; now rewrite Hgroup|]. split; [now right|].
    split; [exact Hfirst|]. split; [exact Hrest|].
    split; [exact Hall|].
    cbn [filter]. change (negb (minus =? comma)) with true. cbv iota.
    now rewrite Hfilter.
Qed.
End ValueFormat.

(** * More on the delta report *)

Section DeltaReportEdges.
Import UnverifiedWeightSerializer.
Context {M : Managers}.

(** The weight of a row in the user's unit. *)
Let in_unit (user : User) (m : Weight) : Q :=
  if str_eqb (weight_unit user) (py "kg")
  then weight_kilograms m else weight_in_pounds m.

(** With at most one measurement found the report is the first-entry
    one. *)
Lemma to_representation_first (st : Store) (user : User) (d : Z) :
  (List.length (before_date (weights st) user d) <= 1)%nat ->
  to_representation st user d
  = Ok {| first_entry := true; weight_difference := 0%Q;
          lost_weight := inr 0;
          delta_weight_unit := weight_unit user |}.
Proof.
  intros Hlen. unfold to_representation. rewrite order_by_length.
  destruct (Z.ltb_spec 1 (Z.of_nat (List.length
              (before_date (weights st) user d)))); [lia | reflexivity].
Qed.

(** With more than one, it compares the two heads of the rows found,
    ordered by ['-created']. *)
Lemma to_representation_multi (st : Store) (user : User) (d : Z) :
  (1 < List.length (before_date (weights st) user d))%nat ->
  exists new old rest,
    order_by by_created_desc (before_date (weights st) user d)
    = new :: old :: rest
    /\ to_representation st user d
       = Ok {| first_entry := false;
               weight_difference := Qabs (in_unit user old - in_unit user new);
               lost_weight :=
                 if Qle_bool 0 (in_unit user old - in_unit user new)
                 then inl (py "lost") else inl (py "gained");
               delta_weight_unit := weight_unit user |}.
Proof.
  intros Hlen. unfold to_representation, in_unit. rewrite order_by_length.
  destruct (Z.ltb_spec 1 (Z.of_nat (List.length
              (before_date (weights st) user d)))) as [_ | Hge]; [|lia].
  destruct (order_by by_created_desc _) as [|new [|old rest]] eqn:Eo;
    try (apply (f_equal (@List.length Weight)) in Eo;
         rewrite order_by_length in Eo; cbn in Eo; lia).
  exists new, old, rest. split; [reflexivity|].
  destruct (str_eqb (weight_unit user) (py "kg")); reflexivity.
Qed.

(** X2. The delta report never fails (the second row it indexes is always
    there); the difference it reports is never negative; it says
    first_entry exactly when at most one measurement is found, and then
    the difference is 0 and lost_weight is the integer 0; otherwise
    lost_weight is 'lost' or 'gained'; the unit is always the user's. *)
Theorem delta_report_shape (st : Store) (user : User) (d : Z) :
  exists r,
    to_representation st user d = Ok r
    /\ (0 <= weight_difference r)%Q
    /\ (first_entry r = true
        <-> (List.length (before_date (weights st) user d) <= 1)%nat)
    /\ (first_entry r = true ->
        weight_difference r = 0%Q /\ lost_weight r = inr 0)
    /\ (first_entry r = false ->
        lost_weight r = inl (py "lost") \/ lost_weight r = inl (py "gained"))
    /\ delta_weight_unit r = weight_unit user.
Proof.
  destruct (Nat.le_gt_cases (List.length (before_date (weights st) user d)) 1)
    as [Hle | Hgt].
  - eexists. split; [now apply to_representation_first|].
    cbn [weight_difference first_entry lost_weight delta_weight_unit].
    split; [discriminate|]. split; [tauto|]. split; [tauto|].
    split; [discriminate | reflexivity].
  - destruct (to_representation_multi st user d Hgt)
      as (new & old & rest & _ & ->).
    eexists. split; [reflexivity|].
    cbn [weight_difference first_entry lost_weight delta_weight_unit].
    split; [apply Qabs_nonneg|].
    split; [split; [discriminate | lia]|].
    split; [discriminate|]. split; [|reflexivity].
    intros _. destruct (Qle_bool 0 _); auto.
Qed.

(** X3. When more than one measurement is found, the report compares
    two of the rows found: [new], than which none of the rows found was
    created later, and [old], than which none of the others was created
    later. If the new weight (in the user's unit) is not above the old
    one the report says 'lost' with old minus new, so an unchanged weight
    is reported as 'lost' with 0; if it is above, the report says
    'gained' with new minus old. *)
Theorem delta_report_direction (st : Store) (user : User) (d : Z) :
  (1 < List.length (before_date (weights st) user d))%nat ->
  exists new old rest r,
    Permutation (new :: old :: rest) (before_date (weights st) user d)
    /\ Forall (fun x => created x <= created new) (old :: rest)
    /\ Forall (fun x => created x <= created old) rest
    /\ to_representation st user d = Ok r
    /\ ((in_unit user new <= in_unit user old)%Q ->
        lost_weight r = inl (py "lost")
        /\ (weight_difference r == in_unit user old - in_unit user new)%Q)
    /\ ((in_unit user new == in_unit user old)%Q ->
        lost_weight r = inl (py "lost") /\ (weight_difference r == 0)%Q)
    /\ ((in_unit user old < in_unit user new)%Q ->
        lost_weight r = inl (py "gained")
        /\ (weight_difference r == in_unit user new - in_unit user old)%Q).
Proof.
  intros Hlen.
  destruct (to_representation_multi st user d Hlen)
    as (new & old & rest & Horder & Hrep).
  destruct (order_by_created_heads _ _ _ _ Horder) as [Hnew Hold].
  exists new, old, rest. eexists.
  split; [rewrite <- Horder; apply order_by_perm|].
  split; [exact Hnew|]. split; [exact Hold|].
  split; [exact Hrep|]. cbn [lost_weight weight_difference].
  set (o := in_unit user old). set (n := in_unit user new).
  assert (Hlost : (n <= o)%Q -> Qle_bool 0 (o - n) = true
                                /\ (Qabs (o - n) == o - n)%Q).
  { intros H. assert (0 <= o - n)%Q by (unfold Qle, Qminus in *; cbn in *; lia).
    split; [now apply Qle_bool_iff | now apply Qabs_pos]. }
  split; [|split].
  - intros H. destruct (Hlost H) as [-> E]. now split.
  - intros H. destruct (Hlost ltac:(rewrite H; apply Qle_refl)) as [-> E].
    split; [reflexivity|]. rewrite E, H. unfold Qeq, Qminus. cbn. lia.
  - intros H.
    assert (Hneg : (o - n < 0)%Q) by (unfold Qlt, Qminus in *; cbn in *; lia).
    destruct (Qle_bool 0 (o - n)) eqn:E.
    + apply Qle_bool_iff in E. exfalso.
      now apply (Qlt_not_le _ _ Hneg).
    + split; [reflexivity|].
      rewrite Qabs_neg by now apply Qlt_le_weak.
      unfold Qeq, Qminus, Qopp. cbn. lia.
Qed.
End DeltaReportEdges.

(** * What intake stores *)

Lemma str_eqb_eq (a b : pystr) : str_eqb a b = true <-> a = b.
Proof.
  unfold str_eqb. destruct (list_eq_dec Z.eq_dec a b); split;
    congruence.
Qed.

Lemma type_is_eq (weighin_type : option pystr) (literal : pystr) :
  type_is weighin_type literal = true <-> weighin_type = Some literal.
Proof.
  destruct weighin_type as [t|]; cbn; [|split; discriminate].
  rewrite str_eqb_eq. split; congruence.
Qed.

Section IntakeStores.
Context {U : Utils} {M : Managers} {L : PyLib} {R : Rendering}.

(** A type that [_validate_weigh_in_type] lets through is one of the two
    known ones. *)
Lemma validate_weigh_in_type_known (weigh_in_type : option pystr) :
  UnverifiedWeightSerializer._validate_weigh_in_type weigh_in_type = Ok tt ->
  weigh_in_type = Some (py "self-reported")
  \/ weigh_in_type = Some (py "verified").
Proof.
  unfold UnverifiedWeightSerializer._validate_weigh_in_type.
  destruct weigh_in_type as [[|c t]|]; cbn [opt_truthy truthy negb];
    try discriminate.
  cbn [str_in existsb].
  destruct (str_eqb (c :: t) (py "self-reported")) eqn:E1;
    [apply str_eqb_eq in E1 as ->; auto|].
  destruct (str_eqb (c :: t) (py "verified")) eqn:E2;
    [apply str_eqb_eq in E2 as ->; auto | discriminate].
Qed.

(** X4. [_validate_weigh_in_type] lets exactly 'self-reported' and
    'verified' through; a missing or empty type raises "Weigh-in type is
    required" and any other text raises "Invalid weigh-in type". *)
Theorem validate_weigh_in_type_spec (weigh_in_type : option pystr) :
  (UnverifiedWeightSerializer._validate_weigh_in_type weigh_in_type = Ok tt
   <-> weigh_in_type = Some (py "self-reported")
       \/ weigh_in_type = Some (py "verified"))
  /\ (opt_truthy weigh_in_type = false ->
      UnverifiedWeightSerializer._validate_weigh_in_type weigh_in_type
      = Raise (ValidationError (py "Weigh-in type is required")))
  /\ (forall t, weigh_in_type = Some t -> t <> [] ->
        t <> py "self-reported" -> t <> py "verified" ->
        UnverifiedWeightSerializer._validate_weigh_in_type weigh_in_type
        = Raise (ValidationError (py "Invalid weigh-in type"))).
Proof.
  unfold UnverifiedWeightSerializer._validate_weigh_in_type.
  split; [|split].
  - destruct weigh_in_type as [[|c t]|]; cbn [opt_truthy truthy negb].
    + split; [discriminate | intros [H | H]; discriminate].
    + cbn [str_in existsb].
      destruct (str_eqb (c :: t) (py "self-reported")) eqn:E1.
      * apply str_eqb_eq in E1 as ->. split; auto.
      * destruct (str_eqb (c :: t) (py "verified")) eqn:E2.
        -- apply str_eqb_eq in E2 as ->. split; auto.
        -- split; [discriminate|].
           intros [H | H]; apply some_eq_inv in H;
             apply str_eqb_eq in H; congruence.
    + split; [discriminate | intros [H | H]; discriminate].
  - now intros ->.
  - intros t -> Hne H1 H2. destruct t as [|c t]; [contradiction|].
    cbn [opt_truthy truthy negb str_in existsb].
    destruct (str_eqb (c :: t) (py "self-reported")) eqn:E1;
      [apply str_eqb_eq in E1; contradiction|].
    destruct (str_eqb (c :: t) (py "verified")) eqn:E2;
      [apply str_eqb_eq in E2; contradiction|].
    reflexivity.
Qed.

(** X5. A request the unverified endpoint accepts leaves the stored
    measurements as they were with exactly one row appended, under the
    key that was next, and moves the next key on by one. The row is
    unverified, has method 'mobile', is owned by the requesting user, is
    dated as submitted, has the submitted image as its proof file and no
    competitors; this is so for the type 'verified' as well as for
    'self-reported', and no task is queued. *)
Theorem unverified_post_stores (st st' : Store) (user : User)
    (weighin_type : option pystr) (data : UnverifiedWeightSerializer.Data)
    (delta : UnverifiedWeightSerializer.Delta) :
  CreateUnverifiedWeighinAPIView.post st user weighin_type data
  = (Response 200 delta, st') ->
  exists w,
    weights st' = weights st ++ [w]
    /\ next_pk st' = next_pk st + 1
    /\ pk w = next_pk st
    /\ participant w = user_id user
    /\ verified w = false
    /\ method w = py "mobile"
    /\ UnverifiedWeightSerializer.in_date_of_measurement data
       = Some (date_of_measurement w)
    /\ verifier_file w
       = option_map file_name
           (UnverifiedWeightSerializer.in_weight_image data)
    /\ video_link w = None /\ competitors w = []
    /\ celery_queue st' = celery_queue st
    /\ (weighin_type = Some (py "self-reported")
        \/ weighin_type = Some (py "verified")).
Proof.
  unfold CreateUnverifiedWeighinAPIView.post. intros H.
  apply dispatch_Response in H. bind_inv_as H vd Hvalid.
  apply Ok_eq_inv in H. apply dispatch_Response in H.
  bind_inv_as H rep Hrep. apply Ok_eq_inv in H. injection H as _ <-.
  unfold UnverifiedWeightSerializer.is_valid in Hvalid.
  bind_inv_as Hvalid dw Hfields.
  unfold UnverifiedWeightSerializer.to_internal_value in Hfields.
  bind_inv_as Hfields date Hdate. bind_inv_as Hfields checked Hchecked.
  bind_inv_as Hfields weight Hweight. ok_inv. cbn [fst] in Hvalid.
  unfold UnverifiedWeightSerializer.validate in Hvalid.
  bind_inv_as Hvalid number Hnumber. bind_inv_as Hvalid typed Htyped.
  bind_inv_as Hvalid passed Hpassed. ok_inv.
  destruct typed.
  apply validate_weigh_in_type_known in Htyped.
  unfold UnverifiedWeightSerializer.save.
  cbn [UnverifiedWeightSerializer.vd_weight_unit
       UnverifiedWeightSerializer.vd_weight
       UnverifiedWeightSerializer.vd_date_of_measurement].
  destruct (convert_weight_to_kgs_and_lbs _ _) as [kg lb]. cbn [fst snd].
  eexists. split; [reflexivity|]. split; [reflexivity|].
  cbn [objects_create pk participant verified method date_of_measurement
       verifier_file video_link competitors].
  repeat (split; [reflexivity|]).
  split.
  { destruct (UnverifiedWeightSerializer.in_date_of_measurement data);
      [|discriminate]. cbn [present] in Hdate. now ok_inv. }
  repeat (split; [reflexivity|]). exact Htyped.
Qed.

(** X6. Whatever the weigh-in create endpoint saves is unverified and has
    method 'mobile': the [verified=True] and [method='web'] that the view
    passes to [save] for the type 'verified' are not used by [create].
    The stored measurements are as they were with that one row
    appended, under the key that was next, and the next key moves on by
    one; no task is queued. The row is owned by the requesting user, has
    no proof attached, and the type was one of the two known ones. *)
Theorem weighin_post_stores (today : Z) (st st' : Store) (user : User)
    (weighin_type : option pystr) (data : WeightSerializer.Data)
    (w : Weight) :
  CreateWeighinAPIView.post today st user weighin_type data
  = (Response 200 (Saved w), st') ->
  weights st' = weights st ++ [w]
  /\ next_pk st' = next_pk st + 1
  /\ celery_queue st' = celery_queue st
  /\ pk w = next_pk st
  /\ participant w = user_id user
  /\ verified w = false
  /\ method w = py "mobile"
  /\ verifier_file w = None /\ video_link w = None /\ competitors w = []
  /\ (weighin_type = Some (py "self-reported")
      \/ weighin_type = Some (py "verified")).
Proof.
  unfold CreateWeighinAPIView.post. intros H.
  apply dispatch_Response in H. bind_inv_as H vd Hvalid.
  assert (Hsave : forall kw ws,
            WeightSerializer.save st user vd kw = Ok ws ->
            weights (snd ws) = weights st ++ [fst ws]
            /\ next_pk (snd ws) = next_pk st + 1
            /\ celery_queue (snd ws) = celery_queue st
            /\ pk (fst ws) = next_pk st
            /\ participant (fst ws) = user_id user
            /\ verified (fst ws) = false
            /\ method (fst ws) = py "mobile"
            /\ verifier_file (fst ws) = None /\ video_link (fst ws) = None
            /\ competitors (fst ws) = []).
  { intros kw ws. unfold WeightSerializer.save, WeightSerializer.create.
    destruct (convert_weight_to_kgs_and_lbs _ _) as [kg lb].
    destruct (WeightSerializer.vd_date_of_measurement _); [|discriminate].
    intros E. apply Ok_eq_inv in E. subst ws. cbn. repeat split. }
  destruct (type_is weighin_type (py "self-reported")) eqn:E1.
  - bind_inv_as H ws Hws. apply Ok_eq_inv in H. injection H as <- <-.
    apply type_is_eq in E1. apply Hsave in Hws. intuition.
  - destruct (type_is weighin_type (py "verified")) eqn:E2.
    + bind_inv_as H ws Hws. apply Ok_eq_inv in H. injection H as <- <-.
      apply type_is_eq in E2. apply Hsave in Hws. intuition.
    + destruct (renders_unsaved vd); discriminate.
Qed.

(** X7. Missing entries on the weigh-in create endpoint are not
    validation errors. A body without a weight (its date, if any,
    accepted) makes [float(None)] raise: the answer is a server error and
    nothing is stored. A 'verified' request without a date passes
    validation and then fails on the missing key in [create], again with
    nothing stored. The unverified endpoint answers the same two bodies
    with 400 "This field is required." *)
Theorem weighin_post_missing_entries (today : Z) (st : Store) (user : User)
    (weighin_type : option pystr) (data : WeightSerializer.Data) :
  (forall d,
     WeightSerializer.in_weight data = None ->
     WeightSerializer.to_internal_value st data = Ok d ->
     CreateWeighinAPIView.post today st user weighin_type data
     = (ErrorResponse 500 (Uncaught "TypeError"), st))
  /\ (forall vd,
        WeightSerializer.in_date_of_measurement data = None ->
        WeightSerializer.is_valid st user data = Ok vd ->
        CreateWeighinAPIView.post today st user (Some (py "verified")) data
        = (ErrorResponse 500 (Uncaught "KeyError"), st))
  /\ (forall (body : UnverifiedWeightSerializer.Data),
        UnverifiedWeightSerializer.in_date_of_measurement body = None
        \/ (UnverifiedWeightSerializer.in_weight body = None
            /\ exists d checked,
                 UnverifiedWeightSerializer.in_date_of_measurement body
                 = Some d
                 /\ validate_date st d = Ok checked) ->
        CreateUnverifiedWeighinAPIView.post st user weighin_type body
        = (ErrorResponse 400
             (ValidationError (py "This field is required.")), st)).
Proof.
  split; [|split].
  - intros d Hw Hd. unfold CreateWeighinAPIView.post,
      WeightSerializer.is_valid, WeightSerializer.validate.
    rewrite Hd, Hw. reflexivity.
  - intros vd Hd Hvalid. unfold CreateWeighinAPIView.post.
    rewrite Hvalid. cbn [bind].
    destruct type_is_self_reported as (_ & -> & ->).
    destruct (weight_is_valid_date _ _ _ _ Hvalid) as [Hdate _].
    unfold WeightSerializer.save, WeightSerializer.create.
    cbn [WeightSerializer.merge WeightSerializer.vd_weight_unit
         WeightSerializer.vd_weight WeightSerializer.vd_date_of_measurement
         WeightSerializer.kw_date_of_measurement WeightSerializer.or_else].
    rewrite Hdate, Hd.
    destruct (convert_weight_to_kgs_and_lbs _ _) as [kg lb]. reflexivity.
  - intros body Hbody. unfold CreateUnverifiedWeighinAPIView.post,
      UnverifiedWeightSerializer.is_valid,
      UnverifiedWeightSerializer.to_internal_value.
    destruct Hbody as [Hd | (Hw & d & checked & Hd & Hv)];
      rewrite Hd; cbn [present bind]; [reflexivity|].
    rewrite Hv, Hw. reflexivity.
Qed.
End IntakeStores.

(** * What video verification stores *)

Section VideoStores.
Import VideoVerificationSerializer.
Context {C : Settings} {U : Utils}.

(** What [validate] hands to [create], read off the request. *)
Lemma video_is_valid_inv (st : Store) (user : User) (data : Data)
    (vd : Validated) :
  is_valid st user data = Ok vd ->
  vd_user vd = user
  /\ in_date data = Some (vd_date_of_measurement vd)
  /\ CharField (Some 500) (in_s3_file_url data) = Ok (vd_s3_file_url vd)
  /\ CharField (Some 500) (in_video_url data) = Ok (vd_video_url vd)
  /\ (exists ids, CharField (Some 100) (in_competitor_ids data) = Ok ids
                  /\ validate_competitor st ids = Ok (vd_competitors vd))
  /\ (in_platform data = None -> vd_platform vd = py "mobile")
  /\ (forall p, in_platform data = Some p -> vd_platform vd = strip p).
Proof.
  unfold is_valid. intros H. bind_inv_as H attrs Hattrs.
  unfold to_internal_value in Hattrs.
  bind_inv_as Hattrs weight Hweight. bind_inv_as Hattrs date Hdate.
  bind_inv_as Hattrs checked Hchecked. bind_inv_as Hattrs s3 Hs3.
  bind_inv_as Hattrs video Hvideo. bind_inv_as Hattrs ids Hids.
  bind_inv_as Hattrs platform Hplatform. ok_inv.
  unfold validate in H.
  cbn [a_weight a_date_of_measurement a_s3_file_url a_video_url
       a_competitor_ids a_platform] in H.
  bind_inv_as H cs Hcs. bind_inv_as H w Hw.
  destruct (_ && _); [discriminate|]. ok_inv.
  cbn [vd_user vd_date_of_measurement vd_s3_file_url vd_video_url
       vd_competitors vd_platform].
  split; [reflexivity|]. split.
  { destruct (in_date data); [|discriminate]. cbn [present] in Hdate.
    now ok_inv. }
  split; [exact Hs3|]. split; [exact Hvideo|]. split; [eauto|].
  split.
  - intros Hp. rewrite Hp in Hplatform. now ok_inv.
  - intros p Hp. rewrite Hp in Hplatform.
    bind_inv_as Hplatform trimmed Htrimmed.
    destruct trimmed as [v|]; [|discriminate].
    apply CharField_Some in Htrimmed as (s & E & -> & _).
    injection E as <-. cbn [present] in Hplatform. now ok_inv.
Qed.

(** The row that [create] returns. *)
Lemma create_fields (st : Store) (vd : Validated) :
  let m := fst (create st vd) in
  verified m = true
  /\ participant m = user_id (vd_user vd)
  /\ pk m = next_pk st
  /\ date_of_measurement m = vd_date_of_measurement vd
  /\ method m = vd_platform vd
  /\ verifier_file m
     = (if opt_truthy (vd_s3_file_url vd) then vd_s3_file_url vd else None)
  /\ video_link m
     = (if opt_truthy (vd_s3_file_url vd) then None else vd_video_url vd)
  /\ competitors m
     = map competitor_id (competitors_list (vd_competitors vd)).
Proof.
  unfold create.
  destruct (convert_weight_to_kgs_and_lbs _ _) as [kg lb].
  destruct (vd_competitors vd) as [[|c cs]|];
    cbn [competitors_truthy competitors_list];
    try destruct (existsb _ _);
    destruct (opt_truthy (vd_s3_file_url vd));
    cbn; repeat split.
Qed.

(** What [create] leaves in the store: the row it returns, in the place
    of the row it first wrote. *)
Lemma create_stored (st : Store) (vd : Validated) :
  let m := fst (create st vd) in
  let st' := snd (create st vd) in
  weights st'
  = map (fun r => if pk r =? next_pk st then m else r) (weights st) ++ [m]
  /\ next_pk st' = next_pk st + 1.
Proof.
  unfold create.
  destruct (convert_weight_to_kgs_and_lbs _ _) as [kg lb].
  destruct (vd_competitors vd) as [[|c cs]|];
    cbn [competitors_truthy competitors_list];
    try destruct (existsb _ _);
    destruct (opt_truthy (vd_s3_file_url vd));
    cbn [fst snd save_row insert_row enqueue weights next_pk pk set_proof
         competitors_add objects_create];
    rewrite map_app; cbn [map]; rewrite Z.eqb_refl; split; reflexivity.
Qed.

(** On a store whose keys are below the next one, replacing the row of
    the next key changes nothing. *)
Lemma map_replace_fresh (st : Store) (m : Weight) :
  keys_fresh st ->
  map (fun r => if pk r =? next_pk st then m else r) (weights st)
  = weights st.
Proof.
  intros [_ Hlt]. induction Hlt as [|r l Hr _ IH]; [reflexivity|].
  cbn [map]. rewrite IH.
  destruct (Z.eqb_spec (pk r) (next_pk st)); [lia | reflexivity].
Qed.

(** X8. A video verification that is answered 201 stores the measurement
    it answers with: the row is among the stored measurements, which
    are one more than before, the next key moves on by one, and on a
    store whose keys are unique and below the next key the stored
    measurements are the former ones with that row appended. The row is
    verified, owned by the requesting user, keyed by the key that was
    next, dated as submitted, and uses the submitted platform, trimmed,
    as its method ('mobile' when none is sent); it carries the ids of all
    validated competitors. A supplied file reference is stored (trimmed)
    as the proof file and then no video link is stored, even if one was
    sent too; without a file reference the (trimmed) video link is stored
    and there is no proof file. *)
Theorem video_post_stores (st st' : Store) (user : User) (data : Data)
    (m : Weight) :
  ApiVideoVerificationView.post st user data = (Response 201 m, st') ->
  In m (weights st')
  /\ List.length (weights st') = S (List.length (weights st))
  /\ next_pk st' = next_pk st + 1
  /\ (keys_fresh st -> weights st' = weights st ++ [m])
  /\ verified m = true
  /\ participant m = user_id user
  /\ pk m = next_pk st
  /\ in_date data = Some (date_of_measurement m)
  /\ (in_platform data = None -> method m = py "mobile")
  /\ (forall p, in_platform data = Some p -> method m = strip p)
  /\ (forall s, in_s3_file_url data = Some s ->
        verifier_file m = Some (strip s) /\ video_link m = None)
  /\ (in_s3_file_url data = None ->
        verifier_file m = None
        /\ exists v, in_video_url data = Some v
                     /\ video_link m = Some (strip v))
  /\ (exists ids cs,
        CharField (Some 100) (in_competitor_ids data) = Ok ids
        /\ validate_competitor st ids = Ok cs
        /\ competitors m = map competitor_id (competitors_list cs)).
Proof.
  unfold ApiVideoVerificationView.post. intros H.
  apply dispatch_Response in H. bind_inv_as H vd Hvalid.
  apply Ok_eq_inv in H. injection H as <- <-.
  destruct (create_stored st vd) as [Hrows Hnext]. cbv zeta in Hrows, Hnext.
  split; [rewrite Hrows; apply in_or_app; right; now left|].
  split; [rewrite Hrows, length_app, length_map; cbn; lia|].
  split; [exact Hnext|].
  split; [intros Hfresh; rewrite Hrows; f_equal;
          now apply map_replace_fresh|].
  clear Hrows Hnext.
  destruct (video_is_valid_inv _ _ _ _ Hvalid)
    as (Huser & Hdate & Hs3 & Hvideo & (ids & Hids & Hcs) & Hplatform
        & Hsent).
  destruct (video_is_valid_proof _ _ _ _ Hvalid) as [Hraw | Hraw].
  all: destruct (create_fields st vd)
         as (Hv & Hp & Hk & Hd & Hm & Hfile & Hlink & Hc).
  all: split; [exact Hv|]; split; [now rewrite Hp, Huser|];
       split; [exact Hk|]; split; [now rewrite Hd|];
       split; [intros Hn; rewrite Hm; now apply Hplatform|];
       split; [intros p Hsome; rewrite Hm; now apply Hsent|].
  all: split; [|split; [|exists ids, (vd_competitors vd); now repeat split]].
  - intros s Hs. rewrite Hs in Hs3.
    destruct (vd_s3_file_url vd) as [v|] eqn:Ev;
      [|apply CharField_None in Hs3; discriminate].
    apply CharField_Some in Hs3 as (s' & E & -> & Hne).
    injection E as <-. rewrite Hfile, Hlink.
    destruct (strip s); [contradiction | now split].
  - intros Hn. rewrite Hn in Hraw. discriminate.
  - intros s Hs. rewrite Hs in Hs3.
    destruct (vd_s3_file_url vd) as [v|] eqn:Ev;
      [|apply CharField_None in Hs3; discriminate].
    apply CharField_Some in Hs3 as (s' & E & -> & Hne).
    injection E as <-. rewrite Hfile, Hlink.
    destruct (strip s); [contradiction | now split].
  - intros Hn. rewrite Hn in Hs3. cbn in Hs3. apply Ok_eq_inv in Hs3.
    rewrite Hfile, Hlink, <- Hs3. cbn [opt_truthy].
    split; [reflexivity|].
    destruct (in_video_url data) as [v|]; [|discriminate].
    destruct (vd_video_url vd) as [v'|] eqn:Ev.
    + apply CharField_Some in Hvideo as (s' & E & -> & _).
      injection E as <-. now exists v.
    + exfalso. unfold CharField in Hvideo.
      destruct (truthy (strip v)); [|discriminate].
      destruct (500 <? _); discriminate.
Qed.
End VideoStores.
(** * What every handler keeps *)

(** Whatever a handler answers, the store it leaves has a property that
    the store it found has and that its successful runs keep. *)
Lemma dispatch_keeps {A : Type} (P : Store -> Prop) (st : Store)
    (h : result (Reply A * Store)) :
  P st -> (forall r s, h = Ok (r, s) -> P s) -> P (snd (dispatch st h)).
Proof.
  intros Hst Hok. destruct h as [[r s]|e]; cbn; [now apply (Hok r) | exact Hst].
Qed.


(** * Deleting, listing *)

Section DeleteAndList.
Context {U : Utils} {M : Managers} {L : PyLib}.

Lemma get_object_or_404_key (rows : list Weight) (key : Z) (obj : Weight) :
  get_object_or_404 rows key = Ok obj -> pk obj = key /\ In obj rows.
Proof.
  unfold get_object_or_404. destruct (find _ rows) as [r|] eqn:E;
    [|discriminate].
  intros H. apply Ok_eq_inv in H. subst r.
  apply find_some in E as [Hin E]. split; [now apply Z.eqb_eq | exact Hin].
Qed.

Lemma get_object_or_404_absent (rows : list Weight) (key : Z) :
  (forall r, In r rows -> pk r <> key) ->
  get_object_or_404 rows key = Raise Http404.
Proof.
  intros Hno. unfold get_object_or_404.
  destruct (find _ rows) as [r|] eqn:E; [|reflexivity].
  apply find_some in E as [Hin E]. apply Z.eqb_eq in E.
  now destruct (Hno r Hin).
Qed.

Lemma get_object_inv (rows : list Weight) (user : User) (key : Z)
    (obj : Weight) :
  get_object rows user key = Ok obj ->
  get_object_or_404 rows key = Ok obj.
Proof.
  unfold get_object. intros H. bind_inv_as H found Hfound.
  bind_inv_as H granted Hgranted. now ok_inv.
Qed.

(** With unique keys, dropping the rows of one key drops one row. *)
Lemma filter_key_length (rows : list Weight) (obj : Weight) :
  NoDup (map pk rows) -> In obj rows ->
  (List.length (filter (fun r => negb (pk r =? pk obj)%Z) rows) + 1
   = List.length rows)%nat.
Proof.
  induction rows as [|r rows IH]; [intros _ []|].
  cbn [map filter List.length]. intros Hnd Hin.
  apply NoDup_cons_iff in Hnd as [Hn Hnd].
  destruct (Z.eqb_spec (pk r) (pk obj)) as [E | Hne]; cbn [negb].
  - assert (Hall : filter (fun r0 => negb (pk r0 =? pk obj)) rows = rows).
    { apply forallb_filter_id, forallb_forall. intros x Hx.
      destruct (Z.eqb_spec (pk x) (pk obj)) as [E' | _]; [|reflexivity].
      exfalso. apply Hn. rewrite E, <- E'. now apply in_map. }
    rewrite Hall. lia.
  - destruct Hin as [-> | Hin]; [contradiction|].
    cbn [List.length]. rewrite <- (IH Hnd Hin). lia.
Qed.

(** X10. A delete that passes [get_object] answers 204 and removes the
    rows with the addressed key, leaving every other row, the next key
    and the task queue as they were: the key is 404 from then on, and
    when keys are unique exactly one row is gone. A delete of a key that
    no row has answers 404 and changes nothing. *)
Theorem delete_removes_the_row (st : Store) (user : User) (key : Z) :
  (forall obj,
     get_object (weights st) user key = Ok obj ->
     exists st',
       DeleteWeightAPIView.delete st user key = (Response 204 tt, st')
       /\ weights st' = filter (fun r => negb (pk r =? key)) (weights st)
       /\ get_object_or_404 (weights st') key = Raise Http404
       /\ (forall r, In r (weights st) -> pk r <> key -> In r (weights st'))
       /\ next_pk st' = next_pk st
       /\ celery_queue st' = celery_queue st
       /\ (keys_fresh st ->
           (List.length (weights st') + 1 = List.length (weights st))%nat))
  /\ (get_object_or_404 (weights st) key = Raise Http404 ->
      DeleteWeightAPIView.delete st user key
      = (ErrorResponse 404 Http404, st)).
Proof.
  split.
  - intros obj Hobj.
    destruct (get_object_or_404_key _ _ _ (get_object_inv _ _ _ _ Hobj))
      as [Hkey Hin].
    exists (delete_row st obj). unfold DeleteWeightAPIView.delete.
    rewrite Hobj. cbn [bind dispatch delete_row weights next_pk celery_queue].
    rewrite Hkey.
    split; [reflexivity|]. split; [reflexivity|]. split.
    { apply get_object_or_404_absent. intros r Hr.
      apply filter_In in Hr as [_ Hr].
      destruct (Z.eqb_spec (pk r) key); [discriminate | assumption]. }
    split.
    { intros r Hr Hne. apply filter_In. split; [exact Hr|].
      destruct (Z.eqb_spec (pk r) key); [contradiction | reflexivity]. }
    split; [reflexivity|]. split; [reflexivity|].
    intros [Hnd _]. rewrite <- Hkey. now apply filter_key_length.
  - intros H404. unfold DeleteWeightAPIView.delete, get_object.
    now rewrite H404.
Qed.

(** X11. Creating an unverified weigh-in and then deleting the row it
    created gives back the rows the store had, provided its keys were
    unique and below the next key; the task queue is as before, and the
    next key has moved on by one. *)
Theorem create_then_delete_restores (st st1 st2 : Store) (user : User)
    (weighin_type : option pystr) (data : UnverifiedWeightSerializer.Data)
    (delta : UnverifiedWeightSerializer.Delta) :
  keys_fresh st ->
  CreateUnverifiedWeighinAPIView.post st user weighin_type data
  = (Response 200 delta, st1) ->
  DeleteWeightAPIView.delete st1 user (next_pk st) = (Response 204 tt, st2) ->
  weights st2 = weights st
  /\ celery_queue st2 = celery_queue st
  /\ next_pk st2 = next_pk st + 1.
Proof.
  intros [_ Hlt] Hpost Hdelete.
  assert (Hst1 : exists w, st1 = insert_row st w /\ pk w = next_pk st).
  { unfold CreateUnverifiedWeighinAPIView.post in Hpost.
    apply dispatch_Response in Hpost. bind_inv_as Hpost vd Hvalid.
    apply Ok_eq_inv in Hpost. apply dispatch_Response in Hpost.
    bind_inv_as Hpost rep Hrep. apply Ok_eq_inv in Hpost.
    injection Hpost as _ <-. unfold UnverifiedWeightSerializer.save.
    destruct (convert_weight_to_kgs_and_lbs _ _) as [kg lb]. cbn [snd].
    eexists. split; reflexivity. }
  destruct Hst1 as (w & -> & Hw).
  unfold DeleteWeightAPIView.delete in Hdelete.
  apply dispatch_Response in Hdelete. bind_inv_as Hdelete obj Hobj.
  apply Ok_eq_inv in Hdelete. injection Hdelete as <-.
  destruct (get_object_or_404_key _ _ _ (get_object_inv _ _ _ _ Hobj))
    as [Hkey _].
  cbn [delete_row insert_row weights next_pk celery_queue].
  split; [|split; reflexivity].
  rewrite filter_app. cbn [filter]. rewrite Hkey, Hw, Z.eqb_refl.
  cbn [negb]. rewrite app_nil_r.
  apply forallb_filter_id, forallb_forall. intros r Hr.
  rewrite Forall_forall in Hlt. specialize (Hlt r Hr).
  destruct (Z.eqb_spec (pk r) (next_pk st)); [lia | reflexivity].
Qed.

Lemma by_date_modified_desc_spec (a b : Weight) :
  by_date_modified_desc a b = true
  <-> date_of_measurement b < date_of_measurement a
      \/ (date_of_measurement b = date_of_measurement a
          /\ modified b <= modified a).
Proof.
  unfold by_date_modified_desc.
  rewrite orb_true_iff, andb_true_iff, Z.ltb_lt, Z.eqb_eq, Z.leb_le.
  reflexivity.
Qed.

Lemma StronglySorted_impl {A : Type} (P Q : A -> A -> Prop) (l : list A) :
  (forall a b, P a b -> Q a b) -> StronglySorted P l -> StronglySorted Q l.
Proof.
  intros Himp. induction 1 as [|a l Hs IH Ha]; constructor; [exact IH|].
  eapply Forall_impl; [|exact Ha]. apply Himp.
Qed.

(** X12. The listing answers 200 without touching the store. It holds the
    rows of the [existing] manager whose participant is the requesting
    user, each as often as the manager has it, newest date first and,
    within a date, latest modification first. *)
Theorem listing_is_sorted_and_complete (st : Store) (user : User) :
  exists rows,
    RetrieveWeighinAPIView.get st user = (Response 200 rows, st)
    /\ Permutation rows
         (filter (fun w => participant w =? user_id user)
            (existing (weights st)))
    /\ StronglySorted
         (fun a b =>
            date_of_measurement b < date_of_measurement a
            \/ (date_of_measurement b = date_of_measurement a
                /\ modified b <= modified a)) rows.
Proof.
  exists (RetrieveWeighinAPIView.get_queryset st user).
  split; [reflexivity|]. unfold RetrieveWeighinAPIView.get_queryset.
  split; [apply order_by_perm|].
  apply StronglySorted_impl
    with (P := fun a b => by_date_modified_desc a b = true).
  { intros a b. apply by_date_modified_desc_spec. }
  apply order_by_sorted.
  - intros a b. rewrite !by_date_modified_desc_spec. lia.
  - intros a b c. rewrite !by_date_modified_desc_spec. lia.
Qed.
End DeleteAndList.

(** * Updating *)

Section Updating.
Import UpdateWeightSerializer.
Context {U : Utils} {L : PyLib}.

(** What the declared fields of an update let through. *)
Lemma update_fields_inv (st : Store) (partial : bool) (data : Data)
    (attrs : Validated) :
  to_internal_value st partial data = Ok attrs ->
  vd_date_of_measurement attrs = in_date_of_measurement data
  /\ vd_weight attrs = in_weight data
  /\ vd_remove_image attrs = in_remove_image data
  /\ (forall f, in_weight_image data = Some f ->
        truthy (file_name f) = true).
Proof.
  unfold to_internal_value. intros H.
  bind_inv_as H date Hdate. bind_inv_as H dated Hdated.
  bind_inv_as H weight Hweight. bind_inv_as H image Himage. ok_inv.
  cbn [vd_date_of_measurement vd_weight vd_remove_image].
  split.
  { destruct (in_date_of_measurement data), partial; cbn in Hdate;
      congruence. }
  split.
  { destruct (in_weight data), partial; cbn in Hweight; congruence. }
  split; [reflexivity|].
  intros f Hf. rewrite Hf in Himage. unfold FileField in Himage.
  destruct (truthy (file_name f)); [reflexivity | discriminate].
Qed.

(** X13. A successful update rewrites the addressed row and nothing
    else: key, owner, verification flag, method, video link, competitors
    and creation time stay, the date becomes the submitted one. A
    supplied image becomes the proof file, also when [remove_image] is
    set; without an image, [remove_image = true] clears the proof file
    and anything else keeps it. *)
Theorem update_rewrites_the_row (partial : bool) (st st' : Store)
    (user : User) (key : Z) (data : Data) (w : Weight) :
  UpdateWeight.update partial st user key data = (Response 200 w, st') ->
  exists obj,
    get_object_or_404 (weights st) key = Ok obj
    /\ pk w = pk obj /\ participant w = participant obj
    /\ verified w = verified obj /\ method w = method obj
    /\ video_link w = video_link obj /\ competitors w = competitors obj
    /\ created w = created obj
    /\ in_date_of_measurement data = Some (date_of_measurement w)
    /\ (forall f, in_weight_image data = Some f ->
          verifier_file w = Some (file_name f))
    /\ (in_weight_image data = None ->
          verifier_file w
          = match in_remove_image data with
            | Some true => None
            | _ => verifier_file obj
            end)
    /\ weights st' = map (fun r => if pk r =? key then w else r) (weights st)
    /\ next_pk st' = next_pk st
    /\ celery_queue st' = celery_queue st.
Proof.
  unfold UpdateWeight.update. intros H.
  apply dispatch_Response in H.
  bind_inv_as H obj Hobj. bind_inv_as H vd Hvalid.
  bind_inv_as H ws Hupdate. apply Ok_eq_inv in H. injection H as <- <-.
  pose proof (get_object_inv _ _ _ _ Hobj) as Hfound.
  destruct (get_object_or_404_key _ _ _ Hfound) as [Hkey _].
  unfold is_valid in Hvalid. bind_inv_as Hvalid attrs Hattrs.
  destruct (update_fields_inv _ _ _ _ Hattrs)
    as (Hdate & Hweight & Hremove & Hname).
  unfold validate in Hvalid.
  bind_inv_as Hvalid number Hnumber. bind_inv_as Hvalid format Hformat.
  bind_inv_as Hvalid checked Hchecked. ok_inv.
  unfold update in Hupdate.
  cbn [vd_weight vd_date_of_measurement vd_weight_unit vd_remove_image]
    in Hupdate.
  bind_inv_as Hupdate weight Hw.
  destruct (convert_weight_to_kgs_and_lbs _ _) as [kg lb].
  bind_inv_as Hupdate day Hday. ok_inv.
  exists obj. split; [exact Hfound|].
  cbn [fst snd set_measurement pk participant verified method video_link
       competitors created date_of_measurement verifier_file save_row
       weights next_pk celery_queue].
  repeat (split; [reflexivity|]).
  split.
  { rewrite <- Hdate. destruct (vd_date_of_measurement attrs);
      [|discriminate]. now ok_inv. }
  split.
  { intros f Hf. rewrite Hf. cbn [file_truthy option_map].
    now rewrite (Hname f Hf). }
  split.
  { intros Hn. rewrite Hn, Hremove. reflexivity. }
  split; [now rewrite Hkey|]. split; reflexivity.
Qed.

(** X14. Once the row is found, the requester may touch it and the
    declared fields pass: an update that submits a weight together with
    an image whose extension is outside jpg, jpeg and png (compared in
    lower case) is refused with 400 and the message of
    [_image_has_correct_format]; an update without a weight (a PATCH may
    omit it) fails before the image is looked at, on [float(None)], and
    is answered with a server error whatever the image. In both cases the
    store is unchanged. *)
Theorem update_rejects_unsupported_image (partial : bool) (st : Store)
    (user : User) (key : Z) (data : Data) (obj : Weight)
    (attrs : Validated) :
  get_object (weights st) user key = Ok obj ->
  to_internal_value st partial data = Ok attrs ->
  (forall f w,
     in_weight data = Some w ->
     in_weight_image data = Some f ->
     str_in (lower (strip (skipn 1 (snd (splitext (file_name f))))))
       [py "jpg"; py "jpeg"; py "png"] = false ->
     UpdateWeight.update partial st user key data
     = (ErrorResponse 400
          (ValidationError
             (py "Images must be in PNG or JPG or JPEG format")),
        st))
  /\ (in_weight data = None ->
      UpdateWeight.update partial st user key data
      = (ErrorResponse 500 (Uncaught "TypeError"), st)).
Proof.
  intros Hobj Hattrs.
  destruct (update_fields_inv _ _ _ _ Hattrs) as (_ & Hweight & _ & Hname).
  split.
  - intros f w Hw Hf Hext.
    unfold UpdateWeight.update, is_valid.
    rewrite Hobj, Hattrs. cbn [bind].
    rewrite (update_rejects_bad_extension st user data attrs f w Hf
               (Hname f Hf) Hext (eq_trans Hweight Hw)).
    reflexivity.
  - intros Hw.
    unfold UpdateWeight.update, is_valid.
    rewrite Hobj, Hattrs. cbn [bind].
    unfold validate. rewrite Hweight, Hw. reflexivity.
Qed.
End Updating.

(** * Tasks *)

Section Tasks.
Context {C : Settings} {U : Utils} {M : Managers} {L : PyLib} {R : Rendering}.

(** X15. Only video verification queues a task. Intake, unverified
    intake, update, delete, listing and signing leave the task queue as
    it was, whatever they answer; a video verification leaves it as it
    was or adds the one task for the measurement it created. *)
Theorem only_video_verification_queues (st : Store) (user : User) :
  (forall today weighin_type data,
     celery_queue
       (snd (CreateWeighinAPIView.post today st user weighin_type data))
     = celery_queue st)
  /\ (forall weighin_type data,
        celery_queue
          (snd (CreateUnverifiedWeighinAPIView.post st user weighin_type data))
        = celery_queue st)
  /\ (forall partial key data,
        celery_queue (snd (UpdateWeight.update partial st user key data))
        = celery_queue st)
  /\ (forall key,
        celery_queue (snd (DeleteWeightAPIView.delete st user key))
        = celery_queue st)
  /\ celery_queue (snd (RetrieveWeighinAPIView.get st user))
     = celery_queue st
  /\ (forall time_time now data,
        celery_queue
          (snd (ApiSignS3PutRequestView.get time_time now st user data))
        = celery_queue st)
  /\ (forall data,
        celery_queue (snd (ApiVideoVerificationView.post st user data))
        = celery_queue st
        \/ celery_queue (snd (ApiVideoVerificationView.post st user data))
           = celery_queue st ++ [next_pk st]).
Proof.
  split; [|split; [|split; [|split; [|split; [|split]]]]].
  - intros today weighin_type data. unfold CreateWeighinAPIView.post.
    apply dispatch_keeps with (P := fun s => celery_queue s = celery_queue st);
      [reflexivity|]. intros r s H.
    bind_inv_as H vd Hvalid.
    assert (Hsave : forall kw ws,
              WeightSerializer.save st user vd kw = Ok ws ->
              celery_queue (snd ws) = celery_queue st).
    { intros kw ws. unfold WeightSerializer.save, WeightSerializer.create.
      destruct (convert_weight_to_kgs_and_lbs _ _) as [kg lb].
      destruct (WeightSerializer.vd_date_of_measurement _); [|discriminate].
      intros E. apply Ok_eq_inv in E. now subst ws. }
    destruct (type_is weighin_type (py "self-reported")).
    + bind_inv_as H ws Hws. apply Ok_eq_inv in H. injection H as _ <-.
      eapply Hsave; eauto.
    + destruct (type_is weighin_type (py "verified")).
      * bind_inv_as H ws Hws. apply Ok_eq_inv in H. injection H as _ <-.
        eapply Hsave; eauto.
      * destruct (renders_unsaved vd); [|discriminate].
        apply Ok_eq_inv in H. now injection H as _ <-.
  - intros weighin_type data. unfold CreateUnverifiedWeighinAPIView.post.
    apply dispatch_keeps with (P := fun s => celery_queue s = celery_queue st);
      [reflexivity|]. intros r s H.
    bind_inv_as H vd Hvalid. apply Ok_eq_inv in H.
    apply (f_equal snd) in H. cbn [snd] in H. rewrite <- H.
    apply dispatch_keeps with (P := fun s => celery_queue s = celery_queue st).
    + unfold UnverifiedWeightSerializer.save.
      now destruct (convert_weight_to_kgs_and_lbs _ _).
    + intros r' s' H'. bind_inv_as H' rep Hrep. apply Ok_eq_inv in H'.
      injection H' as _ <-. unfold UnverifiedWeightSerializer.save.
      now destruct (convert_weight_to_kgs_and_lbs _ _).
  - intros partial key data. unfold UpdateWeight.update.
    apply dispatch_keeps with (P := fun s => celery_queue s = celery_queue st);
      [reflexivity|]. intros r s H.
    bind_inv_as H obj Hobj. bind_inv_as H vd Hvalid.
    bind_inv_as H ws Hws. apply Ok_eq_inv in H. injection H as _ <-.
    unfold UpdateWeightSerializer.update in Hws.
    bind_inv_as Hws weight Hweight.
    destruct (convert_weight_to_kgs_and_lbs _ _) as [kg lb].
    bind_inv_as Hws day Hday. apply Ok_eq_inv in Hws. now subst ws.
  - intros key. unfold DeleteWeightAPIView.delete.
    apply dispatch_keeps with (P := fun s => celery_queue s = celery_queue st);
      [reflexivity|]. intros r s H.
    bind_inv_as H obj Hobj. apply Ok_eq_inv in H. now injection H as _ <-.
  - reflexivity.
  - intros time_time now data. unfold ApiSignS3PutRequestView.get.
    apply dispatch_keeps with (P := fun s => celery_queue s = celery_queue st);
      [reflexivity|]. intros r s H.
    bind_inv_as H vd Hvalid. bind_inv_as H ctx Hctx.
    apply Ok_eq_inv in H. now injection H as _ <-.
  - intros data. unfold ApiVideoVerificationView.post.
    apply dispatch_keeps
      with (P := fun s => celery_queue s = celery_queue st
                          \/ celery_queue s = celery_queue st ++ [next_pk st]);
      [now left|]. intros r s H.
    bind_inv_as H vd Hvalid. apply Ok_eq_inv in H. injection H as _ <-.
    rewrite create_queue.
    destruct (_ && _); [right | now left].
    f_equal. f_equal.
    now destruct (create_fields st vd) as (_ & _ & -> & _).
Qed.
End Tasks.

(** * More on upload signing *)

Section SigningAnswer.
Import ApiSignS3PutRequestViewSerializer SigningFacts.
Context {C : Settings} {U : Utils} {L : PyLib} {Laws : PyLibLaws L}.

(** The answer of [create], field by field. *)
Lemma create_value (t : Q) (now : Z) (vd : Validated) :
  encodable S3_SECRET_KEY ->
  strip (vd_video_filename vd) = vd_video_filename vd ->
  encodable (vd_video_filename vd) ->
  exists object_name policy_bytes signature_bytes,
    create t now vd
    = Ok {| bucket_url :=
              py "https://" ++ S3_BUCKET_NAME ++ py ".s3.amazonaws.com/";
            s3_file_url :=
              py "https://" ++ S3_BUCKET_NAME ++ py ".s3.amazonaws.com/"
              ++ object_name;
            key := object_name;
            policy := policy_bytes;
            signature := signature_bytes;
            AWSAccessKeyId := S3_ACCESS_KEY;
            acl := py "public-read";
            success_action_status := 201;
            content_type := [] |}.
Proof.
  intros Hsecret Htrim Hname.
  destruct (encoded_file_name_Ok _ Hname) as (stem & Hstem & Hbytes & Hfile).
  destruct (object_name_of_Ok t (vd_user vd)
              (b64encode stem ++ snd (splitext (vd_video_filename vd))))
    as (seed & Hseed & Hobj).
  set (object_name :=
         sha1_hexdigest seed ++ [dash] ++ special_code (vd_user vd)
         ++ [dash] ++ b64encode stem
         ++ snd (splitext (vd_video_filename vd))) in *.
  destruct (encode_utf8_encodable
              (json_dumps (policy_document_of now object_name)))
    as (doc & Hdoc & Hdocb); [apply ascii_encodable, json_dumps_ascii|].
  destruct (encode_utf8_encodable _ Hsecret) as (secret & Hsec & _).
  assert (Hkey : strip object_name = object_name)
    by (now apply strip_object_name).
  exists object_name. do 2 eexists.
  unfold create. rewrite Hfile. cbn [bind]. rewrite Hobj. cbn [bind].
  rewrite Hdoc. cbn [bind]. rewrite Hsec. cbn [bind]. rewrite Hkey.
  reflexivity.
Qed.

(** X16. Signing never writes: whatever the request, the store is left as
    it was. For a valid request the answer is 200 and its fields fit
    together: the bucket URL is https://BUCKET.s3.amazonaws.com/, the
    file URL is the bucket URL followed by the returned key, the access
    key is the configured one, the ACL is 'public-read', the success
    status is 201 and the content type is empty. *)
Theorem sign_answer_fields (st : Store) (user : User) (t : Q) (now : Z)
    (data : Data) :
  snd (ApiSignS3PutRequestView.get t now st user data) = st
  /\ forall vd,
       encodable S3_SECRET_KEY ->
       is_valid st user data = Ok vd ->
       encodable (vd_video_filename vd) ->
       exists r,
         ApiSignS3PutRequestView.get t now st user data = (Response 200 r, st)
         /\ bucket_url r
            = py "https://" ++ S3_BUCKET_NAME ++ py ".s3.amazonaws.com/"
         /\ s3_file_url r = bucket_url r ++ key r
         /\ AWSAccessKeyId r = S3_ACCESS_KEY
         /\ acl r = py "public-read"
         /\ success_action_status r = 201
         /\ content_type r = [].
Proof.
  split.
  - unfold ApiSignS3PutRequestView.get.
    destruct (is_valid st user data) as [vd|e]; [|reflexivity].
    cbn [bind]. now destruct (create t now vd).
  - intros vd Hsecret Hvalid Hname.
    destruct (sign_is_valid_inv _ _ _ _ Hvalid) as [_ Htrim].
    destruct (create_value t now vd Hsecret Htrim Hname)
      as (object_name & policy_bytes & signature_bytes & Hcreate).
    eexists. unfold ApiSignS3PutRequestView.get.
    rewrite Hvalid. cbn [bind]. rewrite Hcreate. cbn [bind dispatch].
    split; [reflexivity|].
    cbn [bucket_url s3_file_url key AWSAccessKeyId acl
         success_action_status content_type].
    rewrite <- !app_assoc. repeat split.
Qed.
End SigningAnswer.

Section SignatureShape.
Import ApiSignS3PutRequestViewSerializer SigningFacts.
Context {C : Settings} {U : Utils} {L : PyLib} {Laws : PyLibLaws L}.

(** Four characters for every three octets, the last group padded. *)
Lemma b64encode_length (l : pybytes) :
  Z.of_nat (List.length (b64encode l))
  = 4 * ((Z.of_nat (List.length l) + 2) / 3).
Proof.
  induction l as [|a|a b|a b c r IH] using list_ind3.
  - reflexivity.
  - reflexivity.
  - reflexivity.
  - cbn [b64encode]. rewrite length_app.
    cbn [List.length]. rewrite Nat2Z.inj_add, IH.
    rewrite !Nat2Z.inj_succ. change (Z.of_nat 0) with 0.
    Z.div_mod_to_equations. lia.
Qed.

Lemma b64encode_nonempty (x : Z) (d : pybytes) : b64encode (x :: d) <> [].
Proof. destruct d as [|y [|z r]]; discriminate. Qed.

(** A short input is one line, and [strip] takes its newline off. *)
Lemma encodestring_one_line (d : pybytes) :
  d <> [] -> (List.length d <= 57)%nat -> Forall is_byte d ->
  bytes_strip (encodestring d) = b64encode d.
Proof.
  intros Hne Hlen Hbytes. unfold encodestring.
  destruct d as [|x d]; [contradiction|].
  cbn [List.length encodebytes_chunks].
  rewrite firstn_all2 by exact Hlen.
  rewrite skipn_all2 by exact Hlen.
  assert (Hrest : encodebytes_chunks (List.length d) [] = [])
    by (now destruct (List.length d)).
  rewrite Hrest. cbn [app].
  destruct (b64encode_no_space _ Hbytes) as (_ & Hsp & _).
  pose proof (b64encode_nonempty x d) as Hb.
  unfold bytes_strip, strip_with.
  rewrite lstrip_with_app;
    [|exact Hb | now apply lstrip_with_all].
  rewrite rev_app_distr. cbn [rev app lstrip_with].
  change (is_space_byte 10) with true. cbv iota.
  rewrite lstrip_with_all by now apply Forall_rev.
  apply rev_involutive.
Qed.

(** X17. When the HMAC digest is twenty octets, as a SHA-1 digest is, the
    signature of a valid request is the plain base64 encoding of the
    digest of the returned policy: twenty-eight characters, with no line
    break in or after it. *)
Theorem signature_is_base64_of_digest (st : Store) (user : User) (t : Q)
    (now : Z) (data : Data) (vd : Validated) :
  (forall k m, List.length (hmac_sha1_digest k m) = 20%nat
               /\ Forall is_byte (hmac_sha1_digest k m)) ->
  encodable S3_SECRET_KEY ->
  is_valid st user data = Ok vd ->
  encodable (vd_video_filename vd) ->
  exists r secret,
    ApiSignS3PutRequestView.get t now st user data = (Response 200 r, st)
    /\ utf8_encode S3_SECRET_KEY = Some secret
    /\ signature r = b64encode (hmac_sha1_digest secret (policy r))
    /\ List.length (signature r) = 28%nat
    /\ ~ In 10 (signature r).
Proof.
  intros Hdigest Hsecret Hvalid Hname.
  destruct (sign_is_valid_inv _ _ _ _ Hvalid) as [_ Htrim].
  destruct (create_Ok t now vd Hsecret Htrim Hname)
    as (r & stem & seed & secret & doc & Hcreate & _ & _ & _
        & Hsec & _ & _ & Hpol & Hsig).
  exists r, secret.
  split.
  { unfold ApiSignS3PutRequestView.get. rewrite Hvalid. cbn [bind].
    now rewrite Hcreate. }
  split; [exact Hsec|].
  destruct (Hdigest secret (b64encode doc)) as [Hlen Hbytes].
  assert (E : signature r = b64encode (hmac_sha1_digest secret (b64encode doc))).
  { rewrite Hsig. apply encodestring_one_line; [|lia|exact Hbytes].
    intros Hnil. rewrite Hnil in Hlen. discriminate. }
  rewrite Hpol. split; [exact E|]. rewrite E. split.
  - apply Nat2Z.inj. rewrite b64encode_length, Hlen. reflexivity.
  - intros Hin. destruct (b64encode_no_space _ Hbytes) as (_ & Hsp & _).
    rewrite Forall_forall in Hsp. specialize (Hsp 10 Hin). discriminate.
Qed.
End SignatureShape.

(** * The encoded file name *)

Section EncodedFileName.
Import ApiSignS3PutRequestViewSerializer.

Lemma utf8_char_Some_encodable (c : Z) (a : pybytes) :
  utf8_char c = Some a -> encodable_char c.
Proof.
  unfold utf8_char, encodable_char. intros H.
  split_ltb; try discriminate; lia.
Qed.

Lemma utf8_encode_Some_encodable (s : pystr) (b : pybytes) :
  utf8_encode s = Some b -> encodable s.
Proof.
  revert b. induction s as [|c r IH]; intros b H; [constructor|].
  cbn [utf8_encode] in H.
  destruct (utf8_char c) as [a|] eqn:Ec; [|discriminate].
  destruct (utf8_encode r) as [b'|]; [|discriminate].
  constructor; [eapply utf8_char_Some_encodable; eauto | eapply IH; eauto].
Qed.

Lemma encoded_file_name_inv (f e : pystr) :
  encoded_file_name f = Ok e ->
  exists stem, utf8_encode (fst (splitext f)) = Some stem
               /\ Forall is_byte stem
               /\ e = b64encode stem ++ snd (splitext f).
Proof.
  unfold encoded_file_name. destruct (splitext f) as [name ext].
  cbn [fst snd]. intros H. bind_inv_as H stem Hstem.
  apply Ok_eq_inv in H. subst e. apply encode_utf8_Ok in Hstem.
  exists stem. split; [exact Hstem|].
  split; [eapply utf8_encode_bytes; eauto | reflexivity].
Qed.

(** X18. The file name that signing puts into the object key determines
    the original name: two names with the same encoding are the same
    name. The encoding is the base64 of the stem's UTF-8 octets, four
    characters for every three octets, followed by the extension as it
    was; and it fails, with UnicodeEncodeError, exactly when the stem has
    a code point that UTF-8 cannot encode. *)
Theorem encoded_file_name_faithful (f1 : pystr) :
  (forall f2 e,
     encoded_file_name f1 = Ok e -> encoded_file_name f2 = Ok e -> f1 = f2)
  /\ (forall e,
        encoded_file_name f1 = Ok e ->
        exists stem,
          utf8_encode (fst (splitext f1)) = Some stem
          /\ e = b64encode stem ++ snd (splitext f1)
          /\ Z.of_nat (List.length e)
             = 4 * ((Z.of_nat (List.length stem) + 2) / 3)
               + Z.of_nat (List.length (snd (splitext f1))))
  /\ (encoded_file_name f1 = Raise (Uncaught "UnicodeEncodeError")
      <-> ~ encodable (fst (splitext f1)))
  /\ (forall x, encoded_file_name f1 = Raise x ->
                x = Uncaught "UnicodeEncodeError").
Proof.
  split; [|split; [|split]].
  - intros f2 e H1 H2.
    apply encoded_file_name_inv in H1 as (s1 & Hs1 & Hb1 & E1).
    apply encoded_file_name_inv in H2 as (s2 & Hs2 & Hb2 & E2).
    rewrite E1 in E2.
    assert (Hshape : forall f : pystr,
               snd (splitext f) = [] \/ exists x, snd (splitext f) = dot :: x).
    { intros f. destruct (splitext_ext f) as [E | (x & E & _)]; eauto. }
    apply stem_ext_unique in E2 as [Hb64 Hext];
      [| now apply b64encode_no_space | now apply b64encode_no_space
       | apply Hshape | apply Hshape].
    apply b64encode_inj in Hb64; [|assumption|assumption]. subst s2.
    rewrite <- (splitext_app f1), <- (splitext_app f2).
    f_equal; [|exact Hext]. eapply utf8_encode_inj; eauto.
  - intros e H. apply encoded_file_name_inv in H as (stem & Hs & _ & ->).
    exists stem. split; [exact Hs|]. split; [reflexivity|].
    rewrite length_app, Nat2Z.inj_add. f_equal. apply b64encode_length.
  - unfold encoded_file_name. destruct (splitext f1) as [name ext].
    cbn [fst]. unfold encode_utf8.
    destruct (utf8_encode name) as [b|] eqn:E; cbn [bind]; split.
    + discriminate.
    + intros Hn. exfalso. apply Hn. eapply utf8_encode_Some_encodable; eauto.
    + intros _ He. apply utf8_encode_encodable in He as [b Hb]. congruence.
    + reflexivity.
  - unfold encoded_file_name. destruct (splitext f1) as [name ext].
    unfold encode_utf8. destruct (utf8_encode name); cbn [bind];
      intros x H; [discriminate | now injection H].
Qed.
End EncodedFileName.

(** * The handlers at work in the reference environment *)

(** The validators of the reference environment fail by
    [ValidationError] only. *)
Lemma sample_utils_laws : UtilsLaws Sample.utils.
Proof.
  split; cbn.
  - intros _ [ids|]; auto with validation.
  - intros _ _ w _ _. destruct (Qle_bool w 0); auto with validation.
  - intros st d. destruct (clock st <? d); auto with validation.
  - auto with validation.
Qed.

Lemma video_without_proof_rejected_witness :
  opt_truthy (VideoVerificationSerializer.in_s3_file_url
                Sample.video_request_no_proof) = false
  /\ opt_truthy (VideoVerificationSerializer.in_video_url
                   Sample.video_request_no_proof) = false
  /\ exists detail,
       ApiVideoVerificationView.post (C := Sample.settings)
         (U := Sample.utils) Sample.store2 Sample.alice
         Sample.video_request_no_proof
       = (ErrorResponse 400 (ValidationError detail), Sample.store2).
Proof.
  split; [reflexivity|]. split; [reflexivity|].
  destruct (video_without_proof_rejected (C := Sample.settings)
              (UL := sample_utils_laws) Sample.store2 Sample.alice
              Sample.video_request_no_proof eq_refl eq_refl)
    as [(detail & _ & Hpost) _].
  exists detail. exact Hpost.
Defined.

Lemma congratulations_iff_main_competition_witness :
  exists vd m st',
    VideoVerificationSerializer.is_valid (U := Sample.utils)
      Sample.store2 Sample.alice Sample.video_request = Ok vd
    /\ ApiVideoVerificationView.post (C := Sample.settings)
         (U := Sample.utils) Sample.store2 Sample.alice Sample.video_request
       = (Response 201 m, st')
    /\ celery_queue st' = [pk m].
Proof.
  eexists.
  destruct (congratulations_iff_main_competition (C := Sample.settings)
              (U := Sample.utils) Sample.store2 Sample.alice
              Sample.video_request _ eq_refl)
    as (m & st' & Hpost & Hsome & _).
  exists m, st'. split; [reflexivity|]. split; [exact Hpost|].
  destruct (Hsome eq_refl) as [Hiff _].
  apply Hiff.
  exists {| competitor_id := 1; team_challenge_id := 7 |}.
  split; [now left | reflexivity].
Defined.

(** The placeholders of the reference environment have the shape the
    laws ask for. *)
Lemma sample_pylib_laws : PyLibLaws Sample.pylib.
Proof.
  split.
  - intros m. split; [reflexivity|].
    cbn. repeat (apply Forall_cons; [unfold is_hexdigit; lia|]).
    apply Forall_nil.
  - intros d. cbn. apply Forall_forall. intros c Hc.
    apply filter_In in Hc as [_ Hc]. apply andb_prop in Hc as [H1 H2].
    apply Z.leb_le in H1. apply Z.ltb_lt in H2. lia.
Qed.

(** C6 as the specification words it does not hold: two requests of the
    same user at the same time whose file names differ, one being the
    other with a space before and after, are both answered 200 with the
    same key. *)
Lemma sign_padded_name_shares_key :
  ApiSignS3PutRequestViewSerializer.in_video_filename Sample.sign_request
  = Some (py " run 1.mp4 ")
  /\ ApiSignS3PutRequestViewSerializer.in_video_filename
       Examples.sign_request_trimmed
     = Some (py "run 1.mp4")
  /\ py " run 1.mp4 " <> py "run 1.mp4"
  /\ exists r r',
       @ApiSignS3PutRequestView.get Sample.settings Sample.utils Sample.pylib
         1700000000 0 Sample.store0 Sample.alice Sample.sign_request
       = (Response 200 r, Sample.store0)
       /\ @ApiSignS3PutRequestView.get Sample.settings Sample.utils
            Sample.pylib 1700000000 0 Sample.store0 Sample.alice
            Examples.sign_request_trimmed
          = (Response 200 r', Sample.store0)
       /\ key r' = key r.
Proof.
  split; [reflexivity|]. split; [reflexivity|]. split; [discriminate|].
  do 2 eexists. split; [vm_compute; reflexivity|].
  split; [vm_compute; reflexivity|]. reflexivity.
Qed.

Lemma sign_key_and_signature_witness :
  encodable (@S3_SECRET_KEY Sample.settings)
  /\ @ApiSignS3PutRequestViewSerializer.is_valid Sample.utils
       Sample.store0 Sample.alice Sample.sign_request
     = Ok Sample.sign_validated
  /\ encodable (py "run 1.mp4")
  /\ exists r,
       @ApiSignS3PutRequestView.get Sample.settings Sample.utils Sample.pylib
         1700000000 0 Sample.store0 Sample.alice Sample.sign_request
       = (Response 200 r, Sample.store0)
       /\ key r = repeat 48 40%nat ++ py "-A1-" ++ py "cnVuIDE=" ++ py ".mp4".
Proof.
  split; [apply py_encodable|].
  split; [reflexivity|].
  split; [apply py_encodable|].
  destruct (@sign_key_and_signature Sample.settings Sample.utils Sample.pylib
              sample_pylib_laws Sample.store0 Sample.alice 1700000000 0
              Sample.sign_request Sample.sign_validated
              (py_encodable _) eq_refl (py_encodable _))
    as (raw & r & stem & seed & secret & doc & Hraw & _ & Hget & Hstem & _ & _
        & _ & Hkey & _).
  exists r. split; [exact Hget|].
  apply some_eq_inv in Hraw. subst raw.
  rewrite Hkey. vm_compute in Hstem. apply some_eq_inv in Hstem.
  subst stem. reflexivity.
Defined.

Lemma foreign_measurement_protected_witness :
  participant (Sample.row 2 2 (90 # 1) 18991 200) <> user_id Sample.alice
  /\ (exists rows,
        @RetrieveWeighinAPIView.get Sample.managers Sample.store2 Sample.alice
        = (Response 200 rows, Sample.store2)
        /\ ~ In (Sample.row 2 2 (90 # 1) 18991 200) rows)
  /\ @UpdateWeight.update Sample.utils Sample.pylib false Sample.store2
       Sample.alice 2 Sample.update_request
     = (ErrorResponse 403 PermissionDenied, Sample.store2)
  /\ DeleteWeightAPIView.delete Sample.store2 Sample.alice 2
     = (ErrorResponse 403 PermissionDenied, Sample.store2).
Proof.
  assert (Hother : participant (Sample.row 2 2 (90 # 1) 18991 200)
                   <> user_id Sample.alice) by (cbn; lia).
  split; [exact Hother|].
  destruct (@foreign_measurement_protected Sample.utils Sample.managers
              Sample.pylib Sample.store2 Sample.alice _ Hother)
    as [Hlist Hwrite].
  split; [exact Hlist|].
  destruct (Hwrite 2 eq_refl) as (_ & Hupdate & Hdelete).
  split; [apply Hupdate | exact Hdelete].
Defined.

Lemma delta_report_witness :
  Permutation
    (before_date (Managers := Sample.managers)
       (weights Sample.store_delta) Sample.alice 19000)
    [Sample.row 1 1 (100 # 1) 18990 100; Sample.row 3 1 (95 # 1) 18995 200]
  /\ exists r,
       UnverifiedWeightSerializer.to_representation (M := Sample.managers)
         Sample.store_delta Sample.alice 19000 = Ok r
       /\ UnverifiedWeightSerializer.first_entry r = false
       /\ UnverifiedWeightSerializer.lost_weight r = inl (py "lost")
       /\ (UnverifiedWeightSerializer.weight_difference r == 5)%Q
       /\ UnverifiedWeightSerializer.delta_weight_unit r = py "kg".
Proof.
  split; [apply Permutation_refl|].
  apply (proj1 (delta_report (M := Sample.managers)
                  Sample.store_delta Sample.alice 19000)
           (Sample.row 1 1 (100 # 1) 18990 100)
           (Sample.row 3 1 (95 # 1) 18995 200)).
  - reflexivity.
  - apply Permutation_refl.
  - reflexivity.
  - reflexivity.
  - cbn. lia.
Defined.

Lemma stored_weights_are_one_conversion_witness :
  exists w st',
    CreateWeighinAPIView.post (U := Sample.utils) (R := Sample.rendering)
      19000 Sample.store0 Sample.alice (Some (py "self-reported"))
      Sample.weighin_request
    = (Response 200 (Saved w), st')
    /\ (weight_kilograms w, weight_in_pounds w)
       = convert_weight_to_kgs_and_lbs (Utils := Sample.utils)
           (py "kg") (80 # 1).
Proof.
  eexists. eexists. split; [reflexivity|].
  destruct (proj1 (stored_weights_are_one_conversion
                     (C := Sample.settings) (U := Sample.utils)
                     (M := Sample.managers) (L := Sample.pylib)
                     (R := Sample.rendering)
                     Sample.store0 _ Sample.alice)
              19000 (Some (py "self-reported")) Sample.weighin_request _
              eq_refl)
    as (submitted & validated & Hsubmitted & Hvalidated & Hconv & _).
  cbn in Hsubmitted. apply some_eq_inv in Hsubmitted. subst submitted.
  cbn in Hvalidated. apply Ok_eq_inv in Hvalidated. subst validated.
  exact Hconv.
Defined.

Lemma self_reported_date_is_today_witness :
  exists vd w st',
    WeightSerializer.is_valid (U := Sample.utils) Sample.store0 Sample.alice
      Sample.weighin_request = Ok vd
    /\ WeightSerializer.in_date_of_measurement Sample.weighin_request
       = Some 18999
    /\ CreateWeighinAPIView.post (U := Sample.utils) (R := Sample.rendering)
         19000 Sample.store0 Sample.alice (Some (py "self-reported"))
         Sample.weighin_request
       = (Response 200 (Saved w), st')
    /\ weights st' = weights Sample.store0 ++ [w]
    /\ date_of_measurement w = 19000.
Proof.
  eexists.
  destruct (proj1 (self_reported_date_is_today (U := Sample.utils)
                     (R := Sample.rendering) 19000 Sample.store0
                     Sample.alice Sample.weighin_request) _ eq_refl)
    as (w & st' & Hpost & Hstored & Hdate).
  exists w, st'. split; [reflexivity|]. split; [reflexivity|].
  split; [exact Hpost|]. split; [exact Hstored | exact Hdate].
Defined.

Lemma weighin_create_accepts_bad_type_witness :
  exists reply,
    CreateWeighinAPIView.post (U := Sample.utils) (R := Sample.rendering)
      19000 Sample.store0 Sample.alice None Sample.weighin_request
    = (reply, Sample.store0)
    /\ client_error (status_code reply) = false.
Proof.
  destruct (weighin_create_accepts_bad_type Sample.rendering None
              (or_introl eq_refl)) as (reply & Hpost & Hstatus & _).
  exists reply. split; [exact Hpost | exact Hstatus].
Defined.


Lemma delta_report_direction_witness :
  (1 < List.length
         (before_date (Managers := Sample.managers)
            (weights Sample.store_delta) Sample.alice 19000))%nat
  /\ exists new old rest r,
       Permutation (new :: old :: rest)
         (before_date (Managers := Sample.managers)
            (weights Sample.store_delta) Sample.alice 19000)
       /\ UnverifiedWeightSerializer.to_representation (M := Sample.managers)
            Sample.store_delta Sample.alice 19000 = Ok r
       /\ ((weight_kilograms new <= weight_kilograms old)%Q ->
           UnverifiedWeightSerializer.lost_weight r = inl (py "lost")).
Proof.
  assert (Hlen : (1 < List.length
                        (before_date (Managers := Sample.managers)
                           (weights Sample.store_delta) Sample.alice 19000))%nat)
    by (cbn; lia).
  split; [exact Hlen|].
  destruct (delta_report_direction (M := Sample.managers)
              Sample.store_delta Sample.alice 19000 Hlen)
    as (new & old & rest & r & Hperm & _ & _ & Hrep & Hlost & _).
  exists new, old, rest, r. split; [exact Hperm|]. split; [exact Hrep|].
  intros Hle. exact (proj1 (Hlost Hle)).
Defined.

Lemma unverified_post_stores_witness :
  exists delta st' w,
    CreateUnverifiedWeighinAPIView.post (U := Sample.utils)
      (M := Sample.managers) Sample.store0 Sample.alice
      (Some (py "verified")) Sample.unverified_request_gif
    = (Response 200 delta, st')
    /\ weights st' = weights Sample.store0 ++ [w]
    /\ verified w = false.
Proof.
  eexists. eexists.
  destruct (unverified_post_stores (U := Sample.utils)
              (M := Sample.managers) Sample.store0 _ Sample.alice
              (Some (py "verified")) Sample.unverified_request_gif _ eq_refl)
    as (w & Hst & _ & _ & _ & Hverified & _).
  exists w. split; [reflexivity|]. split; [exact Hst | exact Hverified].
Defined.

Lemma weighin_post_stores_witness :
  exists w st',
    CreateWeighinAPIView.post (U := Sample.utils) (R := Sample.rendering)
      19000 Sample.store0 Sample.alice (Some (py "verified"))
      Sample.weighin_request
    = (Response 200 (Saved w), st')
    /\ weights st' = weights Sample.store0 ++ [w]
    /\ verified w = false /\ method w = py "mobile".
Proof.
  eexists. eexists. split; [reflexivity|].
  destruct (weighin_post_stores (U := Sample.utils) (R := Sample.rendering)
              19000 Sample.store0 _ Sample.alice (Some (py "verified"))
              Sample.weighin_request _ eq_refl)
    as (Hrows & _ & _ & _ & _ & Hverified & Hmethod & _).
  split; [exact Hrows|]. split; [exact Hverified | exact Hmethod].
Defined.

Lemma weighin_post_missing_entries_witness :
  WeightSerializer.in_weight Examples.weighin_no_weight = None
  /\ CreateWeighinAPIView.post (U := Sample.utils) (R := Sample.rendering)
       19000 Sample.store0 Sample.alice (Some (py "self-reported"))
       Examples.weighin_no_weight
     = (ErrorResponse 500 (Uncaught "TypeError"), Sample.store0).
Proof.
  split; [reflexivity|].
  apply (proj1 (weighin_post_missing_entries (U := Sample.utils)
                  (M := Sample.managers) (R := Sample.rendering) 19000
                  Sample.store0 Sample.alice (Some (py "self-reported"))
                  Examples.weighin_no_weight) (Some 18999));
    reflexivity.
Defined.

Lemma video_post_stores_witness :
  exists m st',
    ApiVideoVerificationView.post (C := Sample.settings) (U := Sample.utils)
      Sample.store2 Sample.alice Sample.video_request
    = (Response 201 m, st')
    /\ In m (weights st')
    /\ verified m = true
    /\ verifier_file m = Some (py "https://weighins.s3.amazonaws.com/k")
    /\ video_link m = None.
Proof.
  eexists. eexists. split; [reflexivity|].
  destruct (video_post_stores (C := Sample.settings) (U := Sample.utils)
              Sample.store2 _ Sample.alice Sample.video_request _ eq_refl)
    as (Hstored & _ & _ & _ & Hverified & _ & _ & _ & _ & _ & Hfile & _).
  split; [exact Hstored|]. split; [exact Hverified|].
  exact (Hfile _ eq_refl).
Defined.

Lemma sample_store2_keys_fresh : keys_fresh Sample.store2.
Proof.
  split; cbn.
  - repeat constructor; cbn; intuition lia.
  - repeat constructor; cbn; lia.
Qed.

Lemma delete_removes_the_row_witness :
  exists obj st',
    get_object (weights Sample.store2) Sample.bob 2 = Ok obj
    /\ DeleteWeightAPIView.delete Sample.store2 Sample.bob 2
       = (Response 204 tt, st')
    /\ get_object_or_404 (weights st') 2 = Raise Http404.
Proof.
  eexists.
  destruct (proj1 (delete_removes_the_row Sample.store2 Sample.bob 2)
              _ eq_refl) as (st' & Hdelete & _ & Hgone & _).
  exists st'. split; [reflexivity|]. split; [exact Hdelete | exact Hgone].
Defined.

Lemma create_then_delete_restores_witness :
  exists delta st1 st2,
    keys_fresh Sample.store2
    /\ CreateUnverifiedWeighinAPIView.post (U := Sample.utils)
         (M := Sample.managers) Sample.store2 Sample.alice
         (Some (py "self-reported")) Sample.unverified_request_gif
       = (Response 200 delta, st1)
    /\ DeleteWeightAPIView.delete st1 Sample.alice 3 = (Response 204 tt, st2)
    /\ weights st2 = weights Sample.store2.
Proof.
  eexists. eexists. eexists.
  split; [exact sample_store2_keys_fresh|].
  split; [reflexivity|]. split; [reflexivity|].
  exact (proj1 (create_then_delete_restores (U := Sample.utils)
                  (M := Sample.managers) Sample.store2 _ _ Sample.alice
                  (Some (py "self-reported")) Sample.unverified_request_gif _
                  sample_store2_keys_fresh eq_refl eq_refl)).
Defined.

Lemma update_rewrites_the_row_witness :
  exists w st',
    UpdateWeight.update (U := Sample.utils) (L := Sample.pylib) false
      Sample.store2 Sample.bob 2 Examples.update_request_png
    = (Response 200 w, st')
    /\ verifier_file w = Some (py "scale.PNG")
    /\ participant w = 2.
Proof.
  eexists. eexists. split; [reflexivity|].
  destruct (update_rewrites_the_row (U := Sample.utils) (L := Sample.pylib)
              false Sample.store2 _ Sample.bob 2 Examples.update_request_png
              _ eq_refl)
    as (obj & Hobj & _ & Howner & _ & _ & _ & _ & _ & _ & Himage & _).
  split; [exact (Himage _ eq_refl)|].
  rewrite Howner. vm_compute in Hobj. apply Ok_eq_inv in Hobj.
  now subst obj.
Defined.

Lemma update_rejects_unsupported_image_witness :
  exists obj attrs attrs',
    get_object (weights Sample.store2) Sample.bob 2 = Ok obj
    /\ UpdateWeightSerializer.to_internal_value (U := Sample.utils)
         Sample.store2 false Examples.update_request_gif = Ok attrs
    /\ UpdateWeight.update (U := Sample.utils) (L := Sample.pylib) false
         Sample.store2 Sample.bob 2 Examples.update_request_gif
       = (ErrorResponse 400
            (ValidationError
               (py "Images must be in PNG or JPG or JPEG format")),
          Sample.store2)
    /\ UpdateWeightSerializer.to_internal_value (U := Sample.utils)
         Sample.store2 true Examples.update_request_image_only = Ok attrs'
    /\ UpdateWeight.update (U := Sample.utils) (L := Sample.pylib) true
         Sample.store2 Sample.bob 2 Examples.update_request_image_only
       = (ErrorResponse 500 (Uncaught "TypeError"), Sample.store2).
Proof.
  eexists. eexists. eexists.
  split; [reflexivity|]. split; [reflexivity|].
  split.
  - exact (proj1 (update_rejects_unsupported_image (U := Sample.utils)
                    (L := Sample.pylib) false Sample.store2 Sample.bob 2
                    Examples.update_request_gif _ _ eq_refl eq_refl)
             _ _ eq_refl eq_refl eq_refl).
  - split; [reflexivity|].
    exact (proj2 (update_rejects_unsupported_image (U := Sample.utils)
                    (L := Sample.pylib) true Sample.store2 Sample.bob 2
                    Examples.update_request_image_only _ _ eq_refl eq_refl)
             eq_refl).
Defined.

Lemma sign_answer_fields_witness :
  exists r,
    ApiSignS3PutRequestView.get (C := Sample.settings) (U := Sample.utils)
      (L := Sample.pylib) 1700000000 0 Sample.store0 Sample.alice
      Sample.sign_request
    = (Response 200 r, Sample.store0)
    /\ s3_file_url r = bucket_url r ++ key r.
Proof.
  destruct (proj2 (sign_answer_fields (C := Sample.settings)
                     (U := Sample.utils) (L := Sample.pylib)
                     (Laws := sample_pylib_laws) Sample.store0 Sample.alice
                     1700000000 0 Sample.sign_request)
              Sample.sign_validated (py_encodable _) eq_refl
              (py_encodable _))
    as (r & Hget & _ & Hurl & _).
  exists r. split; [exact Hget | exact Hurl].
Defined.

Lemma signature_is_base64_of_digest_witness :
  exists r,
    ApiSignS3PutRequestView.get (C := Sample.settings) (U := Sample.utils)
      (L := Sample.pylib) 1700000000 0 Sample.store0 Sample.alice
      Sample.sign_request
    = (Response 200 r, Sample.store0)
    /\ List.length (signature r) = 28%nat.
Proof.
  assert (Hdigest : forall k m,
            List.length (hmac_sha1_digest (PyLib := Sample.pylib) k m)
            = 20%nat
            /\ Forall is_byte (hmac_sha1_digest (PyLib := Sample.pylib) k m)).
  { intros k m. split; [reflexivity|].
    cbn. repeat (apply Forall_cons; [unfold is_byte; lia|]).
    apply Forall_nil. }
  destruct (signature_is_base64_of_digest (C := Sample.settings)
              (U := Sample.utils) (L := Sample.pylib)
              (Laws := sample_pylib_laws) Sample.store0 Sample.alice
              1700000000 0 Sample.sign_request Sample.sign_validated
              Hdigest (py_encodable _) eq_refl (py_encodable _))
    as (r & secret & Hget & _ & _ & Hlen & _).
  exists r. split; [exact Hget | exact Hlen].
Defined.

Lemma encoded_file_name_faithful_witness :
  ApiSignS3PutRequestViewSerializer.encoded_file_name (py "run 1.mp4")
  = Ok (py "cnVuIDE=.mp4")
  /\ forall f2,
       ApiSignS3PutRequestViewSerializer.encoded_file_name f2
       = Ok (py "cnVuIDE=.mp4") ->
       py "run 1.mp4" = f2.
Proof.
  split; [reflexivity|].
  intros f2 H2.
  exact (proj1 (encoded_file_name_faithful (py "run 1.mp4")) f2 _
           eq_refl H2).
Defined.
